(** * tf_vqvae: the image VQ-VAE of [helpers/model.py]

    A shallow embedding of [ResBlock], [get_encoder], [get_decoder] and
    [get_image_vqvae], together with the part of the Keras layer semantics
    these functions rely on (the checks of the layer constructors, static
    shape inference and the numeric forward pass), followed by the
    properties of the architecture.

    Conventions.
    - The layers are defined over any type of scalars that has the
      arithmetic of the forward pass (class [Scalar]).  Two instances are
      used: the real numbers, which abstract rounding, overflow, the
      infinities and NaN away, and [IEEE.t], the real numbers extended with
      the two infinities and NaN, with the arithmetic of IEEE 754 on these
      special values (rounding, overflow and the sign of zero remain
      abstracted).
    - A per-sample shape is the triple (height, width, channels).  A batch
      carries its per-sample shape together with the list of its images,
      so that the shape of an empty batch, or of images without rows, is
      known; the batch axis, which Keras writes [None] in a static shape,
      is the list itself.
    - The variables a Keras layer creates when it is built (kernels, biases,
      normalisation statistics, the codebook) are explicit arguments of the
      layer constructors, so every statement quantifies over all weights.
    - A Python exception is the [Raise] case of [result].
    - A layer called on a batch checks the shape of the batch as shape
      inference does for a symbolic tensor.  Where the framework would run
      an operation on a tensor without rows, columns or channels although
      shape inference rejects its shape, the model reports the error of
      shape inference; the statements about calls are made for batches
      with at least one row, one column and one channel.
    - Which strings the framework accepts as the name of a layer or of a
      model depends on its version; the two checks are the fields of the
      class [Framework]. *)

From Stdlib Require Import String Ascii DecimalString DecimalNat.
From Stdlib Require Import Reals Lra Lia Bool Arith PeanoNat ZArith List.
Import ListNotations.

Local Open Scope nat_scope.
Local Open Scope list_scope.

(* ================================================================== *)
(** * Python exceptions as an error monad *)

Inductive exn : Type :=
| ValueError             (* a shape or configuration the framework rejects *)
| TypeError              (* a call that does not match the function's signature *)
| InvalidArgumentError.  (* [tf.errors.InvalidArgumentError]: an operation
                            executed on tensors whose shapes do not fit *)

Inductive result (A : Type) : Type :=
| Ok (a : A)
| Raise (e : exn).

Arguments Ok {A} a.
Arguments Raise {A} e.

Definition bind {A B : Type} (r : result A) (k : A -> result B) : result B :=
  match r with
  | Ok a => k a
  | Raise e => Raise e
  end.

Notation "x <- r ;; k" := (bind r (fun x => k))
  (at level 61, r at next level, right associativity).
Notation "' p <- r ;; k" := (bind r (fun p => k))
  (at level 61, p pattern, r at next level, right associativity, only parsing).

Fixpoint mapM {A B : Type} (f : A -> result B) (l : list A) : result (list B) :=
  match l with
  | [] => Ok []
  | a :: l' => b <- f a ;; bs <- mapM f l' ;; Ok (b :: bs)
  end.

Fixpoint foldM {A S : Type} (f : A -> S -> result S) (l : list A) (s : S) : result S :=
  match l with
  | [] => Ok s
  | a :: l' => s' <- f a s ;; foldM f l' s'
  end.

(** [str(i)] of a non-negative Python integer, as an f-string prints it. *)
Definition str (i : nat) : string := NilEmpty.string_of_uint (Nat.to_uint i).

(** [l.insert(i, x)] of a Python list, for a non-negative index. *)
Definition list_insert {A : Type} (i : nat) (x : A) (l : list A) : list A :=
  firstn i l ++ x :: skipn i l.

(* ================================================================== *)
(** * Scalars *)

(** The arithmetic the forward pass uses. *)
Class Scalar (T : Type) : Type := {
  of_R : R -> T;          (* a real constant as a value of the type *)
  sadd : T -> T -> T;
  ssub : T -> T -> T;
  smul : T -> T -> T;
  sdiv : T -> T -> T;
  ssqrt : T -> T;
  smax : T -> T -> T;
  stanh : T -> T
}.

Declare Scope scalar_scope.
Delimit Scope scalar_scope with S.
Infix "+" := sadd : scalar_scope.
Infix "-" := ssub : scalar_scope.
Infix "*" := smul : scalar_scope.
Infix "/" := sdiv : scalar_scope.

Abbreviation zero := (of_R 0%R).

(** The real numbers: exact arithmetic, no special values. *)
#[export] Instance R_Scalar : Scalar R :=
  {| of_R := fun r => r;
     sadd := Rplus;
     ssub := Rminus;
     smul := Rmult;
     sdiv := Rdiv;
     ssqrt := sqrt;
     smax := Rmax;
     stanh := Rtrigo_def.tanh |}.

(** The real numbers extended with the special values of a floating-point
    format.  On finite values the arithmetic is exact; on the special
    values it follows IEEE 754: a NaN operand gives NaN, as do
    [inf - inf], [0 * inf], [0 / 0], [inf / inf] and the square root of a
    negative number, and the maximum propagates NaN as [tf.nn.relu] does. *)
Module IEEE.

Inductive t : Type :=
| finite (r : R)
| pinf
| ninf
| nan.

Definition sign (r : R) : comparison :=
  if Rlt_dec 0 r then Gt else if Rlt_dec r 0 then Lt else Eq.

(** Infinity with the given sign; NaN for the sign of zero. *)
Definition inf_of (c : comparison) : t :=
  match c with
  | Gt => pinf
  | Lt => ninf
  | Eq => nan
  end.

Definition opp (x : t) : t :=
  match x with
  | finite a => finite (- a)
  | pinf => ninf
  | ninf => pinf
  | nan => nan
  end.

Definition add (x y : t) : t :=
  match x, y with
  | nan, _ | _, nan => nan
  | finite a, finite b => finite (a + b)
  | pinf, ninf | ninf, pinf => nan
  | pinf, _ | _, pinf => pinf
  | ninf, _ | _, ninf => ninf
  end.

Definition sub (x y : t) : t := add x (opp y).

Definition mul (x y : t) : t :=
  match x, y with
  | nan, _ | _, nan => nan
  | finite a, finite b => finite (a * b)
  | finite a, pinf | pinf, finite a => inf_of (sign a)
  | finite a, ninf | ninf, finite a => inf_of (CompOpp (sign a))
  | pinf, pinf | ninf, ninf => pinf
  | pinf, ninf | ninf, pinf => ninf
  end.

Definition div (x y : t) : t :=
  match x, y with
  | nan, _ | _, nan => nan
  | finite a, finite b =>
      match sign b with
      | Eq => inf_of (sign a)
      | _ => finite (a / b)
      end
  | finite _, pinf | finite _, ninf => finite 0
  | pinf, finite b => match sign b with Lt => ninf | _ => pinf end
  | ninf, finite b => match sign b with Lt => pinf | _ => ninf end
  | _, _ => nan
  end.

Definition sqrt (x : t) : t :=
  match x with
  | finite a => match sign a with Lt => nan | _ => finite (R_sqrt.sqrt a) end
  | pinf => pinf
  | ninf => nan
  | nan => nan
  end.

Definition max (x y : t) : t :=
  match x, y with
  | nan, _ | _, nan => nan
  | pinf, _ | _, pinf => pinf
  | ninf, z | z, ninf => z
  | finite a, finite b => finite (Rmax a b)
  end.

Definition tanh (x : t) : t :=
  match x with
  | finite a => finite (Rtrigo_def.tanh a)
  | pinf => finite 1
  | ninf => finite (-1)
  | nan => nan
  end.

End IEEE.

#[export] Instance IEEE_Scalar : Scalar IEEE.t :=
  {| of_R := IEEE.finite;
     sadd := IEEE.add;
     ssub := IEEE.sub;
     smul := IEEE.mul;
     sdiv := IEEE.div;
     ssqrt := IEEE.sqrt;
     smax := IEEE.max;
     stanh := IEEE.tanh |}.

(* ================================================================== *)
(** * Names of layers and models *)

Definition letter (a : ascii) : bool :=
  let n := nat_of_ascii a in
  ((65 <=? n) && (n <=? 90)) || ((97 <=? n) && (n <=? 122)).

Definition digit (a : ascii) : bool :=
  let n := nat_of_ascii a in (48 <=? n) && (n <=? 57).

Definition plain_char (a : ascii) : bool :=
  letter a || digit a || Ascii.eqb a "_".

Fixpoint all_chars (p : ascii -> bool) (s : string) : bool :=
  match s with
  | EmptyString => true
  | String a s' => p a && all_chars p s'
  end.

(** A name made of letters, digits and underscores that starts with a
    letter. *)
Definition plain_name (s : string) : bool :=
  match s with
  | EmptyString => false
  | String a _ => letter a && all_chars plain_char s
  end.

(** The checks the framework applies to the [name] argument of a layer
    and of a model.  Which strings pass depends on the version of the
    framework (one rejects a name that contains [/], another a name that
    is not a valid name scope; one checks the name of a model when the
    model is created, another does not); every version accepts a plain
    name. *)
Class Framework : Type := {
  valid_layer_name : string -> bool;
  valid_model_name : string -> bool;
  plain_layer_name : forall s, plain_name s = true -> valid_layer_name s = true;
  plain_model_name : forall s, plain_name s = true -> valid_model_name s = true
}.

(* ================================================================== *)
(** * Tensors *)

(** Per-sample shape (height, width, channels). *)
Definition shape : Type := (nat * nat * nat)%type.

Abbreviation pixel_vec T := (list T).                    (* channels *)
Abbreviation image T := (list (list (list T))).          (* height x width x channels *)
Abbreviation images T := (list (list (list (list T)))).  (* batch x height x width x channels *)

(** A batch of images: the shape of each image and the images. *)
Record batch (T : Type) : Type := {
  sample_shape : shape;
  values : images T
}.

Arguments Build_batch {T} sample_shape values.
Arguments sample_shape {T} b.
Arguments values {T} b.

Section tensors.

Context {T : Type} {ST : Scalar T}.

(** Entry (i, j, c) of an image; positions outside the image read as 0,
    which is what zero padding supplies. *)
Definition pixel (x : image T) (i j c : nat) : T :=
  nth c (nth j (nth i x []) []) zero.

(** [x] is a rectangular image of shape [s]. *)
Definition has_shape (s : shape) (x : image T) : Prop :=
  let '(h, w, c) := s in
  length x = h /\
  Forall (fun row => length row = w /\ Forall (fun px => length px = c) row) x.

(** [x] is a batch of [n] images of shape [s]. *)
Definition batch_has_shape (n : nat) (s : shape) (x : batch T) : Prop :=
  sample_shape x = s /\ length (values x) = n /\ Forall (has_shape s) (values x).

(** The image whose entry (i, j, o) is [f i j o]. *)
Definition tabulate (s : shape) (f : nat -> nat -> nat -> T) : image T :=
  let '(h, w, c) := s in
  map (fun i => map (fun j => map (fun o => f i j o) (seq 0 c)) (seq 0 w)) (seq 0 h).

Definition map_image (f : T -> T) (x : image T) : image T := map (map (map f)) x.

Definition sum_list (l : list T) : T := fold_right sadd zero l.

(** Sum of [f 0 + ... + f (n-1)]. *)
Definition sum_upto (n : nat) (f : nat -> T) : T := sum_list (map f (seq 0 n)).


End tensors.

(* ================================================================== *)
(** * The Keras layers used by the model *)

(** [tf.keras.activations] *)
Module activations.

Inductive t : Type := relu | tanh.

Definition apply {T : Type} {ST : Scalar T} (f : t) (v : T) : T :=
  match f with
  | relu => smax v zero
  | tanh => stanh v
  end.

End activations.

Module keras.

Inductive padding : Type := same | valid.

Section layers.

Context {T : Type}.

(** Entry (i, j, c, o) of a convolution kernel array.  For [Conv2D] the
    array has shape (kernel, kernel, in_channels, filters); for
    [Conv2DTranspose] it has shape (kernel, kernel, filters, in_channels).
    Only indices inside the array are ever read. *)
Definition kernel : Type := nat -> nat -> nat -> nat -> T.
Definition bias : Type := nat -> T.

(** The per-channel variables of a [BatchNormalization] layer. *)
Record bn_vars : Type := {
  gamma : nat -> T;
  beta : nat -> T;
  moving_mean : nat -> T;
  moving_variance : nat -> T
}.

(** A layer expression of the source, [tf.keras.layers.Conv2D(...)] and
    the like, with its arguments; [__init__] below is its evaluation. *)
Inductive layer : Type :=
| Activation (f : activations.t)
| LeakyReLU (alpha : T)
| BatchNormalization (epsilon : T) (v : bn_vars)
| Conv2D (filters kernel_size strides : nat) (pad : padding) (use_bias : bool)
         (k : kernel) (b : bias)
| Conv2DTranspose (filters kernel_size strides : nat) (pad : padding) (use_bias : bool)
                  (k : kernel) (b : bias).

(** What the constructor of a layer checks: a convolution needs a
    positive number of filters, and neither its kernel size nor its
    stride may be 0. *)
Definition __init__ (l : layer) : result layer :=
  match l with
  | Conv2D filters kernel_size strides _ _ _ _
  | Conv2DTranspose filters kernel_size strides _ _ _ _ =>
      if (filters =? 0) || (kernel_size =? 0) || (strides =? 0)
      then Raise ValueError
      else Ok l
  | _ => Ok l
  end.

End layers.

Arguments kernel T : clear implicits.
Arguments bias T : clear implicits.
Arguments bn_vars T : clear implicits.
Arguments layer T : clear implicits.

(** [super().__init__(name = name)] of a layer: a name, when one is
    given, has to pass the check of the framework. *)
Definition valid_name_argument {FW : Framework} (name : option string) : bool :=
  match name with
  | None => true
  | Some s => valid_layer_name s
  end.

Definition Layer__init__ {FW : Framework} (name : option string)
    : result (option string) :=
  if valid_name_argument name then Ok name else Raise ValueError.

(** ** Static shape inference *)

(** The output length of a convolution along one axis.  With "valid"
    padding the kernel has to fit into the input; a zero stride is
    rejected. *)
Definition conv_output_length (input_length filter_size : nat) (pad : padding)
    (stride : nat) : result nat :=
  if stride =? 0 then Raise ValueError
  else match pad with
       | same => Ok ((input_length + stride - 1) / stride)
       | valid =>
           if input_length <? filter_size then Raise ValueError
           else Ok ((input_length - filter_size + stride) / stride)
       end.

(** [conv_utils.deconv_output_length] without output padding. *)
Definition deconv_output_length (input_length filter_size : nat) (pad : padding)
    (stride : nat) : result nat :=
  if stride =? 0 then Raise ValueError
  else match pad with
       | same => Ok (input_length * stride)
       | valid => Ok (input_length * stride + (filter_size - stride))
       end.

(** The shape of [layer(t)] for a tensor of per-sample shape [s]; a
    convolution rejects an input without channels. *)
Definition compute_output_shape {T : Type} (l : layer T) (s : shape) : result shape :=
  let '(h, w, c) := s in
  match l with
  | Activation _ | LeakyReLU _ | BatchNormalization _ _ => Ok s
  | Conv2D filters kernel_size strides pad _ _ _ =>
      if c =? 0 then Raise ValueError
      else
        h' <- conv_output_length h kernel_size pad strides ;;
        w' <- conv_output_length w kernel_size pad strides ;;
        Ok (h', w', filters)
  | Conv2DTranspose filters kernel_size strides pad _ _ _ =>
      if c =? 0 then Raise ValueError
      else
        h' <- deconv_output_length h kernel_size pad strides ;;
        w' <- deconv_output_length w kernel_size pad strides ;;
        Ok (h', w', filters)
  end.

(** Output shape of [tf.keras.Sequential(layers)]. *)
Definition Sequential_output_shape {T : Type} (layers : list (layer T)) (s : shape)
    : result shape :=
  foldM compute_output_shape layers s.

(** Shape of [a + b] under broadcasting: along every axis the sizes agree
    or one of them is 1. *)
Definition broadcast_dim (a b : nat) : result nat :=
  if a =? b then Ok a
  else if a =? 1 then Ok b
  else if b =? 1 then Ok a
  else Raise ValueError.

Definition broadcast_shape (s1 s2 : shape) : result shape :=
  let '(h1, w1, c1) := s1 in
  let '(h2, w2, c2) := s2 in
  h <- broadcast_dim h1 h2 ;;
  w <- broadcast_dim w1 w2 ;;
  c <- broadcast_dim c1 c2 ;;
  Ok (h, w, c).

(** ** Numeric forward pass *)

(** Rows (columns) of zero padding put before the data by "same" padding. *)
Definition pad_before (input_length filter_size stride : nat) (pad : padding) : nat :=
  match pad with
  | valid => 0
  | same =>
      let out := Z.of_nat ((input_length + stride - 1) / stride) in
      let total := Z.max ((out - 1) * Z.of_nat stride + Z.of_nat filter_size
                          - Z.of_nat input_length) 0 in
      Z.to_nat (total / 2)
  end.

Definition mapi {A B : Type} (f : nat -> A -> B) (l : list A) : list B :=
  map (fun p => f (fst p) (snd p)) (combine (seq 0 (length l)) l).

(** [xs + ys] along one axis, with broadcasting: the lengths agree or one
    of them is 1. *)
Definition broadcast2 {A : Type} (f : A -> A -> result A) (xs ys : list A)
    : result (list A) :=
  if length xs =? length ys then mapM (fun p => f (fst p) (snd p)) (combine xs ys)
  else match xs, ys with
       | [a], _ => mapM (f a) ys
       | _, [b] => mapM (fun a => f a b) xs
       | _, _ => Raise InvalidArgumentError
       end.

Section forward.

Context {T : Type} {ST : Scalar T}.

(** Entry (r, q, c) of the image padded with [pt] rows above and [pl]
    columns to the left (and zeros below and to the right). *)
Definition padded (x : image T) (pt pl r q c : nat) : T :=
  if (r <? pt) || (q <? pl) then zero else pixel x (r - pt) (q - pl) c.

(** The convolution of one image of shape [s]. *)
Definition conv2d (filters kernel_size strides : nat) (pad : padding) (use_bias : bool)
    (k : kernel T) (b : bias T) (s : shape) (x : image T) : result (image T) :=
  let '(h, w, c) := s in
  h' <- conv_output_length h kernel_size pad strides ;;
  w' <- conv_output_length w kernel_size pad strides ;;
  let pt := pad_before h kernel_size strides pad in
  let pl := pad_before w kernel_size strides pad in
  Ok (tabulate (h', w', filters) (fun i j o =>
        sum_upto kernel_size (fun di =>
        sum_upto kernel_size (fun dj =>
        sum_upto c (fun ch =>
          padded x pt pl (i * strides + di) (j * strides + dj) ch * k di dj ch o)))
        + (if use_bias then b o else zero))%S).

(** The transposed convolution of one image of shape [s], the adjoint of
    [conv2d]: input position (p, q) contributes through kernel tap
    (di, dj) to the output position
    (p * strides + di - pad, q * strides + dj - pad). *)
Definition conv2d_transpose (filters kernel_size strides : nat) (pad : padding)
    (use_bias : bool) (k : kernel T) (b : bias T) (s : shape) (x : image T)
    : result (image T) :=
  let '(h, w, c) := s in
  h' <- deconv_output_length h kernel_size pad strides ;;
  w' <- deconv_output_length w kernel_size pad strides ;;
  let pd := match pad with same => (kernel_size - strides) / 2 | valid => 0 end in
  Ok (tabulate (h', w', filters) (fun i j o =>
        sum_upto h (fun p =>
        sum_upto w (fun q =>
        sum_upto kernel_size (fun di =>
        sum_upto kernel_size (fun dj =>
          if (p * strides + di =? i + pd) && (q * strides + dj =? j + pd)
          then sum_upto c (fun ch => pixel x p q ch * k di dj o ch)
          else zero))))
        + (if use_bias then b o else zero))%S).

(** All entries of channel [c] in the images of a batch. *)
Definition channel_entries (x : images T) (c : nat) : list T :=
  flat_map (fun img => flat_map (fun row => map (fun px => nth c px zero) row) img) x.

Definition mean (l : list T) : T := (sum_list l / of_R (INR (length l)))%S.
Definition variance (l : list T) : T :=
  mean (map (fun t => ((t - mean l) * (t - mean l))%S) l).

(** [BatchNormalization]: batch statistics when training, moving
    statistics otherwise. *)
Definition batch_normalization (training : bool) (epsilon : T) (v : bn_vars T)
    (x : images T) : images T :=
  let mu c := if training then mean (channel_entries x c) else moving_mean v c in
  let var c := if training then variance (channel_entries x c) else moving_variance v c in
  map (map (map (mapi (fun c t =>
    ((t - mu c) * (gamma v c / ssqrt (var c + epsilon)) + beta v c)%S)))) x.

Definition leaky_relu (alpha v : T) : T := smax (alpha * v)%S v.

(** The images [layer(x)] returns for the images of a batch of per-sample
    shape [s]. *)
Definition call_values (training : bool) (l : layer T) (s : shape) (x : images T)
    : result (images T) :=
  match l with
  | Activation f => Ok (map (map_image (activations.apply f)) x)
  | LeakyReLU alpha => Ok (map (map_image (leaky_relu alpha)) x)
  | BatchNormalization epsilon v => Ok (batch_normalization training epsilon v x)
  | Conv2D filters kernel_size strides pad use_bias k b =>
      mapM (conv2d filters kernel_size strides pad use_bias k b s) x
  | Conv2DTranspose filters kernel_size strides pad use_bias k b =>
      mapM (conv2d_transpose filters kernel_size strides pad use_bias k b s) x
  end.

(** [layer(x)] on a batch: the shape of the batch is checked as shape
    inference checks it, then the images are computed. *)
Definition call (training : bool) (l : layer T) (x : batch T) : result (batch T) :=
  s <- compute_output_shape l (sample_shape x) ;;
  v <- call_values training l (sample_shape x) (values x) ;;
  Ok {| sample_shape := s; values := v |}.

(** [tf.keras.Sequential(layers)(x)]. *)
Definition Sequential_call (training : bool) (layers : list (layer T)) (x : batch T)
    : result (batch T) :=
  foldM (call training) layers x.

Definition add_pixel : pixel_vec T -> pixel_vec T -> result (pixel_vec T) :=
  broadcast2 (fun a b => Ok (a + b)%S).
Definition add_image : image T -> image T -> result (image T) :=
  broadcast2 (broadcast2 add_pixel).
Definition add_values : images T -> images T -> result (images T) :=
  broadcast2 add_image.

(** [a + b] executed on two batches, with broadcasting along every axis;
    shapes that do not fit are an error of the operation. *)
Definition add (a b : batch T) : result (batch T) :=
  match broadcast_shape (sample_shape a) (sample_shape b),
        broadcast_dim (length (values a)) (length (values b)) with
  | Ok s, Ok _ =>
      v <- add_values (values a) (values b) ;;
      Ok {| sample_shape := s; values := v |}
  | _, _ => Raise InvalidArgumentError
  end.

(** Defaults of the layer constructors the source leaves unspecified. *)
Definition LeakyReLU_alpha : T := of_R (3 / 10)%R.
Definition BatchNormalization_epsilon : T := of_R (1 / 1000)%R.

(** The placeholder passed for the bias of a layer built with
    [use_bias = False], which has no bias variable. *)
Definition no_bias : bias T := fun _ => zero.

End forward.

End keras.

(* ================================================================== *)
(** * [helpers/quantizers.py] *)

(** Modelled from the spec: the classes [VectorQuantizer] and
    [VectorQuantizerEMA] of [helpers/quantizers.py], which is not among the
    sources.  The model follows section 4.4 of the specification: the
    nearest codebook entry by squared Euclidean distance with ties broken
    by the lowest index, the gather of the selected entries, and the
    straight-through output [input + stop_gradient(quantized - input)].
    The two loss scalars and the moving-average update of the codebook are
    side channels of the call and are not part of its returned value.
    The quantizer is modelled over the real numbers. *)
Module quantizers.

(** Modelled from the spec: the codebook, an ordered collection of
    embedding vectors; component [d] of entry [k]. *)
Definition codebook : Type := nat -> nat -> R.

Inductive t : Type :=
| VectorQuantizerEMA (embedding_dim num_embeddings : nat) (commitment_cost decay : R)
                     (name : string) (e : codebook)
| VectorQuantizer (embedding_dim num_embeddings : nat) (commitment_cost : R)
                  (name : string) (e : codebook).

Definition embedding_dim (q : t) : nat :=
  match q with
  | VectorQuantizerEMA d _ _ _ _ _ => d
  | VectorQuantizer d _ _ _ _ => d
  end.

Definition num_embeddings (q : t) : nat :=
  match q with
  | VectorQuantizerEMA _ k _ _ _ _ => k
  | VectorQuantizer _ k _ _ _ => k
  end.

Definition commitment_cost (q : t) : R :=
  match q with
  | VectorQuantizerEMA _ _ c _ _ _ => c
  | VectorQuantizer _ _ c _ _ => c
  end.

Definition decay (q : t) : option R :=
  match q with
  | VectorQuantizerEMA _ _ _ g _ _ => Some g
  | VectorQuantizer _ _ _ _ _ => None
  end.

Definition embeddings (q : t) : codebook :=
  match q with
  | VectorQuantizerEMA _ _ _ _ _ e => e
  | VectorQuantizer _ _ _ _ e => e
  end.

(** Modelled from the spec: an input whose trailing dimension is not
    [embedding_dim] is rejected; otherwise the output has the shape of the
    input. *)
Definition compute_output_shape (q : t) (s : shape) : result shape :=
  let '(_, _, c) := s in
  if c =? embedding_dim q then Ok s else Raise ValueError.

(** Modelled from the spec: gradients.  A value is carried together with
    its derivative along one direction of the layer's input (forward-mode
    differentiation); [stop_gradient] keeps the value and drops the
    derivative. *)
Record dual : Type := { primal : R; tangent : R }.

Definition constant (v : R) : dual := {| primal := v; tangent := 0 |}.
Definition dadd (a b : dual) : dual :=
  {| primal := primal a + primal b; tangent := tangent a + tangent b |}.
Definition dsub (a b : dual) : dual :=
  {| primal := primal a - primal b; tangent := tangent a - tangent b |}.
Definition stop_gradient (a : dual) : dual :=
  {| primal := primal a; tangent := 0 |}.

(** Modelled from the spec: squared Euclidean distance of the latent
    vector [z] to codebook entry [k]. *)
Definition sq_distance (q : t) (z : list R) (k : nat) : R :=
  sum_upto (embedding_dim q)
    (fun d => (nth d z 0 - embeddings q k d) * (nth d z 0 - embeddings q k d))%R.

(** Modelled from the spec: index of the least value among [f 0 .. f n];
    of equal values the lowest index wins. *)
Fixpoint argmin (f : nat -> R) (n : nat) : nat :=
  match n with
  | 0 => 0
  | S n' => let j := argmin f n' in if Rlt_dec (f n) (f j) then n else j
  end.

(** Modelled from the spec: the quantization assignment of one latent
    vector; a vector of another length than [embedding_dim] and an empty
    codebook are rejected. *)
Definition nearest (q : t) (z : list R) : result nat :=
  if length z =? embedding_dim q then
    if num_embeddings q =? 0 then Raise ValueError
    else Ok (argmin (sq_distance q z) (num_embeddings q - 1))
  else Raise ValueError.

(** Modelled from the spec: the gathered codebook vector. *)
Definition quantize (q : t) (z : list R) : result (list R) :=
  k <- nearest q z ;;
  Ok (map (embeddings q k) (seq 0 (embedding_dim q))).

(** Modelled from the spec: the straight-through output
    [input + stop_gradient(quantized - input)] on one latent vector. *)
Definition straight_through (q : t) (z : list dual) : result (list dual) :=
  quantized <- quantize q (map primal z) ;;
  Ok (map (fun p => dadd (fst p) (stop_gradient (dsub (constant (snd p)) (fst p))))
          (combine z quantized)).

(** Modelled from the spec: the numeric values the layer returns for the
    latent grids of a batch, every spatial position quantized on its
    own. *)
Definition call_values (q : t) (x : images R) : result (images R) :=
  mapM (mapM (mapM (fun z =>
    out <- straight_through q (map constant z) ;; Ok (map primal out)))) x.

(** Modelled from the spec: the layer on a batch of latent grids. *)
Definition call (q : t) (x : batch R) : result (batch R) :=
  s <- compute_output_shape q (sample_shape x) ;;
  v <- call_values q (values x) ;;
  Ok {| sample_shape := s; values := v |}.

End quantizers.

(* ================================================================== *)
(** * [helpers/model.py]: the residual block *)

Module ResBlock.

Section ResBlock.

Context {T : Type} {ST : Scalar T} {FW : Framework}.

(** The variables of the two convolutions and of the optional
    normalisation layer. *)
Record vars : Type := {
  conv1_kernel : keras.kernel T;
  conv1_bias : keras.bias T;
  bn_vars : keras.bn_vars T;
  conv2_kernel : keras.kernel T;
  conv2_bias : keras.bias T
}.

Record t : Type := {
  name : option string;
  convs : list (keras.layer T)      (* the [tf.keras.Sequential] of the block *)
}.

Definition __init__ (out_channels : nat) (mid_channels : option nat) (bn : bool)
    (name : option string) (vs : vars) : result t :=
  name <- keras.Layer__init__ name ;;
  let mid_channels :=
    match mid_channels with
    | None => out_channels
    | Some m => m
    end in
  conv1 <- keras.__init__ (keras.Conv2D mid_channels 3 1 keras.same true
                             (conv1_kernel vs) (conv1_bias vs)) ;;
  conv2 <- keras.__init__ (keras.Conv2D out_channels 1 1 keras.valid true
                             (conv2_kernel vs) (conv2_bias vs)) ;;
  let layers := [
    keras.Activation activations.relu;
    conv1;
    keras.Activation activations.relu;
    conv2
  ] in
  let layers :=
    if bn
    then list_insert 2 (keras.BatchNormalization keras.BatchNormalization_epsilon (bn_vars vs))
                     layers
    else layers in
  Ok {| name := name; convs := layers |}.

(** Residual output [x + self.convs(x)]. *)
Definition call (training : bool) (self : t) (x : batch T) : result (batch T) :=
  fx <- keras.Sequential_call training (convs self) x ;;
  keras.add x fx.

(** The block applied to a symbolic tensor of per-sample shape [s]. *)
Definition compute_output_shape (self : t) (s : shape) : result shape :=
  s' <- keras.Sequential_output_shape (convs self) s ;;
  keras.broadcast_shape s s'.

End ResBlock.

Arguments vars T : clear implicits.
Arguments t T : clear implicits.

End ResBlock.

(* ================================================================== *)
(** * The functional API: symbolic tensors and models *)

Module Model.

Section Model.

Context {T : Type} {ST : Scalar T} {FW : Framework}.

Inductive node : Type :=
| Keras (l : keras.layer T)
| Res (r : ResBlock.t T).

(** A symbolic tensor: its per-sample shape and the layers applied, in
    order, to the model input that produced it. *)
Record KerasTensor : Type := {
  shape_of : shape;
  history : list node
}.

(** [tf.keras.Input(shape = s)] *)
Definition Input (s : shape) : KerasTensor := {| shape_of := s; history := [] |}.

Definition compute_output_shape (n : node) (s : shape) : result shape :=
  match n with
  | Keras l => keras.compute_output_shape l s
  | Res r => ResBlock.compute_output_shape r s
  end.

(** [layer(t)] on a symbolic tensor: shape inference runs at once and
    raises when the layer rejects the shape. *)
Definition apply (n : node) (t : KerasTensor) : result KerasTensor :=
  s <- compute_output_shape n (shape_of t) ;;
  Ok {| shape_of := s; history := history t ++ [n] |}.

Record t : Type := {
  inputs : shape;           (* declared per-sample input shape *)
  layers : list node;       (* the chain from the input to the output *)
  output_shape : shape;     (* [model.output_shape[1:]] *)
  name : string
}.

(** The check of the [name] argument of [tf.keras.Model]. *)
Definition check_name (name : string) : result string :=
  if valid_model_name name then Ok name else Raise ValueError.

(** [tf.keras.Model(inputs, outputs, name = name)] *)
Definition Model (inputs outputs : KerasTensor) (name : string) : result t :=
  name <- check_name name ;;
  Ok {| inputs := shape_of inputs;
        layers := history outputs;
        output_shape := shape_of outputs;
        name := name |}.

(** Shape of [model(t)] for a symbolic tensor of shape [s]. *)
Definition call_shape (m : t) (s : shape) : result shape :=
  foldM compute_output_shape (layers m) s.

Definition call_node (training : bool) (n : node) (x : batch T) : result (batch T) :=
  match n with
  | Keras l => keras.call training l x
  | Res r => ResBlock.call training r x
  end.

(** [model(x)] on a batch: the layers of the chain, in order.  Whether and
    how the framework compares the batch with the declared input shape
    before it runs the layers is outside this model. *)
Definition call (training : bool) (m : t) (x : batch T) : result (batch T) :=
  foldM (call_node training) (layers m) x.

End Model.

Arguments node T : clear implicits.
Arguments KerasTensor T : clear implicits.
Arguments t T : clear implicits.

End Model.

(* ================================================================== *)
(** * [helpers/model.py]: encoder, decoder and the composed model *)

(** The names [helpers/constants.py] exports; that module is not among
    the sources, so its values are a parameter of the development. *)
Module constants.

Record t : Type := {
  EMBEDDING_DIM : nat;
  NUM_EMBEDDINGS : nat;
  IMAGE_HEIGHT : nat;
  IMAGE_WIDTH : nat;
  COMMITMENT_COST : R;
  DECAY : R
}.

End constants.

Section encoder_decoder.

Context {T : Type} {ST : Scalar T} {FW : Framework}.

(** The variables of the layers [get_encoder] creates, in creation order;
    the residual blocks of the loop are indexed by the loop counter. *)
Record encoder_vars : Type := {
  enc_conv1 : keras.kernel T;
  enc_bn1 : keras.bn_vars T;
  enc_conv2 : keras.kernel T;
  enc_bn2 : keras.bn_vars T;
  enc_resblock : nat -> ResBlock.vars T;
  enc_resblock_bn : nat -> keras.bn_vars T
}.

(** The variables of the layers [get_decoder] creates. *)
Record decoder_vars : Type := {
  dec_conv : keras.kernel T;
  dec_resblock : nat -> ResBlock.vars T;
  dec_deconv1 : keras.kernel T;
  dec_bn1 : keras.bn_vars T;
  dec_deconv2 : keras.kernel T;
  dec_bn2 : keras.bn_vars T;
  dec_out : keras.kernel T
}.

(** [tf.keras.layers.LeakyReLU()] and [tf.keras.layers.BatchNormalization()]
    with the defaults of their constructors, which check nothing. *)
Definition default_LeakyReLU : Model.node T :=
  Model.Keras (keras.LeakyReLU keras.LeakyReLU_alpha).

Definition default_BatchNormalization (v : keras.bn_vars T) : Model.node T :=
  Model.Keras (keras.BatchNormalization keras.BatchNormalization_epsilon v).

Definition get_encoder (latent_dim : nat) (input_shape : shape) (num_resblocks : nat)
    (batchnorm : bool) (name : string) (vs : encoder_vars) : result (Model.t T) :=
  let encoder_inputs := Model.Input input_shape in
  l <- keras.__init__ (keras.Conv2D latent_dim 4 2 keras.same false
                         (enc_conv1 vs) keras.no_bias) ;;
  conv1 <- Model.apply (Model.Keras l) encoder_inputs ;;
  conv1 <- Model.apply default_LeakyReLU conv1 ;;
  conv1 <- Model.apply (default_BatchNormalization (enc_bn1 vs)) conv1 ;;
  l <- keras.__init__ (keras.Conv2D latent_dim 4 2 keras.same false
                         (enc_conv2 vs) keras.no_bias) ;;
  conv2 <- Model.apply (Model.Keras l) conv1 ;;
  conv2 <- Model.apply default_LeakyReLU conv2 ;;
  conv2 <- Model.apply (default_BatchNormalization (enc_bn2 vs)) conv2 ;;
  let x := conv2 in
  x <- foldM (fun i x =>
        r <- ResBlock.__init__ latent_dim None batchnorm
               (Some (name ++ "_resblock" ++ str i)%string) (enc_resblock vs i) ;;
        x <- Model.apply (Model.Res r) x ;;
        if batchnorm
        then Model.apply (default_BatchNormalization (enc_resblock_bn vs i)) x
        else Ok x)
      (seq 0 num_resblocks) x ;;
  Model.Model encoder_inputs x name.

Definition get_decoder (input_shape : shape) (latent_dim : nat) (num_resblocks : nat)
    (num_channels : nat) (name : string) (vs : decoder_vars) : result (Model.t T) :=
  let decoder_inputs := Model.Input input_shape in
  l <- keras.__init__ (keras.Conv2D latent_dim 4 1 keras.same false
                         (dec_conv vs) keras.no_bias) ;;
  x <- Model.apply (Model.Keras l) decoder_inputs ;;
  x <- foldM (fun i x =>
        r <- ResBlock.__init__ latent_dim None false
               (Some (name ++ "_resblock" ++ str i)%string) (dec_resblock vs i) ;;
        Model.apply (Model.Res r) x)
      (seq 0 num_resblocks) x ;;
  l <- keras.__init__ (keras.Conv2DTranspose latent_dim 4 2 keras.same false
                         (dec_deconv1 vs) keras.no_bias) ;;
  conv1 <- Model.apply (Model.Keras l) x ;;
  conv1 <- Model.apply default_LeakyReLU conv1 ;;
  conv1 <- Model.apply (default_BatchNormalization (dec_bn1 vs)) conv1 ;;
  l <- keras.__init__ (keras.Conv2DTranspose latent_dim 4 2 keras.same false
                         (dec_deconv2 vs) keras.no_bias) ;;
  conv2 <- Model.apply (Model.Keras l) conv1 ;;
  conv2 <- Model.apply default_LeakyReLU conv2 ;;
  conv2 <- Model.apply (default_BatchNormalization (dec_bn2 vs)) conv2 ;;
  (* strides is left at its default, 1 *)
  l <- keras.__init__ (keras.Conv2DTranspose num_channels 4 1 keras.same false
                         (dec_out vs) keras.no_bias) ;;
  decoder_outputs <- Model.apply (Model.Keras l) conv2 ;;
  (* tf.keras.activations.tanh applied to the symbolic tensor *)
  decoder_outputs <- Model.apply (Model.Keras (keras.Activation activations.tanh))
                                 decoder_outputs ;;
  Model.Model decoder_inputs decoder_outputs name.

End encoder_decoder.

Arguments encoder_vars T : clear implicits.
Arguments decoder_vars T : clear implicits.

Record vqvae_vars : Type := {
  vars_encoder : encoder_vars R;
  vars_codebook : quantizers.codebook;
  vars_decoder : decoder_vars R
}.

(** The composed model: encoder, quantizer and decoder in a chain. *)
Module VQVAE.

Record t : Type := {
  inputs : shape;
  encoder : Model.t R;
  vq_layer : quantizers.t;
  decoder : Model.t R;
  output_shape : shape;
  name : string
}.

(** [vq_vae(x)] on a batch: encoder, quantizer and decoder in turn; as for
    [Model.call], the framework's comparison of the batch with the
    declared input shape is outside this model. *)
Definition call (training : bool) (m : t) (x : batch R) : result (batch R) :=
  encoder_outputs <- Model.call training (encoder m) x ;;
  quantized_latents <- quantizers.call (vq_layer m) encoder_outputs ;;
  Model.call training (decoder m) quantized_latents.

End VQVAE.

Section get_image_vqvae.

Context {FW : Framework}.

Variable K : constants.t.

Definition get_image_vqvae (latent_dim num_embeddings : nat) (image_shape : nat * nat)
    (num_channels : nat) (ema batchnorm : bool) (name : string) (vs : vqvae_vars)
    : result VQVAE.t :=
  let vq_layer :=
    if ema
    then quantizers.VectorQuantizerEMA latent_dim num_embeddings
           (constants.COMMITMENT_COST K) (constants.DECAY K)
           "vector_quantizer" (vars_codebook vs)
    else quantizers.VectorQuantizer latent_dim num_embeddings
           (constants.COMMITMENT_COST K)
           "vector_quantizer" (vars_codebook vs) in
  (* image_shape + (num_channels,) *)
  let input_shape : shape := (fst image_shape, snd image_shape, num_channels) in
  (* num_resblocks and name keep their defaults, 2 and "encoder" *)
  encoder <- get_encoder latent_dim input_shape 2 batchnorm "encoder" (vars_encoder vs) ;;
  let inputs := input_shape in
  (* encoder.build(...) does nothing to a model that is already built *)
  encoder_outputs <- Model.call_shape encoder inputs ;;
  (* num_resblocks, num_channels and name keep their defaults, 2, 3 and "decoder" *)
  decoder <- get_decoder (Model.output_shape encoder) latent_dim 2 3 "decoder"
                         (vars_decoder vs) ;;
  quantized_latents <- quantizers.compute_output_shape vq_layer encoder_outputs ;;
  reconstructions <- Model.call_shape decoder quantized_latents ;;
  (* tf.keras.Model(inputs, reconstructions, name = name); vq_vae.build(...)
     does nothing to a model that is already built *)
  name <- Model.check_name name ;;
  Ok {| VQVAE.inputs := inputs;
        VQVAE.encoder := encoder;
        VQVAE.vq_layer := vq_layer;
        VQVAE.decoder := decoder;
        VQVAE.output_shape := reconstructions;
        VQVAE.name := name |}.

(** ** Calling [get_image_vqvae] the way Python binds arguments *)

#[warnings="-register-all"]
Inductive pyval : Type :=
| PInt (z : Z)
| PFloat (r : R)
| PBool (b : bool)
| PStr (s : string)
| PTuple (l : list pyval).

(** The parameter names of [get_image_vqvae], in the order of its [def]. *)
Definition get_image_vqvae_params : list string :=
  ["latent_dim"; "num_embeddings"; "image_shape"; "num_channels"; "ema"; "batchnorm";
   "name"]%string.

Definition bound (key : string) (b : list (string * pyval)) : bool :=
  existsb (fun p => String.eqb key (fst p)) b.

(** Binding of positional and keyword arguments to the parameters: too
    many positional arguments, a keyword that names no parameter and a
    parameter given twice each raise [TypeError]. *)
Definition bind_arguments (params : list string) (args : list pyval)
    (kwargs : list (string * pyval)) : result (list (string * pyval)) :=
  if length params <? length args then Raise TypeError
  else foldM (fun kv b =>
         if negb (existsb (String.eqb (fst kv)) params) then Raise TypeError
         else if bound (fst kv) b then Raise TypeError
         else Ok (b ++ [kv]))
       kwargs (combine params args).

Fixpoint lookup (key : string) (b : list (string * pyval)) : option pyval :=
  match b with
  | [] => None
  | (k, v) :: b' => if String.eqb key k then Some v else lookup key b'
  end.

(** The argument bound to [key], or the parameter's default. *)
Definition argument (b : list (string * pyval)) (key : string) (default : pyval) : pyval :=
  match lookup key b with
  | Some v => v
  | None => default
  end.

(** The model covers argument values of the documented types: a
    non-negative [int] for a size, a pair of them for [image_shape], a
    [bool] for a flag and a [str] for the name.  Any other value is
    outside the model and reported as an error, whatever Python would do
    with it later. *)
Definition as_nat (v : pyval) : result nat :=
  match v with
  | PInt z => if (0 <=? z)%Z then Ok (Z.to_nat z) else Raise ValueError
  | _ => Raise TypeError
  end.

Definition as_bool (v : pyval) : result bool :=
  match v with
  | PBool b => Ok b
  | _ => Raise TypeError
  end.

Definition as_str (v : pyval) : result string :=
  match v with
  | PStr s => Ok s
  | _ => Raise TypeError
  end.

Definition as_pair (v : pyval) : result (nat * nat) :=
  match v with
  | PTuple [a; b] => h <- as_nat a ;; w <- as_nat b ;; Ok (h, w)
  | _ => Raise TypeError
  end.

Definition PNat (n : nat) : pyval := PInt (Z.of_nat n).

(** A call of [get_image_vqvae] with positional arguments [args] and
    keyword arguments [kwargs], using the defaults of the [def]. *)
Definition get_image_vqvae_call (args : list pyval) (kwargs : list (string * pyval))
    (vs : vqvae_vars) : result VQVAE.t :=
  b <- bind_arguments get_image_vqvae_params args kwargs ;;
  latent_dim <- as_nat (argument b "latent_dim" (PNat (constants.EMBEDDING_DIM K))) ;;
  num_embeddings <- as_nat (argument b "num_embeddings"
                                     (PNat (constants.NUM_EMBEDDINGS K))) ;;
  image_shape <- as_pair (argument b "image_shape"
                            (PTuple [PNat (constants.IMAGE_HEIGHT K);
                                     PNat (constants.IMAGE_WIDTH K)])) ;;
  num_channels <- as_nat (argument b "num_channels" (PInt 3)) ;;
  ema <- as_bool (argument b "ema" (PBool true)) ;;
  batchnorm <- as_bool (argument b "batchnorm" (PBool true)) ;;
  name <- as_str (argument b "name" (PStr "vq_vae")) ;;
  get_image_vqvae latent_dim num_embeddings image_shape num_channels ema batchnorm name vs.

End get_image_vqvae.

(* ================================================================== *)
(** * Notions used in the statements *)

(** Entry-wise sum of two images, of two batches, of equal shape. *)
Definition zip_with {A : Type} (f : A -> A -> A) (xs ys : list A) : list A :=
  map (fun p => f (fst p) (snd p)) (combine xs ys).

Definition add_images {T : Type} {ST : Scalar T} (a b : image T) : image T :=
  zip_with (zip_with (zip_with sadd)) a b.

Definition add_batches {T : Type} {ST : Scalar T} (x y : batch T) : batch T :=
  {| sample_shape := sample_shape x;
     values := zip_with add_images (values x) (values y) |}.

(** Two batches of images of the same shape put together: the images of
    the first followed by the images of the second. *)
Definition append_batches {T : Type} (x y : batch T) : batch T :=
  {| sample_shape := sample_shape x; values := values x ++ values y |}.

(** The image of shape [s] whose entries are all 0. *)
Definition zeros {T : Type} {ST : Scalar T} (s : shape) : image T :=
  tabulate s (fun _ _ _ => zero).



Definition is_BatchNormalization {T : Type} (l : keras.layer T) : bool :=
  match l with
  | keras.BatchNormalization _ _ => true
  | _ => false
  end.

(** The block has a normalisation layer among its layers. *)
Definition has_normalization {T : Type} (r : ResBlock.t T) : bool :=
  existsb is_BatchNormalization (ResBlock.convs r).

(** The names of the residual blocks of a model, in the order of its
    layers. *)
Definition resblock_names {T : Type} (m : Model.t T) : list string :=
  flat_map (fun n =>
              match n with
              | Model.Res r =>
                  match ResBlock.name r with
                  | Some s => [s]
                  | None => []
                  end
              | Model.Keras _ => []
              end)
           (Model.layers m).

(** The sum of a one-channel pixel and a pixel with any number of
    channels: the single entry is added to every channel. *)
Definition add_to_channels {T : Type} {ST : Scalar T} (p q : pixel_vec T) : pixel_vec T :=
  map (sadd (hd zero p)) q.

(** The layers of a residual block with [mid] channels between its two
    convolutions: activation, 3x3 convolution, the normalisation layer
    when [bn] is set, activation, 1x1 convolution. *)
Definition ResBlock_layers {T : Type} {ST : Scalar T} (out_channels mid : nat) (bn : bool)
    (vs : ResBlock.vars T) : list (keras.layer T) :=
  [keras.Activation activations.relu;
   keras.Conv2D mid 3 1 keras.same true (ResBlock.conv1_kernel vs) (ResBlock.conv1_bias vs)]
  ++ (if bn
      then [keras.BatchNormalization keras.BatchNormalization_epsilon (ResBlock.bn_vars vs)]
      else [])
  ++ [keras.Activation activations.relu;
      keras.Conv2D out_channels 1 1 keras.valid true
        (ResBlock.conv2_kernel vs) (ResBlock.conv2_bias vs)].

(** The number of channels between the two convolutions of a block. *)
Definition mid_channels_of (out_channels : nat) (mid_channels : option nat) : nat :=
  match mid_channels with
  | None => out_channels
  | Some m => m
  end.

(** The block with these layers and this name. *)
Definition ResBlock_of {T : Type} {ST : Scalar T} (out_channels : nat)
    (mid_channels : option nat) (bn : bool) (name : option string)
    (vs : ResBlock.vars T) : ResBlock.t T :=
  {| ResBlock.name := name;
     ResBlock.convs :=
       ResBlock_layers out_channels (mid_channels_of out_channels mid_channels) bn vs |}.

(** The chain of layers of an encoder with [num_resblocks] blocks. *)
Definition encoder_layers {T : Type} {ST : Scalar T} (latent_dim num_resblocks : nat)
    (batchnorm : bool) (name : string) (vs : encoder_vars T) : list (Model.node T) :=
  [Model.Keras (keras.Conv2D latent_dim 4 2 keras.same false (enc_conv1 vs) keras.no_bias);
   default_LeakyReLU;
   default_BatchNormalization (enc_bn1 vs);
   Model.Keras (keras.Conv2D latent_dim 4 2 keras.same false (enc_conv2 vs) keras.no_bias);
   default_LeakyReLU;
   default_BatchNormalization (enc_bn2 vs)]
  ++ flat_map (fun i =>
       Model.Res (ResBlock_of latent_dim None batchnorm
                    (Some (name ++ "_resblock" ++ str i)%string) (enc_resblock vs i))
       :: (if batchnorm then [default_BatchNormalization (enc_resblock_bn vs i)] else []))
       (seq 0 num_resblocks).

(** The chain of layers of a decoder with [num_resblocks] blocks. *)
Definition decoder_layers {T : Type} {ST : Scalar T} (latent_dim num_resblocks : nat)
    (num_channels : nat) (name : string) (vs : decoder_vars T) : list (Model.node T) :=
  [Model.Keras (keras.Conv2D latent_dim 4 1 keras.same false (dec_conv vs) keras.no_bias)]
  ++ map (fun i =>
       Model.Res (ResBlock_of latent_dim None false
                    (Some (name ++ "_resblock" ++ str i)%string) (dec_resblock vs i)))
       (seq 0 num_resblocks)
  ++ [Model.Keras (keras.Conv2DTranspose latent_dim 4 2 keras.same false
                     (dec_deconv1 vs) keras.no_bias);
      default_LeakyReLU;
      default_BatchNormalization (dec_bn1 vs);
      Model.Keras (keras.Conv2DTranspose latent_dim 4 2 keras.same false
                     (dec_deconv2 vs) keras.no_bias);
      default_LeakyReLU;
      default_BatchNormalization (dec_bn2 vs);
      Model.Keras (keras.Conv2DTranspose num_channels 4 1 keras.same false
                     (dec_out vs) keras.no_bias);
      Model.Keras (keras.Activation activations.tanh)].

(** The encoder for an input of shape (h, w, c): its output grid has the
    height and the width of the input divided by 4 and rounded up. *)
Definition encoder_model {T : Type} {ST : Scalar T} (latent_dim h w c num_resblocks : nat)
    (batchnorm : bool) (name : string) (vs : encoder_vars T) : Model.t T :=
  {| Model.inputs := (h, w, c);
     Model.layers := encoder_layers latent_dim num_resblocks batchnorm name vs;
     Model.output_shape := ((h + 3) / 4, (w + 3) / 4, latent_dim);
     Model.name := name |}.

(** The decoder for an input of shape (h, w, c). *)
Definition decoder_model {T : Type} {ST : Scalar T} (h w c latent_dim num_resblocks : nat)
    (num_channels : nat) (name : string) (vs : decoder_vars T) : Model.t T :=
  {| Model.inputs := (h, w, c);
     Model.layers := decoder_layers latent_dim num_resblocks num_channels name vs;
     Model.output_shape := (4 * h, 4 * w, num_channels);
     Model.name := name |}.

(** The framework accepts the names [name_resblock0], ...,
    [name_resblock(n-1)] as names of layers. *)
Definition valid_resblock_names {FW : Framework} (name : string) (n : nat) : bool :=
  forallb (fun i => valid_layer_name (name ++ "_resblock" ++ str i)%string) (seq 0 n).

(** A value that is neither an infinity nor NaN; a batch, normalisation
    variables, without such values. *)
Definition is_finite (v : IEEE.t) : Prop := exists r, v = IEEE.finite r.


(** A finite value that is not negative. *)
Definition is_nonnegative (v : IEEE.t) : Prop :=
  exists r, v = IEEE.finite r /\ (0 <= r)%R.


(** ** Sample values

    A configuration and a set of weights on which the statements are
    exercised: the sizes of the end-to-end scenario of the specification,
    all kernels, biases and codebook entries zero, and normalisation
    layers in their initial state. *)

Definition sample_constants : constants.t :=
  {| constants.EMBEDDING_DIM := 64;
     constants.NUM_EMBEDDINGS := 512;
     constants.IMAGE_HEIGHT := 64;
     constants.IMAGE_WIDTH := 64;
     constants.COMMITMENT_COST := (1 / 4)%R;
     constants.DECAY := (99 / 100)%R |}.

(** A name without a slash. *)
Definition no_slash (s : string) : bool := all_chars (fun a => negb (Ascii.eqb a "/")) s.

(** A framework that rejects the names that contain a slash, and no
    others, for layers and for models. *)
#[export] Instance sample_framework : Framework.
Proof.
  assert (H : forall s, plain_name s = true -> no_slash s = true).
  { intros s Hs. unfold plain_name in Hs. destruct s as [| a s]; [discriminate Hs |].
    apply andb_true_iff in Hs as [_ Hs]. unfold no_slash.
    revert Hs. generalize (String a s). clear a s.
    induction s as [| a s IH]; cbn [all_chars]; [reflexivity |].
    intros Hs. apply andb_true_iff in Hs as [Ha Hs].
    rewrite (IH Hs), andb_true_r.
    destruct (Ascii.eqb_spec a "/") as [-> | _]; [discriminate Ha | reflexivity]. }
  exact {| valid_layer_name := no_slash;
           valid_model_name := no_slash;
           plain_layer_name := H;
           plain_model_name := H |}.
Defined.

Section sample_weights.

Context {T : Type} {ST : Scalar T}.

Definition zero_weights : keras.kernel T := fun _ _ _ _ => zero.

Definition initial_bn_vars : keras.bn_vars T :=
  {| keras.gamma := fun _ => of_R 1%R;
     keras.beta := fun _ => zero;
     keras.moving_mean := fun _ => zero;
     keras.moving_variance := fun _ => of_R 1%R |}.

Definition zero_ResBlock_vars : ResBlock.vars T :=
  {| ResBlock.conv1_kernel := zero_weights;
     ResBlock.conv1_bias := keras.no_bias;
     ResBlock.bn_vars := initial_bn_vars;
     ResBlock.conv2_kernel := zero_weights;
     ResBlock.conv2_bias := keras.no_bias |}.

Definition zero_encoder_vars : encoder_vars T :=
  {| enc_conv1 := zero_weights;
     enc_bn1 := initial_bn_vars;
     enc_conv2 := zero_weights;
     enc_bn2 := initial_bn_vars;
     enc_resblock := fun _ => zero_ResBlock_vars;
     enc_resblock_bn := fun _ => initial_bn_vars |}.

Definition zero_decoder_vars : decoder_vars T :=
  {| dec_conv := zero_weights;
     dec_resblock := fun _ => zero_ResBlock_vars;
     dec_deconv1 := zero_weights;
     dec_bn1 := initial_bn_vars;
     dec_deconv2 := zero_weights;
     dec_bn2 := initial_bn_vars;
     dec_out := zero_weights |}.

(** The kernel whose only non-zero weight, 1, is tap (a, b). *)
Definition tap (a b : nat) : keras.kernel T :=
  fun di dj _ _ => if (di =? a) && (dj =? b) then of_R 1%R else zero.

(** A block that doubles and shifts by 1 in its first convolution (centre
    tap) and triples in its second. *)
Definition sample_ResBlock_vars : ResBlock.vars T :=
  {| ResBlock.conv1_kernel :=
       fun di dj _ _ => if (di =? 1) && (dj =? 1) then of_R 2%R else zero;
     ResBlock.conv1_bias := fun _ => of_R 1%R;
     ResBlock.bn_vars := initial_bn_vars;
     ResBlock.conv2_kernel := fun _ _ _ _ => of_R 3%R;
     ResBlock.conv2_bias := keras.no_bias |}.

End sample_weights.

Definition zero_vqvae_vars : vqvae_vars :=
  {| vars_encoder := zero_encoder_vars;
     vars_codebook := fun _ _ => 0%R;
     vars_decoder := zero_decoder_vars |}.

(** The quantizer [get_image_vqvae] creates. *)
Definition vq_layer_of (K : constants.t) (latent_dim num_embeddings : nat) (ema : bool)
    (vs : vqvae_vars) : quantizers.t :=
  if ema
  then quantizers.VectorQuantizerEMA latent_dim num_embeddings
         (constants.COMMITMENT_COST K) (constants.DECAY K)
         "vector_quantizer" (vars_codebook vs)
  else quantizers.VectorQuantizer latent_dim num_embeddings
         (constants.COMMITMENT_COST K)
         "vector_quantizer" (vars_codebook vs).

(** The composed model for images of shape (H, W, num_channels): the
    decoder has the default 3 output channels, and the height and the
    width of the output are those of the input rounded up to a multiple
    of 4. *)
Definition vqvae_model (K : constants.t) (latent_dim num_embeddings H W num_channels : nat)
    (ema batchnorm : bool) (name : string) (vs : vqvae_vars) : VQVAE.t :=
  {| VQVAE.inputs := (H, W, num_channels);
     VQVAE.encoder :=
       encoder_model latent_dim H W num_channels 2 batchnorm "encoder" (vars_encoder vs);
     VQVAE.vq_layer := vq_layer_of K latent_dim num_embeddings ema vs;
     VQVAE.decoder :=
       decoder_model ((H + 3) / 4) ((W + 3) / 4) latent_dim latent_dim 2 3 "decoder"
         (vars_decoder vs);
     VQVAE.output_shape := (4 * ((H + 3) / 4), 4 * ((W + 3) / 4), 3);
     VQVAE.name := name |}.

(** The batch that holds the single image of shape [s] with all entries
    0. *)
Definition zeros_batch {T : Type} {ST : Scalar T} (s : shape) : batch T :=
  {| sample_shape := s; values := [zeros s] |}.

(* ================================================================== *)
(** * The definitions on concrete inputs *)

Ltac tensor_eq := repeat (f_equal; try lra).

Ltac eval_tensor := cbv -[Rmax Rplus Rmult Rminus Ropp Rdiv Rinv IZR sqrt].

Ltac eval_Rmax :=
  repeat match goal with
         | |- context [Rmax ?a ?b] =>
             first [ replace (Rmax a b) with a by (symmetry; apply Rmax_left; lra)
                   | replace (Rmax a b) with b by (symmetry; apply Rmax_right; lra) ]
         end.

Example str_example : str 0 = "0"%string /\ str 12 = "12"%string.
Proof. split; reflexivity. Qed.

Example list_insert_example :
  list_insert 2 9 [1; 2; 3; 4] = [1; 2; 9; 3; 4] /\ list_insert 7 9 [1; 2] = [1; 2; 9].
Proof. split; reflexivity. Qed.

Example plain_name_example :
  plain_name "encoder_resblock0" = true /\ plain_name "a /b" = false /\
  plain_name "" = false /\
  valid_layer_name (Framework := sample_framework) "a /b_resblock0" = false.
Proof. repeat split; reflexivity. Qed.

Example conv_output_length_example :
  keras.conv_output_length 30 4 keras.same 2 = Ok 15 /\
  keras.conv_output_length 15 4 keras.same 2 = Ok 8 /\
  keras.conv_output_length 7 1 keras.valid 1 = Ok 7 /\
  keras.conv_output_length 1 3 keras.valid 1 = Raise ValueError /\
  keras.conv_output_length 0 1 keras.valid 1 = Raise ValueError /\
  keras.conv_output_length 0 4 keras.same 2 = Ok 0 /\
  keras.deconv_output_length 8 4 keras.same 2 = Ok 16.
Proof. repeat split; reflexivity. Qed.

(** A convolution without filters is rejected when it is created. *)
Example Conv2D_init_example :
  keras.__init__ (keras.Conv2D 0 3 1 keras.same true (@zero_weights R _) keras.no_bias)
    = Raise ValueError /\
  keras.__init__ (keras.Conv2D 8 3 1 keras.same true (@zero_weights R _) keras.no_bias)
    = Ok (keras.Conv2D 8 3 1 keras.same true zero_weights keras.no_bias).
Proof. split; reflexivity. Qed.

(** With "same" padding and the single tap (0, 1), every output entry is
    the input entry one row above, or 0 on the first row. *)
Example conv2d_same_example :
  keras.conv2d 1 3 1 keras.same false (tap 0 1) keras.no_bias (2, 2, 1)
    [[[1]; [2]]; [[3]; [4]]]%R
  = Ok [[[0]; [0]]; [[1]; [2]]]%R.
Proof. eval_tensor. tensor_eq. Qed.

(** A stride-2 4x4 convolution halves a 4 x 4 image; tap (1, 1) reads the
    entries at even rows and columns. *)
Example conv2d_stride_2_example :
  keras.conv2d 1 4 2 keras.same false (tap 1 1) keras.no_bias (4, 4, 1)
    [[[0]; [1]; [2]; [3]]; [[4]; [5]; [6]; [7]];
     [[8]; [9]; [10]; [11]]; [[12]; [13]; [14]; [15]]]%R
  = Ok [[[0]; [2]]; [[8]; [10]]]%R.
Proof. eval_tensor. tensor_eq. Qed.

(** A stride-2 4x4 transposed convolution turns one pixel into 2 x 2, each
    output entry weighted by one of the four central taps. *)
Example conv2d_transpose_example :
  keras.conv2d_transpose 1 4 2 keras.same false
    (fun di dj _ _ => INR (10 * di + dj)) keras.no_bias (1, 1, 1) [[[1]]]%R
  = Ok [[[11]; [12]]; [[21]; [22]]]%R.
Proof. vm_compute. tensor_eq. Qed.

(** x = (-1, 2): the block computes 3 * relu(2 * relu(x) + 1), that is
    (3, 15), and adds x. *)
Example ResBlock_call_example :
  (self <- ResBlock.__init__ 1 None false None sample_ResBlock_vars ;;
   ResBlock.call false self {| sample_shape := (1, 2, 1); values := [[[[-1]; [2]]]]%R |})
  = Ok {| sample_shape := (1, 2, 1); values := [[[[2]; [17]]]]%R |}.
Proof. eval_tensor. eval_Rmax. tensor_eq. Qed.

(** Channel counts that differ are broadcast when one of them is 1 and
    rejected otherwise, also when the batch is empty. *)
Example add_broadcast_example :
  keras.add {| sample_shape := (1, 1, 1); values := [[[[1]]]]%R |}
            {| sample_shape := (1, 1, 2); values := [[[[10; 20]]]]%R |}
    = Ok {| sample_shape := (1, 1, 2); values := [[[[1 + 10; 1 + 20]]]]%R |} /\
  keras.add {| sample_shape := (1, 1, 3); values := [[[[1; 2; 3]]]]%R |}
            {| sample_shape := (1, 1, 2); values := [[[[10; 20]]]]%R |}
    = Raise InvalidArgumentError /\
  keras.add {| sample_shape := (1, 1, 3); values := @nil (image R) |}
            {| sample_shape := (1, 1, 2); values := [] |}
    = Raise InvalidArgumentError /\
  keras.add {| sample_shape := (1, 1, 3); values := @nil (image R) |}
            {| sample_shape := (1, 1, 3); values := [] |}
    = Ok {| sample_shape := (1, 1, 3); values := [] |}.
Proof. repeat split; reflexivity. Qed.

Example get_image_vqvae_shapes_example :
  match get_image_vqvae (FW := sample_framework) sample_constants 64 512 (64, 64) 3
          true true "vq_vae" zero_vqvae_vars with
  | Ok m => Some (VQVAE.inputs m, Model.output_shape (VQVAE.encoder m),
                  VQVAE.output_shape m)
  | Raise _ => None
  end = Some ((64, 64, 3), (16, 16, 64), (64, 64, 3)).
Proof. reflexivity. Qed.

(** Without filters, for an image without rows and, in the sample
    framework, for a name with a slash, no model is built. *)
Example get_image_vqvae_rejects_example :
  get_image_vqvae (FW := sample_framework) sample_constants 0 512 (64, 64) 3 true true
    "vq_vae" zero_vqvae_vars = Raise ValueError /\
  get_encoder (T := R) (FW := sample_framework) 4 (0, 8, 3) 1 true "e" zero_encoder_vars
    = Raise ValueError /\
  get_encoder (T := R) (FW := sample_framework) 4 (8, 8, 3) 1 true "a /b"
    zero_encoder_vars = Raise ValueError /\
  get_decoder (T := R) (FW := sample_framework) (2, 2, 4) 4 1 0 "d" zero_decoder_vars
    = Raise ValueError.
Proof. repeat split; reflexivity. Qed.

(* ================================================================== *)
(** * Properties: construction and static shapes *)

Lemma Ok_inj {A : Type} (a b : A) : Ok a = Ok b -> a = b.
Proof. intros H. injection H as H. exact H. Qed.

Lemma bind_inv {A B : Type} (r : result A) (k : A -> result B) (b : B) :
  bind r k = Ok b -> exists a, r = Ok a /\ k a = Ok b.
Proof.
  destruct r as [a | e]; simpl; intros H.
  - exists a. split; [reflexivity | exact H].
  - discriminate H.
Qed.

Lemma foldM_app {A S : Type} (f : A -> S -> result S) (l1 l2 : list A) (s : S) :
  foldM f (l1 ++ l2) s = bind (foldM f l1 s) (foldM f l2).
Proof.
  revert s. induction l1 as [| a l1 IH]; intros s; simpl.
  - reflexivity.
  - destruct (f a s) as [s' | e]; simpl; [apply IH | reflexivity].
Qed.

Lemma ltb_0_true (n : nat) : 0 < n -> (0 <? n) = true.
Proof. intros H. apply Nat.ltb_lt, H. Qed.

Lemma conv_output_length_same_1 (n k : nat) :
  keras.conv_output_length n k keras.same 1 = Ok n.
Proof.
  unfold keras.conv_output_length.
  change (1 =? 0) with false. cbv iota.
  rewrite Nat.add_sub, Nat.div_1_r. reflexivity.
Qed.

Lemma conv_output_length_same_2 (n k : nat) :
  keras.conv_output_length n k keras.same 2 = Ok ((n + 1) / 2).
Proof.
  unfold keras.conv_output_length.
  change (2 =? 0) with false. cbv iota.
  replace (n + 2 - 1) with (n + 1) by lia. reflexivity.
Qed.

(** A 1x1 "valid" convolution keeps a positive length and rejects the
    length 0. *)
Lemma conv_output_length_valid_1_1 (n : nat) :
  keras.conv_output_length n 1 keras.valid 1
  = if 0 <? n then Ok n else Raise ValueError.
Proof.
  unfold keras.conv_output_length.
  change (1 =? 0) with false. cbv iota.
  destruct n as [| n]; [reflexivity |].
  change (S n <? 1) with false. change (0 <? S n) with true. cbv iota.
  replace (S n - 1 + 1) with (S n) by lia.
  rewrite Nat.div_1_r. reflexivity.
Qed.

Lemma deconv_output_length_same (n k s : nat) :
  keras.deconv_output_length n k keras.same (S s) = Ok (n * S s).
Proof. reflexivity. Qed.

(** Two stride-2 "same" convolutions divide a multiple of 4 by 4; in
    general they round the quotient up. *)
Lemma halve_twice (n : nat) : ((n + 1) / 2 + 1) / 2 = (n + 3) / 4.
Proof.
  pose proof (Nat.div_mod_eq n 4) as E.
  pose proof (Nat.mod_upper_bound n 4 ltac:(lia)) as B.
  set (q := n / 4) in *. set (r := n mod 4) in *.
  assert (Hq : (n + 3) / 4 = q + (r + 3) / 4).
  { replace (n + 3) with (q * 4 + (r + 3)) by lia.
    rewrite Nat.div_add_l by lia. reflexivity. }
  rewrite Hq.
  assert (H1 : (n + 1) / 2 = 2 * q + (r + 1) / 2).
  { replace (n + 1) with ((2 * q) * 2 + (r + 1)) by lia.
    rewrite Nat.div_add_l by lia. reflexivity. }
  rewrite H1.
  replace (2 * q + (r + 1) / 2 + 1) with (q * 2 + ((r + 1) / 2 + 1)) by lia.
  rewrite Nat.div_add_l by lia.
  f_equal.
  destruct r as [| [| [| [| r]]]]; try reflexivity; lia.
Qed.

Lemma halve_twice_divide (n : nat) : Nat.divide 4 n -> ((n + 1) / 2 + 1) / 2 = n / 4.
Proof.
  intros [q ->]. rewrite halve_twice.
  rewrite Nat.div_mul by lia.
  rewrite Nat.div_add_l by lia. simpl. lia.
Qed.

(** A length rounded up to a multiple of 4. *)
Lemma round_up_4 (k : nat) : k <= 4 * ((k + 3) / 4) < k + 4.
Proof.
  pose proof (Nat.div_mod_eq (k + 3) 4) as E.
  pose proof (Nat.mod_upper_bound (k + 3) 4 ltac:(lia)). lia.
Qed.

Lemma round_up_4_positive (k : nat) : (0 <? (k + 3) / 4) = (0 <? k).
Proof.
  pose proof (round_up_4 k) as B.
  destruct k as [| k]; [reflexivity |].
  change (0 <? S k) with true. apply Nat.ltb_lt. lia.
Qed.

Lemma round_up_4_divide (k : nat) : Nat.divide 4 k -> 4 * ((k + 3) / 4) = k.
Proof. intros [q ->]. rewrite Nat.div_add_l by lia. simpl. lia. Qed.

Lemma broadcast_dim_refl (a : nat) : keras.broadcast_dim a a = Ok a.
Proof. unfold keras.broadcast_dim. rewrite Nat.eqb_refl. reflexivity. Qed.

Lemma broadcast_shape_refl (s : shape) : keras.broadcast_shape s s = Ok s.
Proof.
  destruct s as [[h w] c]. unfold keras.broadcast_shape.
  rewrite !broadcast_dim_refl. reflexivity.
Qed.

Section construction.

Context {T : Type} {ST : Scalar T} {FW : Framework}.

(** The constructor of a convolution accepts a positive number of filters
    with the kernel sizes and strides of the source. *)
Lemma Conv2D_init (filters kernel_size strides : nat) (pad : keras.padding)
    (use_bias : bool) (k : keras.kernel T) (b : keras.bias T) :
  keras.__init__ (keras.Conv2D filters (S kernel_size) (S strides) pad use_bias k b)
  = if 0 <? filters
    then Ok (keras.Conv2D filters (S kernel_size) (S strides) pad use_bias k b)
    else Raise ValueError.
Proof. destruct filters; reflexivity. Qed.

Lemma Conv2DTranspose_init (filters kernel_size strides : nat) (pad : keras.padding)
    (use_bias : bool) (k : keras.kernel T) (b : keras.bias T) :
  keras.__init__ (keras.Conv2DTranspose filters (S kernel_size) (S strides) pad use_bias k b)
  = if 0 <? filters
    then Ok (keras.Conv2DTranspose filters (S kernel_size) (S strides) pad use_bias k b)
    else Raise ValueError.
Proof. destruct filters; reflexivity. Qed.

(** What [ResBlock.__init__] checks, and the block it returns. *)
Lemma ResBlock_init_eq (out_channels : nat) (mid_channels : option nat) (bn : bool)
    (name : option string) (vs : ResBlock.vars T) :
  ResBlock.__init__ out_channels mid_channels bn name vs =
  if keras.valid_name_argument name
     && (0 <? mid_channels_of out_channels mid_channels) && (0 <? out_channels)
  then Ok (ResBlock_of out_channels mid_channels bn name vs)
  else Raise ValueError.
Proof.
  unfold ResBlock.__init__, keras.Layer__init__.
  destruct (keras.valid_name_argument name); [| reflexivity].
  unfold mid_channels_of, ResBlock_of, ResBlock_layers, mid_channels_of.
  destruct mid_channels as [[| m] |], out_channels as [| o], bn; reflexivity.
Qed.

Lemma ResBlock_init_Ok (out_channels : nat) (mid_channels : option nat) (bn : bool)
    (name : option string) (vs : ResBlock.vars T) :
  0 < out_channels -> 0 < mid_channels_of out_channels mid_channels ->
  keras.valid_name_argument name = true ->
  ResBlock.__init__ out_channels mid_channels bn name vs
  = Ok (ResBlock_of out_channels mid_channels bn name vs).
Proof.
  intros Ho Hm Hn. rewrite ResBlock_init_eq, Hn.
  rewrite !ltb_0_true by assumption. reflexivity.
Qed.

(** What a successful [ResBlock.__init__] tells about its arguments. *)
Lemma ResBlock_init_inv (out_channels : nat) (mid_channels : option nat) (bn : bool)
    (name : option string) (vs : ResBlock.vars T) (self : ResBlock.t T) :
  ResBlock.__init__ out_channels mid_channels bn name vs = Ok self ->
  self = ResBlock_of out_channels mid_channels bn name vs /\
  0 < out_channels /\ 0 < mid_channels_of out_channels mid_channels /\
  keras.valid_name_argument name = true.
Proof.
  rewrite ResBlock_init_eq.
  destruct (keras.valid_name_argument name); [| discriminate].
  destruct (0 <? mid_channels_of out_channels mid_channels) eqn:Hm; [| discriminate].
  destruct (0 <? out_channels) eqn:Ho; [| discriminate].
  cbn [andb]. intros E. apply Ok_inj in E.
  apply Nat.ltb_lt in Hm, Ho.
  split; [symmetry; exact E |]. split; [exact Ho |]. split; [exact Hm | reflexivity].
Qed.

(** Shape inference through the layers of a block: the input needs
    channels, rows and columns. *)
Lemma ResBlock_layers_output_shape (out_channels mid : nat) (bn : bool)
    (vs : ResBlock.vars T) (h w c : nat) :
  keras.Sequential_output_shape (ResBlock_layers out_channels mid bn vs) (h, w, c) =
  if (0 <? c) && (0 <? mid) && (0 <? h) && (0 <? w)
  then Ok (h, w, out_channels)
  else Raise ValueError.
Proof.
  unfold keras.Sequential_output_shape, ResBlock_layers.
  cbn [app foldM keras.compute_output_shape bind].
  destruct c as [| c]; [reflexivity |].
  cbn [Nat.eqb Nat.ltb Nat.leb andb].
  rewrite !conv_output_length_same_1. cbn [bind].
  assert (E : foldM keras.compute_output_shape
                [keras.Activation activations.relu;
                 keras.Conv2D out_channels 1 1 keras.valid true
                   (ResBlock.conv2_kernel vs) (ResBlock.conv2_bias vs)] (h, w, mid)
              = if (0 <? mid) && (0 <? h) && (0 <? w)
                then Ok (h, w, out_channels) else Raise ValueError).
  { cbn [foldM keras.compute_output_shape bind].
    destruct mid as [| mid]; [reflexivity |].
    cbn [Nat.eqb Nat.ltb Nat.leb andb].
    rewrite !conv_output_length_valid_1_1.
    destruct h as [| h]; [reflexivity |]. destruct w as [| w]; reflexivity. }
  destruct bn; cbn [app foldM keras.compute_output_shape bind]; exact E.
Qed.

Lemma ResBlock_compute_output_shape_eq (out_channels : nat) (mid_channels : option nat)
    (bn : bool) (name : option string) (vs : ResBlock.vars T) (h w c : nat) :
  ResBlock.compute_output_shape (ResBlock_of out_channels mid_channels bn name vs) (h, w, c)
  = if (0 <? c) && (0 <? mid_channels_of out_channels mid_channels) && (0 <? h) && (0 <? w)
    then keras.broadcast_shape (h, w, c) (h, w, out_channels)
    else Raise ValueError.
Proof.
  unfold ResBlock.compute_output_shape, ResBlock_of. cbn [ResBlock.convs].
  rewrite ResBlock_layers_output_shape.
  destruct ((0 <? c) && (0 <? mid_channels_of out_channels mid_channels)
            && (0 <? h) && (0 <? w)); reflexivity.
Qed.

Lemma ResBlock_compute_output_shape (out_channels : nat) (mid_channels : option nat)
    (bn : bool) (name : option string) (vs : ResBlock.vars T) (h w : nat) :
  0 < out_channels -> 0 < mid_channels_of out_channels mid_channels -> 0 < h -> 0 < w ->
  ResBlock.compute_output_shape
    (ResBlock_of out_channels mid_channels bn name vs) (h, w, out_channels)
  = Ok (h, w, out_channels).
Proof.
  intros Ho Hm Hh Hw. rewrite ResBlock_compute_output_shape_eq.
  rewrite !ltb_0_true by assumption. apply broadcast_shape_refl.
Qed.

Lemma BatchNormalization_shape (eps : T) (v : keras.bn_vars T) (s : shape) :
  keras.compute_output_shape (keras.BatchNormalization eps v) s = Ok s.
Proof. destruct s as [[h w] c]. reflexivity. Qed.

Lemma apply_same_shape (l : keras.layer T) (t : Model.KerasTensor T) :
  (forall s, keras.compute_output_shape l s = Ok s) ->
  Model.apply (Model.Keras l) t =
  Ok {| Model.shape_of := Model.shape_of t;
        Model.history := Model.history t ++ [Model.Keras l] |}.
Proof.
  intros H. unfold Model.apply. cbn [Model.compute_output_shape].
  rewrite H. reflexivity.
Qed.

(** The loop of [get_encoder]: each round appends one block, followed by a
    normalisation layer when [batchnorm] is set, and keeps the shape; it
    fails on a name the framework rejects and on a grid without rows or
    columns. *)
Lemma get_encoder_loop (latent_dim : nat) (batchnorm : bool) (name : string)
    (vs : encoder_vars T) (h w : nat) (n : nat) :
  0 < latent_dim ->
  forall (a : nat) (t : Model.KerasTensor T),
  Model.shape_of t = (h, w, latent_dim) ->
  foldM (fun i x =>
           r <- ResBlock.__init__ latent_dim None batchnorm
                  (Some (name ++ "_resblock" ++ str i)%string) (enc_resblock vs i) ;;
           x <- Model.apply (Model.Res r) x ;;
           if batchnorm
           then Model.apply (default_BatchNormalization (enc_resblock_bn vs i)) x
           else Ok x)
        (seq a n) t =
  if forallb (fun i => valid_layer_name (name ++ "_resblock" ++ str i)%string) (seq a n)
     && ((n =? 0) || ((0 <? h) && (0 <? w)))
  then Ok {| Model.shape_of := (h, w, latent_dim);
             Model.history := Model.history t ++
               flat_map (fun i =>
                 Model.Res (ResBlock_of latent_dim None batchnorm
                              (Some (name ++ "_resblock" ++ str i)%string)
                              (enc_resblock vs i))
                 :: (if batchnorm
                     then [default_BatchNormalization (enc_resblock_bn vs i)] else []))
                 (seq a n) |}
  else Raise ValueError.
Proof.
  intros Hl. induction n as [| n IH]; intros a t Hs.
  - simpl. rewrite app_nil_r. destruct t as [s hist]. simpl in Hs. subst s. reflexivity.
  - cbn [seq foldM flat_map forallb Nat.eqb orb].
    rewrite ResBlock_init_eq. cbn [keras.valid_name_argument mid_channels_of].
    rewrite (ltb_0_true latent_dim Hl).
    destruct (valid_layer_name (name ++ "_resblock" ++ str a)); [| reflexivity].
    cbn [andb bind]. unfold Model.apply at 1. rewrite Hs.
    cbn [Model.compute_output_shape].
    rewrite ResBlock_compute_output_shape_eq. cbn [mid_channels_of].
    rewrite (ltb_0_true latent_dim Hl). cbn [andb].
    destruct ((0 <? h) && (0 <? w)) eqn:Hhw;
      [| rewrite andb_false_r; reflexivity].
    rewrite broadcast_shape_refl. cbn [bind].
    destruct batchnorm.
    + unfold default_BatchNormalization at 1.
      rewrite apply_same_shape by (apply BatchNormalization_shape).
      cbn [bind Model.shape_of Model.history].
      rewrite IH by reflexivity. rewrite ?Hhw, ?orb_true_r, ?andb_true_r.
      destruct (forallb _ (seq (S a) n)); [| reflexivity].
      cbn [Model.history]. rewrite <- !app_assoc. reflexivity.
    + cbn [bind]. rewrite IH by reflexivity. rewrite ?Hhw, ?orb_true_r, ?andb_true_r.
      destruct (forallb _ (seq (S a) n)); [| reflexivity].
      cbn [Model.history]. rewrite <- !app_assoc. reflexivity.
Qed.

(** The loop of [get_decoder]: one block per round, none of them with a
    normalisation layer. *)
Lemma get_decoder_loop (latent_dim : nat) (name : string) (vs : decoder_vars T)
    (h w : nat) (n : nat) :
  0 < latent_dim ->
  forall (a : nat) (t : Model.KerasTensor T),
  Model.shape_of t = (h, w, latent_dim) ->
  foldM (fun i x =>
           r <- ResBlock.__init__ latent_dim None false
                  (Some (name ++ "_resblock" ++ str i)%string) (dec_resblock vs i) ;;
           Model.apply (Model.Res r) x)
        (seq a n) t =
  if forallb (fun i => valid_layer_name (name ++ "_resblock" ++ str i)%string) (seq a n)
     && ((n =? 0) || ((0 <? h) && (0 <? w)))
  then Ok {| Model.shape_of := (h, w, latent_dim);
             Model.history := Model.history t ++
               map (fun i =>
                 Model.Res (ResBlock_of latent_dim None false
                              (Some (name ++ "_resblock" ++ str i)%string)
                              (dec_resblock vs i)))
                 (seq a n) |}
  else Raise ValueError.
Proof.
  intros Hl. induction n as [| n IH]; intros a t Hs.
  - simpl. rewrite app_nil_r. destruct t as [s hist]. simpl in Hs. subst s. reflexivity.
  - cbn [seq foldM map forallb Nat.eqb orb].
    rewrite ResBlock_init_eq. cbn [keras.valid_name_argument mid_channels_of].
    rewrite (ltb_0_true latent_dim Hl).
    destruct (valid_layer_name (name ++ "_resblock" ++ str a)); [| reflexivity].
    cbn [andb bind]. unfold Model.apply at 1. rewrite Hs.
    cbn [Model.compute_output_shape].
    rewrite ResBlock_compute_output_shape_eq. cbn [mid_channels_of].
    rewrite (ltb_0_true latent_dim Hl). cbn [andb].
    destruct ((0 <? h) && (0 <? w)) eqn:Hhw;
      [| rewrite andb_false_r; reflexivity].
    rewrite broadcast_shape_refl. cbn [bind].
    rewrite IH by reflexivity. rewrite ?Hhw, ?orb_true_r, ?andb_true_r.
    destruct (forallb _ (seq (S a) n)); [| reflexivity].
    cbn [Model.history]. rewrite <- !app_assoc. reflexivity.
Qed.

End construction.

Section builders.

Context {T : Type} {ST : Scalar T} {FW : Framework}.

Lemma Conv2D_same_2_shape (filters : nat) (use_bias : bool) (k : keras.kernel T)
    (b : keras.bias T) (h w c : nat) :
  keras.compute_output_shape (keras.Conv2D filters 4 2 keras.same use_bias k b) (h, w, c)
  = if 0 <? c then Ok ((h + 1) / 2, (w + 1) / 2, filters) else Raise ValueError.
Proof.
  cbn [keras.compute_output_shape]. destruct c as [| c]; [reflexivity |].
  cbn [Nat.eqb]. rewrite !conv_output_length_same_2. reflexivity.
Qed.

Lemma Conv2D_same_1_shape (filters kernel_size : nat) (use_bias : bool) (k : keras.kernel T)
    (b : keras.bias T) (h w c : nat) :
  keras.compute_output_shape (keras.Conv2D filters kernel_size 1 keras.same use_bias k b)
    (h, w, c)
  = if 0 <? c then Ok (h, w, filters) else Raise ValueError.
Proof.
  cbn [keras.compute_output_shape]. destruct c as [| c]; [reflexivity |].
  cbn [Nat.eqb]. rewrite !conv_output_length_same_1. reflexivity.
Qed.

Lemma Conv2D_valid_1_1_shape (filters : nat) (use_bias : bool) (k : keras.kernel T)
    (b : keras.bias T) (h w c : nat) :
  keras.compute_output_shape (keras.Conv2D filters 1 1 keras.valid use_bias k b) (h, w, c)
  = if (0 <? c) && (0 <? h) && (0 <? w) then Ok (h, w, filters) else Raise ValueError.
Proof.
  cbn [keras.compute_output_shape]. destruct c as [| c]; [reflexivity |].
  cbn [Nat.eqb]. rewrite !conv_output_length_valid_1_1.
  destruct h as [| h]; [reflexivity |]. destruct w as [| w]; reflexivity.
Qed.

Lemma Conv2DTranspose_same_shape (filters kernel_size strides : nat) (use_bias : bool)
    (k : keras.kernel T) (b : keras.bias T) (h w c : nat) :
  keras.compute_output_shape
    (keras.Conv2DTranspose filters kernel_size (S strides) keras.same use_bias k b) (h, w, c)
  = if 0 <? c then Ok (h * S strides, w * S strides, filters) else Raise ValueError.
Proof.
  cbn [keras.compute_output_shape]. destruct c as [| c]; reflexivity.
Qed.

Lemma apply_Keras (l : keras.layer T) (t : Model.KerasTensor T) :
  Model.apply (Model.Keras l) t =
  (s <- keras.compute_output_shape l (Model.shape_of t) ;;
   Ok {| Model.shape_of := s; Model.history := Model.history t ++ [Model.Keras l] |}).
Proof. reflexivity. Qed.

Lemma LeakyReLU_shape (alpha : T) (s : shape) :
  keras.compute_output_shape (keras.LeakyReLU alpha) s = Ok s.
Proof. destruct s as [[h w] c]. reflexivity. Qed.

Lemma Activation_shape (f : activations.t) (s : shape) :
  keras.compute_output_shape (keras.Activation (T := T) f) s = Ok s.
Proof. destruct s as [[h w] c]. reflexivity. Qed.

(** Rewrites shape inference on the layers of the two builders. *)
Ltac infer_shapes :=
  repeat (progress (cbn [app foldM bind Model.compute_output_shape Model.shape_of
                         Model.history Model.Input];
                    rewrite ?apply_Keras, ?Conv2D_same_2_shape, ?Conv2D_same_1_shape,
                            ?Conv2D_valid_1_1_shape, ?Conv2DTranspose_same_shape,
                            ?LeakyReLU_shape, ?BatchNormalization_shape, ?Activation_shape)).

(** What [get_encoder] checks, and the model it returns. *)
Lemma get_encoder_eq (latent_dim h w c num_resblocks : nat) (batchnorm : bool)
    (name : string) (vs : encoder_vars T) :
  get_encoder latent_dim (h, w, c) num_resblocks batchnorm name vs =
  if (0 <? latent_dim) && (0 <? c) && valid_resblock_names name num_resblocks
     && ((num_resblocks =? 0) || ((0 <? h) && (0 <? w))) && valid_model_name name
  then Ok (encoder_model latent_dim h w c num_resblocks batchnorm name vs)
  else Raise ValueError.
Proof.
  unfold get_encoder. rewrite !Conv2D_init.
  destruct (0 <? latent_dim) eqn:Hl; [| reflexivity]. cbn [andb].
  unfold default_LeakyReLU, default_BatchNormalization at 1 2.
  infer_shapes.
  destruct (0 <? c); [| reflexivity].
  infer_shapes. rewrite Hl. infer_shapes. cbn [andb].
  apply Nat.ltb_lt in Hl.
  rewrite (get_encoder_loop latent_dim batchnorm name vs
             (((h + 1) / 2 + 1) / 2) (((w + 1) / 2 + 1) / 2) num_resblocks Hl)
    by reflexivity.
  rewrite !halve_twice, !round_up_4_positive. fold (valid_resblock_names name num_resblocks).
  destruct (valid_resblock_names name num_resblocks
            && ((num_resblocks =? 0) || ((0 <? h) && (0 <? w)))); [| reflexivity].
  cbn [bind andb]. unfold Model.Model, Model.check_name.
  destruct (valid_model_name name); reflexivity.
Qed.

(** What [get_decoder] checks, and the model it returns. *)
Lemma get_decoder_eq (h w c latent_dim num_resblocks num_channels : nat)
    (name : string) (vs : decoder_vars T) :
  get_decoder (h, w, c) latent_dim num_resblocks num_channels name vs =
  if (0 <? latent_dim) && (0 <? c) && valid_resblock_names name num_resblocks
     && ((num_resblocks =? 0) || ((0 <? h) && (0 <? w))) && (0 <? num_channels)
     && valid_model_name name
  then Ok (decoder_model h w c latent_dim num_resblocks num_channels name vs)
  else Raise ValueError.
Proof.
  unfold get_decoder. rewrite !Conv2D_init, !Conv2DTranspose_init.
  destruct (0 <? latent_dim) eqn:Hl; [| reflexivity]. cbn [andb].
  unfold default_LeakyReLU, default_BatchNormalization.
  infer_shapes.
  destruct (0 <? c); [| reflexivity].
  infer_shapes. cbn [andb].
  pose proof Hl as Hl'. apply Nat.ltb_lt in Hl'.
  rewrite (get_decoder_loop latent_dim name vs h w num_resblocks Hl') by reflexivity.
  fold (valid_resblock_names name num_resblocks).
  destruct (valid_resblock_names name num_resblocks
            && ((num_resblocks =? 0) || ((0 <? h) && (0 <? w)))); [| reflexivity].
  repeat (rewrite ?Hl; infer_shapes).
  destruct (0 <? num_channels); [| reflexivity].
  repeat (rewrite ?Hl; infer_shapes). cbn [andb].
  unfold Model.Model, Model.check_name.
  destruct (valid_model_name name); [| reflexivity].
  cbn [bind]. unfold decoder_model, decoder_layers, default_LeakyReLU,
    default_BatchNormalization.
  cbn [Model.shape_of Model.history Model.Input]. rewrite <- !app_assoc. cbn [app].
  replace (h * 2 * 2 * 1) with (4 * h) by lia.
  replace (w * 2 * 2 * 1) with (4 * w) by lia.
  reflexivity.
Qed.

(** What a successful [get_encoder] tells about its arguments. *)
Lemma get_encoder_inv (latent_dim h w c num_resblocks : nat) (batchnorm : bool)
    (name : string) (vs : encoder_vars T) (m : Model.t T) :
  get_encoder latent_dim (h, w, c) num_resblocks batchnorm name vs = Ok m ->
  m = encoder_model latent_dim h w c num_resblocks batchnorm name vs /\
  0 < latent_dim /\ 0 < c /\ valid_resblock_names name num_resblocks = true /\
  (num_resblocks = 0 \/ (0 < h /\ 0 < w)) /\ valid_model_name name = true.
Proof.
  rewrite get_encoder_eq.
  destruct (0 <? latent_dim) eqn:Hl; [| discriminate].
  destruct (0 <? c) eqn:Hc; [| discriminate].
  destruct (valid_resblock_names name num_resblocks); [| discriminate].
  destruct ((num_resblocks =? 0) || ((0 <? h) && (0 <? w))) eqn:Hn; [| discriminate].
  destruct (valid_model_name name); [| discriminate].
  cbn [andb]. intros E. apply Ok_inj in E.
  apply Nat.ltb_lt in Hl, Hc.
  split; [symmetry; exact E |]. split; [exact Hl |]. split; [exact Hc |].
  split; [reflexivity |]. split; [| reflexivity].
  apply orb_true_iff in Hn as [Hn | Hn].
  - left. apply Nat.eqb_eq, Hn.
  - right. apply andb_true_iff in Hn as [Hh Hw]. split; apply Nat.ltb_lt; assumption.
Qed.

Lemma get_encoder_Ok (latent_dim h w c num_resblocks : nat) (batchnorm : bool)
    (name : string) (vs : encoder_vars T) :
  0 < latent_dim -> 0 < c -> 0 < h -> 0 < w ->
  valid_resblock_names name num_resblocks = true -> valid_model_name name = true ->
  get_encoder latent_dim (h, w, c) num_resblocks batchnorm name vs
  = Ok (encoder_model latent_dim h w c num_resblocks batchnorm name vs).
Proof.
  intros Hl Hc Hh Hw Hr Hn. rewrite get_encoder_eq, Hr, Hn.
  rewrite !ltb_0_true by assumption. rewrite orb_true_r. reflexivity.
Qed.

Lemma get_decoder_inv (h w c latent_dim num_resblocks num_channels : nat)
    (name : string) (vs : decoder_vars T) (m : Model.t T) :
  get_decoder (h, w, c) latent_dim num_resblocks num_channels name vs = Ok m ->
  m = decoder_model h w c latent_dim num_resblocks num_channels name vs /\
  0 < latent_dim /\ 0 < c /\ valid_resblock_names name num_resblocks = true /\
  (num_resblocks = 0 \/ (0 < h /\ 0 < w)) /\ 0 < num_channels /\
  valid_model_name name = true.
Proof.
  rewrite get_decoder_eq.
  destruct (0 <? latent_dim) eqn:Hl; [| discriminate].
  destruct (0 <? c) eqn:Hc; [| discriminate].
  destruct (valid_resblock_names name num_resblocks); [| discriminate].
  destruct ((num_resblocks =? 0) || ((0 <? h) && (0 <? w))) eqn:Hn; [| discriminate].
  destruct (0 <? num_channels) eqn:Hk; [| discriminate].
  destruct (valid_model_name name); [| discriminate].
  cbn [andb]. intros E. apply Ok_inj in E.
  apply Nat.ltb_lt in Hl, Hc, Hk.
  split; [symmetry; exact E |]. split; [exact Hl |]. split; [exact Hc |].
  split; [reflexivity |]. split; [| split; [exact Hk | reflexivity]].
  apply orb_true_iff in Hn as [Hn | Hn].
  - left. apply Nat.eqb_eq, Hn.
  - right. apply andb_true_iff in Hn as [Hh Hw]. split; apply Nat.ltb_lt; assumption.
Qed.

Lemma get_decoder_Ok (h w c latent_dim num_resblocks num_channels : nat)
    (name : string) (vs : decoder_vars T) :
  0 < latent_dim -> 0 < c -> 0 < h -> 0 < w -> 0 < num_channels ->
  valid_resblock_names name num_resblocks = true -> valid_model_name name = true ->
  get_decoder (h, w, c) latent_dim num_resblocks num_channels name vs
  = Ok (decoder_model h w c latent_dim num_resblocks num_channels name vs).
Proof.
  intros Hl Hc Hh Hw Hk Hr Hn. rewrite get_decoder_eq, Hr, Hn.
  rewrite !ltb_0_true by assumption. rewrite orb_true_r. reflexivity.
Qed.

(** ** Shape inference through the chains of the two models *)

Lemma encoder_blocks_call_shape (latent_dim : nat) (batchnorm : bool) (name : string)
    (vs : encoder_vars T) (h w : nat) (n : nat) :
  0 < latent_dim -> n = 0 \/ (0 < h /\ 0 < w) ->
  forall a : nat,
  foldM Model.compute_output_shape
    (flat_map (fun i =>
       Model.Res (ResBlock_of latent_dim None batchnorm
                    (Some (name ++ "_resblock" ++ str i)%string) (enc_resblock vs i))
       :: (if batchnorm then [default_BatchNormalization (enc_resblock_bn vs i)] else []))
       (seq a n))
    (h, w, latent_dim) = Ok (h, w, latent_dim).
Proof.
  intros Hl Hn. induction n as [| n IH]; intros a; [reflexivity |].
  destruct Hn as [Hn | [Hh Hw]]; [discriminate Hn |].
  cbn [seq flat_map app foldM Model.compute_output_shape].
  rewrite ResBlock_compute_output_shape by assumption. cbn [bind].
  destruct batchnorm; cbn [app foldM]; [| apply IH; right; split; assumption].
  unfold default_BatchNormalization at 1.
  cbn [Model.compute_output_shape keras.compute_output_shape bind].
  apply IH. right. split; assumption.
Qed.

Lemma decoder_blocks_call_shape (latent_dim : nat) (name : string) (vs : decoder_vars T)
    (h w : nat) (n : nat) :
  0 < latent_dim -> n = 0 \/ (0 < h /\ 0 < w) ->
  forall a : nat,
  foldM Model.compute_output_shape
    (map (fun i =>
       Model.Res (ResBlock_of latent_dim None false
                    (Some (name ++ "_resblock" ++ str i)%string) (dec_resblock vs i)))
       (seq a n))
    (h, w, latent_dim) = Ok (h, w, latent_dim).
Proof.
  intros Hl Hn. induction n as [| n IH]; intros a; [reflexivity |].
  destruct Hn as [Hn | [Hh Hw]]; [discriminate Hn |].
  cbn [seq map foldM Model.compute_output_shape].
  rewrite ResBlock_compute_output_shape by assumption. cbn [bind].
  apply IH. right. split; assumption.
Qed.

(** Applied to a symbolic tensor of its input shape, an encoder returns a
    tensor of its output shape. *)
Lemma encoder_model_call_shape (latent_dim h w c num_resblocks : nat) (batchnorm : bool)
    (name : string) (vs : encoder_vars T) :
  0 < latent_dim -> 0 < c -> num_resblocks = 0 \/ (0 < h /\ 0 < w) ->
  Model.call_shape (encoder_model latent_dim h w c num_resblocks batchnorm name vs) (h, w, c)
  = Ok ((h + 3) / 4, (w + 3) / 4, latent_dim).
Proof.
  intros Hl Hc Hn. unfold Model.call_shape, encoder_model, encoder_layers.
  cbn [Model.layers]. rewrite foldM_app.
  unfold default_LeakyReLU, default_BatchNormalization at 1 2.
  repeat (rewrite ?(ltb_0_true latent_dim Hl), ?(ltb_0_true c Hc); infer_shapes).
  rewrite !halve_twice.
  apply encoder_blocks_call_shape; [assumption |].
  destruct Hn as [Hn | [Hh Hw]]; [left; exact Hn | right].
  pose proof (round_up_4 h). pose proof (round_up_4 w). lia.
Qed.

Lemma decoder_model_call_shape (h w c latent_dim num_resblocks num_channels : nat)
    (name : string) (vs : decoder_vars T) :
  0 < latent_dim -> 0 < c -> num_resblocks = 0 \/ (0 < h /\ 0 < w) ->
  Model.call_shape (decoder_model h w c latent_dim num_resblocks num_channels name vs)
    (h, w, c)
  = Ok (4 * h, 4 * w, num_channels).
Proof.
  intros Hl Hc Hn. unfold Model.call_shape, decoder_model, decoder_layers.
  cbn [Model.layers].
  repeat (rewrite ?(ltb_0_true latent_dim Hl), ?(ltb_0_true c Hc); infer_shapes).
  rewrite foldM_app, decoder_blocks_call_shape by assumption.
  unfold default_LeakyReLU, default_BatchNormalization.
  repeat (rewrite ?(ltb_0_true latent_dim Hl), ?(ltb_0_true c Hc); infer_shapes).
  replace (h * 2 * 2 * 1) with (4 * h) by lia.
  replace (w * 2 * 2 * 1) with (4 * w) by lia.
  reflexivity.
Qed.

End builders.

Section composed_model.

Context {FW : Framework}.

(** The names [get_image_vqvae] gives to its sub-models and their blocks
    are plain, so every version of the framework accepts them. *)
Lemma default_names_valid (s : string) :
  (s = "encoder" \/ s = "decoder")%string ->
  valid_resblock_names s 2 = true /\ valid_model_name s = true.
Proof.
  intros [-> | ->]; (split; [| apply plain_model_name; reflexivity]);
    unfold valid_resblock_names; cbn [seq forallb];
    rewrite !plain_layer_name by reflexivity; reflexivity.
Qed.

Lemma vq_layer_of_embedding_dim (K : constants.t) (latent_dim num_embeddings : nat)
    (ema : bool) (vs : vqvae_vars) :
  quantizers.embedding_dim (vq_layer_of K latent_dim num_embeddings ema vs) = latent_dim.
Proof. destruct ema; reflexivity. Qed.

Lemma vq_layer_of_num_embeddings (K : constants.t) (latent_dim num_embeddings : nat)
    (ema : bool) (vs : vqvae_vars) :
  quantizers.num_embeddings (vq_layer_of K latent_dim num_embeddings ema vs)
  = num_embeddings.
Proof. destruct ema; reflexivity. Qed.

(** What [get_image_vqvae] checks, and the model it returns. *)
Lemma get_image_vqvae_eq (K : constants.t) (latent_dim num_embeddings H W num_channels : nat)
    (ema batchnorm : bool) (name : string) (vs : vqvae_vars) :
  get_image_vqvae K latent_dim num_embeddings (H, W) num_channels ema batchnorm name vs =
  if (0 <? latent_dim) && (0 <? num_channels) && (0 <? H) && (0 <? W)
     && valid_model_name name
  then Ok (vqvae_model K latent_dim num_embeddings H W num_channels ema batchnorm name vs)
  else Raise ValueError.
Proof.
  unfold get_image_vqvae. cbn [fst snd].
  fold (vq_layer_of K latent_dim num_embeddings ema vs).
  rewrite get_encoder_eq.
  destruct (default_names_valid "encoder"%string (or_introl eq_refl)) as [He1 He2].
  destruct (default_names_valid "decoder"%string (or_intror eq_refl)) as [Hd1 Hd2].
  rewrite He1, He2. cbn [Nat.eqb orb]. rewrite !andb_true_r.
  destruct (0 <? latent_dim) eqn:Hl; [| reflexivity].
  destruct (0 <? num_channels) eqn:Hc; [| reflexivity].
  destruct (0 <? H) eqn:HH; [| reflexivity].
  destruct (0 <? W) eqn:HW; [| reflexivity].
  cbn [andb bind].
  pose proof Hl as Hl'. apply Nat.ltb_lt in Hl', Hc, HH, HW.
  rewrite encoder_model_call_shape by (try assumption; right; split; assumption).
  cbn [bind]. unfold encoder_model at 1. cbn [Model.output_shape].
  rewrite get_decoder_eq, Hd1, Hd2, Hl, !round_up_4_positive.
  rewrite (ltb_0_true H HH), (ltb_0_true W HW).
  cbn [Nat.eqb orb andb Nat.ltb Nat.leb bind].
  unfold quantizers.compute_output_shape.
  rewrite vq_layer_of_embedding_dim, Nat.eqb_refl. cbn [bind].
  rewrite decoder_model_call_shape
    by (try assumption; right; pose proof (round_up_4 H); pose proof (round_up_4 W); lia).
  cbn [bind]. unfold Model.check_name.
  destruct (valid_model_name name); reflexivity.
Qed.

Lemma get_image_vqvae_inv (K : constants.t) (latent_dim num_embeddings H W num_channels : nat)
    (ema batchnorm : bool) (name : string) (vs : vqvae_vars) (m : VQVAE.t) :
  get_image_vqvae K latent_dim num_embeddings (H, W) num_channels ema batchnorm name vs
    = Ok m ->
  m = vqvae_model K latent_dim num_embeddings H W num_channels ema batchnorm name vs /\
  0 < latent_dim /\ 0 < num_channels /\ 0 < H /\ 0 < W /\ valid_model_name name = true.
Proof.
  rewrite get_image_vqvae_eq.
  destruct (0 <? latent_dim) eqn:Hl; [| discriminate].
  destruct (0 <? num_channels) eqn:Hc; [| discriminate].
  destruct (0 <? H) eqn:HH; [| discriminate].
  destruct (0 <? W) eqn:HW; [| discriminate].
  destruct (valid_model_name name); [| discriminate].
  cbn [andb]. intros E. apply Ok_inj in E.
  apply Nat.ltb_lt in Hl, Hc, HH, HW.
  split; [symmetry; exact E |].
  split; [exact Hl |]. split; [exact Hc |]. split; [exact HH |].
  split; [exact HW | reflexivity].
Qed.

Lemma get_image_vqvae_Ok (K : constants.t) (latent_dim num_embeddings H W num_channels : nat)
    (ema batchnorm : bool) (name : string) (vs : vqvae_vars) :
  0 < latent_dim -> 0 < num_channels -> 0 < H -> 0 < W -> valid_model_name name = true ->
  get_image_vqvae K latent_dim num_embeddings (H, W) num_channels ema batchnorm name vs
  = Ok (vqvae_model K latent_dim num_embeddings H W num_channels ema batchnorm name vs).
Proof.
  intros Hl Hc HH HW Hn. rewrite get_image_vqvae_eq, Hn.
  rewrite !ltb_0_true by assumption. reflexivity.
Qed.


End composed_model.

(* ================================================================== *)
(** * Properties: the numeric forward pass keeps the inferred shapes *)

Lemma mapM_exists {A B : Type} (f : A -> result B) (Q : B -> Prop) (l : list A) :
  Forall (fun a => exists b, f a = Ok b /\ Q b) l ->
  exists l', mapM f l = Ok l' /\ length l' = length l /\ Forall Q l'.
Proof.
  induction 1 as [| a l [b [Hb Qb]] _ [l' [Hl' [Hlen HQ]]]].
  - exists []. repeat split; constructor.
  - exists (b :: l'). simpl. rewrite Hb, Hl'. simpl.
    repeat split; [congruence | constructor; assumption].
Qed.

Lemma mapM_Ok_map {A B : Type} (f : A -> result B) (g : A -> B) (l : list A) :
  Forall (fun a => f a = Ok (g a)) l -> mapM f l = Ok (map g l).
Proof.
  induction 1 as [| a l Ha _ IH]; simpl.
  - reflexivity.
  - rewrite Ha, IH. reflexivity.
Qed.

Lemma length_mapi {A B : Type} (f : nat -> A -> B) (l : list A) :
  length (keras.mapi f l) = length l.
Proof.
  unfold keras.mapi.
  rewrite length_map, length_combine, length_seq. apply Nat.min_id.
Qed.

Lemma Forall_combine {A : Type} {P Q : A -> Prop} {xs ys : list A} :
  Forall P xs -> Forall Q ys -> Forall (fun p => P (fst p) /\ Q (snd p)) (combine xs ys).
Proof.
  intros HP. revert ys. induction HP as [| a xs Ha _ IH]; intros ys HQ; simpl.
  - constructor.
  - destruct HQ as [| b ys Hb HQ]; constructor; [split; assumption | apply IH, HQ].
Qed.

Lemma broadcast2_same_length {A : Type} (f : A -> A -> result A) (g : A -> A -> A)
    (xs ys : list A) :
  length xs = length ys ->
  Forall (fun p => f (fst p) (snd p) = Ok (g (fst p) (snd p))) (combine xs ys) ->
  keras.broadcast2 f xs ys = Ok (zip_with g xs ys).
Proof.
  intros Hlen Hf. unfold keras.broadcast2, zip_with.
  rewrite Hlen, Nat.eqb_refl.
  apply (mapM_Ok_map (fun p => f (fst p) (snd p)) (fun p => g (fst p) (snd p))).
  exact Hf.
Qed.

Lemma length_zip_with {A : Type} (f : A -> A -> A) (xs ys : list A) :
  length xs = length ys -> length (zip_with f xs ys) = length xs.
Proof.
  intros H. unfold zip_with. rewrite length_map, length_combine, H. apply Nat.min_id.
Qed.

Lemma Forall_zip_with {A : Type} (f : A -> A -> A) (P : A -> Prop) (xs ys : list A) :
  Forall P xs -> Forall P ys -> (forall a b, P a -> P b -> P (f a b)) ->
  Forall P (zip_with f xs ys).
Proof.
  intros Hx Hy Hf. unfold zip_with. apply Forall_map.
  eapply Forall_impl; [| apply (Forall_combine Hx Hy)].
  intros [a b] [Ha Hb]. apply Hf; assumption.
Qed.

Lemma nth_zip_with {A : Type} (f : A -> A -> A) (xs ys : list A) (i : nat) (d : A) :
  length xs = length ys -> i < length xs ->
  nth i (zip_with f xs ys) d = f (nth i xs d) (nth i ys d).
Proof.
  revert ys i. induction xs as [| a xs IH]; intros ys i Hlen Hi; simpl in *; [lia |].
  destruct ys as [| b ys]; simpl in *; [lia |].
  destruct i as [| i]; [reflexivity |].
  apply IH; lia.
Qed.


Section forward_shapes.

Context {T : Type} {ST : Scalar T}.

Lemma has_shape_tabulate (s : shape) (f : nat -> nat -> nat -> T) :
  has_shape s (tabulate s f).
Proof.
  destruct s as [[h w] c]. unfold has_shape, tabulate. split.
  - rewrite length_map, length_seq. reflexivity.
  - apply Forall_map, Forall_forall. intros i _. split.
    + rewrite length_map, length_seq. reflexivity.
    + apply Forall_map, Forall_forall. intros j _.
      rewrite length_map, length_seq. reflexivity.
Qed.

Lemma has_shape_map_pixels (s : shape) (f : pixel_vec T -> pixel_vec T) (x : image T) :
  (forall px, length (f px) = length px) ->
  has_shape s x -> has_shape s (map (map f) x).
Proof.
  destruct s as [[h w] c]. unfold has_shape. intros Hf [Hlen Hrows]. split.
  - rewrite length_map. exact Hlen.
  - apply Forall_map. revert Hrows. apply Forall_impl.
    intros row [Hrow Hpx]. split.
    + rewrite length_map. exact Hrow.
    + apply Forall_map. revert Hpx. apply Forall_impl.
      intros px Hc. rewrite Hf. exact Hc.
Qed.

Lemma has_shape_map_image (s : shape) (f : T -> T) (x : image T) :
  has_shape s x -> has_shape s (map_image f x).
Proof.
  unfold map_image. apply has_shape_map_pixels.
  intros px. apply length_map.
Qed.

Lemma pixel_tabulate (s : shape) (f : nat -> nat -> nat -> T) (i j o : nat) :
  let '(h, w, c) := s in
  i < h -> j < w -> o < c -> pixel (tabulate s f) i j o = f i j o.
Proof.
  destruct s as [[h w] c]. intros Hi Hj Ho. unfold pixel, tabulate.
  rewrite (nth_indep _ [] (map (fun j => map (fun o => f 0 j o) (seq 0 c)) (seq 0 w)))
    by (rewrite length_map, length_seq; exact Hi).
  rewrite (map_nth (fun i => map (fun j => map (fun o => f i j o) (seq 0 c)) (seq 0 w))
             (seq 0 h) 0 i), seq_nth by exact Hi.
  rewrite (nth_indep _ [] (map (fun o => f (0 + i) 0 o) (seq 0 c)))
    by (rewrite length_map, length_seq; exact Hj).
  rewrite (map_nth (fun j => map (fun o => f (0 + i) j o) (seq 0 c)) (seq 0 w) 0 j),
    seq_nth by exact Hj.
  rewrite (nth_indep _ zero (f (0 + i) (0 + j) 0))
    by (rewrite length_map, length_seq; exact Ho).
  rewrite (map_nth (fun o => f (0 + i) (0 + j) o) (seq 0 c) 0 o), seq_nth by exact Ho.
  reflexivity.
Qed.

Lemma Forall_has_shape_map (s s' : shape) (g : image T -> image T) (x : images T) :
  (forall a, has_shape s a -> has_shape s' (g a)) ->
  Forall (has_shape s) x -> Forall (has_shape s') (map g x).
Proof. intros Hg Hx. apply Forall_map. revert Hx. apply Forall_impl. exact Hg. Qed.

(** The images a layer returns for images of shape [s] have the shape
    that shape inference computes. *)
Lemma keras_call_values_shape (training : bool) (l : keras.layer T) (s s' : shape)
    (x : images T) :
  Forall (has_shape s) x -> keras.compute_output_shape l s = Ok s' ->
  exists y, keras.call_values training l s x = Ok y /\
            length y = length x /\ Forall (has_shape s') y.
Proof.
  intros Hx Hs. destruct s as [[h w] c].
  destruct l as [f | alpha | eps v | fl ks st pad ub k b | fl ks st pad ub k b];
    cbn [keras.compute_output_shape] in Hs; cbn [keras.call_values].
  - apply Ok_inj in Hs. subst s'. eexists. split; [reflexivity |].
    split; [apply length_map |].
    apply Forall_has_shape_map with (s := (h, w, c)); [| exact Hx].
    intros a. apply has_shape_map_image.
  - apply Ok_inj in Hs. subst s'. eexists. split; [reflexivity |].
    split; [apply length_map |].
    apply Forall_has_shape_map with (s := (h, w, c)); [| exact Hx].
    intros a. apply has_shape_map_image.
  - apply Ok_inj in Hs. subst s'. eexists. split; [reflexivity |].
    unfold keras.batch_normalization. split; [apply length_map |].
    apply Forall_has_shape_map with (s := (h, w, c)); [| exact Hx].
    intros a. apply has_shape_map_pixels. intros px. apply length_mapi.
  - destruct (c =? 0); [discriminate Hs |].
    apply bind_inv in Hs as [h' [Eh Hs]]. apply bind_inv in Hs as [w' [Ew Hs]].
    apply Ok_inj in Hs. subst s'.
    apply mapM_exists. revert Hx. apply Forall_impl. intros a _.
    unfold keras.conv2d. rewrite Eh, Ew. cbn [bind].
    eexists. split; [reflexivity | apply has_shape_tabulate].
  - destruct (c =? 0); [discriminate Hs |].
    apply bind_inv in Hs as [h' [Eh Hs]]. apply bind_inv in Hs as [w' [Ew Hs]].
    apply Ok_inj in Hs. subst s'.
    apply mapM_exists. revert Hx. apply Forall_impl. intros a _.
    unfold keras.conv2d_transpose. rewrite Eh, Ew. cbn [bind].
    eexists. split; [reflexivity | apply has_shape_tabulate].
Qed.

(** A Keras layer applied to a batch of images of shape [s] returns a
    batch of the shape that shape inference computes. *)
Lemma keras_call_shape (training : bool) (l : keras.layer T) (n : nat) (s s' : shape)
    (x : batch T) :
  batch_has_shape n s x ->
  keras.compute_output_shape l s = Ok s' ->
  exists y, keras.call training l x = Ok y /\ batch_has_shape n s' y.
Proof.
  intros (Hs & Hn & Hx) Hc. unfold keras.call. rewrite Hs, Hc. cbn [bind].
  destruct (keras_call_values_shape training l s s' (values x) Hx Hc) as (v & Ev & Lv & Sv).
  rewrite Ev. cbn [bind]. eexists. split; [reflexivity |].
  split; [reflexivity |]. split; [cbn [values]; congruence | exact Sv].
Qed.

(** ** Entry-wise addition *)

Lemma add_pixel_same_length (p q : pixel_vec T) :
  length p = length q -> keras.add_pixel p q = Ok (zip_with sadd p q).
Proof.
  intros Hlen. unfold keras.add_pixel.
  apply broadcast2_same_length; [exact Hlen |].
  apply Forall_forall. intros v _. reflexivity.
Qed.

Lemma add_image_same_shape (s : shape) (a b : image T) :
  has_shape s a -> has_shape s b -> keras.add_image a b = Ok (add_images a b).
Proof.
  destruct s as [[h w] c]. intros [Ha Hra] [Hb Hrb].
  unfold keras.add_image, add_images.
  apply broadcast2_same_length; [congruence |].
  eapply Forall_impl; [| apply (Forall_combine Hra Hrb)].
  intros [r1 r2] [[H1 P1] [H2 P2]]. cbn [fst snd] in *.
  apply broadcast2_same_length; [congruence |].
  eapply Forall_impl; [| apply (Forall_combine P1 P2)].
  intros [p q] [Hp Hq]. cbn [fst snd] in *.
  apply add_pixel_same_length. congruence.
Qed.

Lemma add_same_shape (n : nat) (s : shape) (x y : batch T) :
  batch_has_shape n s x -> batch_has_shape n s y -> keras.add x y = Ok (add_batches x y).
Proof.
  intros (Sx & Hx & Hsx) (Sy & Hy & Hsy). unfold keras.add, add_batches.
  rewrite Sx, Sy, broadcast_shape_refl, Hx, Hy, broadcast_dim_refl.
  replace (keras.add_values (values x) (values y))
    with (Ok (zip_with add_images (values x) (values y))); [reflexivity |].
  symmetry. unfold keras.add_values.
  apply broadcast2_same_length; [congruence |].
  eapply Forall_impl; [| apply (Forall_combine Hsx Hsy)].
  intros [a b] [Ha Hb]. cbn [fst snd] in *.
  eapply add_image_same_shape; eassumption.
Qed.

Lemma has_shape_add_images (s : shape) (a b : image T) :
  has_shape s a -> has_shape s b -> has_shape s (add_images a b).
Proof.
  destruct s as [[h w] c]. intros [Ha Hra] [Hb Hrb]. unfold add_images. split.
  - rewrite length_zip_with; congruence.
  - apply Forall_zip_with; [exact Hra | exact Hrb |].
    intros r1 r2 [H1 P1] [H2 P2]. split.
    + rewrite length_zip_with; congruence.
    + apply Forall_zip_with; [exact P1 | exact P2 |].
      intros p q Hp Hq. rewrite length_zip_with; congruence.
Qed.

Lemma batch_has_shape_add (n : nat) (s : shape) (x y : batch T) :
  batch_has_shape n s x -> batch_has_shape n s y ->
  batch_has_shape n s (add_batches x y).
Proof.
  intros (Sx & Hx & Hsx) (Sy & Hy & Hsy). unfold add_batches.
  split; [exact Sx |]. cbn [values]. split.
  - rewrite length_zip_with; congruence.
  - apply Forall_zip_with; [exact Hsx | exact Hsy |].
    intros a b. apply has_shape_add_images.
Qed.

(** Entry (i, j, c) of a sum of images of equal shape is the sum of the
    entries. *)
Lemma pixel_add_images (h w c : nat) (a b : image T) (i j o : nat) :
  has_shape (h, w, c) a -> has_shape (h, w, c) b -> i < h -> j < w -> o < c ->
  pixel (add_images a b) i j o = (pixel a i j o + pixel b i j o)%S.
Proof.
  intros [Ha Hra] [Hb Hrb] Hi Hj Ho. unfold pixel, add_images.
  rewrite Forall_forall in Hra, Hrb.
  assert (Hia : In (nth i a []) a) by (apply nth_In; lia).
  assert (Hib : In (nth i b []) b) by (apply nth_In; lia).
  destruct (Hra _ Hia) as [Wa Pa]. destruct (Hrb _ Hib) as [Wb Pb].
  rewrite Forall_forall in Pa, Pb.
  assert (Hja : In (nth j (nth i a []) []) (nth i a [])) by (apply nth_In; lia).
  assert (Hjb : In (nth j (nth i b []) []) (nth i b [])) by (apply nth_In; lia).
  pose proof (Pa _ Hja) as Ca. pose proof (Pb _ Hjb) as Cb.
  rewrite (nth_zip_with _ a b i []) by lia.
  rewrite (nth_zip_with _ (nth i a []) (nth i b []) j []) by lia.
  rewrite (nth_zip_with sadd _ _ o zero) by lia.
  reflexivity.
Qed.

Lemma pixel_add_batches (n h w c : nat) (x y : batch T) (b i j o : nat) :
  batch_has_shape n (h, w, c) x -> batch_has_shape n (h, w, c) y ->
  b < n -> i < h -> j < w -> o < c ->
  pixel (nth b (values (add_batches x y)) []) i j o =
  (pixel (nth b (values x) []) i j o + pixel (nth b (values y) []) i j o)%S.
Proof.
  intros (_ & Hx & Hsx) (_ & Hy & Hsy) Hb Hi Hj Ho. unfold add_batches. cbn [values].
  rewrite (nth_zip_with add_images (values x) (values y) b []) by lia.
  rewrite Forall_forall in Hsx, Hsy.
  apply pixel_add_images with (h := h) (w := w) (c := c); try assumption.
  - apply Hsx, nth_In. lia.
  - apply Hsy, nth_In. lia.
Qed.

Lemma batch_has_shape_zeros (s : shape) : batch_has_shape 1 s (zeros_batch s).
Proof.
  split; [reflexivity |]. split; [reflexivity |].
  constructor; [apply has_shape_tabulate | constructor].
Qed.

End forward_shapes.

(* ================================================================== *)
(** * Properties: the forward pass of the block and of the models *)

Section forward_pass.

Context {T : Type} {ST : Scalar T}.

(** The layers of a block on a batch of images with [c] channels, layer
    by layer. *)
Lemma ResBlock_layers_call (training : bool) (out_channels mid : nat) (bn : bool)
    (vs : ResBlock.vars T) (n h w c : nat) (x : batch T) :
  batch_has_shape n (h, w, c) x -> 0 < c -> 0 < mid -> 0 < h -> 0 < w ->
  let act := keras.Activation activations.relu in
  let conv1 := keras.Conv2D mid 3 1 keras.same true
                 (ResBlock.conv1_kernel vs) (ResBlock.conv1_bias vs) in
  let norm := keras.BatchNormalization keras.BatchNormalization_epsilon
                 (ResBlock.bn_vars vs) in
  let conv2 := keras.Conv2D out_channels 1 1 keras.valid true
                 (ResBlock.conv2_kernel vs) (ResBlock.conv2_bias vs) in
  exists a1 c1 n1 a2 fx,
    keras.call training act x = Ok a1 /\ batch_has_shape n (h, w, c) a1 /\
    keras.call training conv1 a1 = Ok c1 /\ batch_has_shape n (h, w, mid) c1 /\
    (if bn then keras.call training norm c1 else Ok c1) = Ok n1 /\
    batch_has_shape n (h, w, mid) n1 /\
    keras.call training act n1 = Ok a2 /\ batch_has_shape n (h, w, mid) a2 /\
    keras.call training conv2 a2 = Ok fx /\ batch_has_shape n (h, w, out_channels) fx /\
    keras.Sequential_call training (ResBlock_layers out_channels mid bn vs) x = Ok fx.
Proof.
  intros Hx Hc Hm Hh Hw act conv1 norm conv2.
  destruct (keras_call_shape training act n (h, w, c) (h, w, c) x Hx eq_refl)
    as [a1 [E1 S1]].
  destruct (keras_call_shape training conv1 n (h, w, c) (h, w, mid) a1 S1)
    as [c1 [E2 S2]].
  { subst conv1. rewrite Conv2D_same_1_shape, (ltb_0_true c Hc). reflexivity. }
  assert (exists n1, (if bn then keras.call training norm c1 else Ok c1) = Ok n1
                     /\ batch_has_shape n (h, w, mid) n1) as [n1 [E3 S3]].
  { destruct bn.
    - apply (keras_call_shape training norm n (h, w, mid) (h, w, mid) c1 S2 eq_refl).
    - exists c1. split; [reflexivity | exact S2]. }
  destruct (keras_call_shape training act n (h, w, mid) (h, w, mid) n1 S3 eq_refl)
    as [a2 [E4 S4]].
  destruct (keras_call_shape training conv2 n (h, w, mid) (h, w, out_channels) a2 S4)
    as [fx [E5 S5]].
  { subst conv2. rewrite Conv2D_valid_1_1_shape.
    rewrite (ltb_0_true mid Hm), (ltb_0_true h Hh), (ltb_0_true w Hw). reflexivity. }
  exists a1, c1, n1, a2, fx.
  repeat (split; [assumption |]).
  unfold keras.Sequential_call, ResBlock_layers.
  fold act conv1 norm conv2.
  cbn [app foldM]. rewrite E1. cbn [bind]. rewrite E2. cbn [bind].
  destruct bn; cbn [app foldM].
  - rewrite E3. cbn [bind]. rewrite E4. cbn [bind]. rewrite E5. reflexivity.
  - apply Ok_inj in E3. subst n1. rewrite E4. cbn [bind]. rewrite E5. reflexivity.
Qed.

(** A block on a batch of images whose channel count is [out_channels]
    returns the sum of the batch and of what its layers return. *)
Lemma ResBlock_call_sum (training : bool) (out_channels : nat)
    (mid_channels : option nat) (bn : bool) (name : option string) (vs : ResBlock.vars T)
    (n h w : nat) (x : batch T) :
  batch_has_shape n (h, w, out_channels) x ->
  0 < out_channels -> 0 < mid_channels_of out_channels mid_channels -> 0 < h -> 0 < w ->
  exists fx,
    keras.Sequential_call training
      (ResBlock_layers out_channels (mid_channels_of out_channels mid_channels) bn vs) x
      = Ok fx /\
    batch_has_shape n (h, w, out_channels) fx /\
    ResBlock.call training (ResBlock_of out_channels mid_channels bn name vs) x
      = Ok (add_batches x fx) /\
    batch_has_shape n (h, w, out_channels) (add_batches x fx).
Proof.
  intros Hx Ho Hm Hh Hw.
  destruct (ResBlock_layers_call training out_channels
              (mid_channels_of out_channels mid_channels) bn vs n h w out_channels x
              Hx Ho Hm Hh Hw)
    as (a1 & c1 & n1 & a2 & fx & _ & _ & _ & _ & _ & _ & _ & _ & _ & Sfx & E).
  exists fx. split; [exact E |]. split; [exact Sfx |]. split.
  - unfold ResBlock.call, ResBlock_of. cbn [ResBlock.convs]. rewrite E. cbn [bind].
    apply (add_same_shape n (h, w, out_channels)); assumption.
  - apply batch_has_shape_add; assumption.
Qed.

Context {FW : Framework}.

Lemma call_Keras_step (training : bool) (l : keras.layer T) (rest : list (Model.node T))
    (n : nat) (s s' : shape) (x : batch T) (P : batch T -> Prop) :
  batch_has_shape n s x ->
  keras.compute_output_shape l s = Ok s' ->
  (forall x', batch_has_shape n s' x' ->
     exists y, foldM (Model.call_node training) rest x' = Ok y /\ P y) ->
  exists y, foldM (Model.call_node training) (Model.Keras l :: rest) x = Ok y /\ P y.
Proof.
  intros Hx Hs Hrest.
  destruct (keras_call_shape training l n s s' x Hx Hs) as [x' [E S]].
  cbn [foldM Model.call_node]. rewrite E. cbn [bind]. apply Hrest, S.
Qed.

Lemma call_Res_step (training : bool) (out_channels : nat) (mid_channels : option nat)
    (bn : bool) (name : option string) (vs : ResBlock.vars T) (rest : list (Model.node T))
    (n h w : nat) (x : batch T) (P : batch T -> Prop) :
  batch_has_shape n (h, w, out_channels) x ->
  0 < out_channels -> 0 < mid_channels_of out_channels mid_channels -> 0 < h -> 0 < w ->
  (forall x', batch_has_shape n (h, w, out_channels) x' ->
     exists y, foldM (Model.call_node training) rest x' = Ok y /\ P y) ->
  exists y, foldM (Model.call_node training)
              (Model.Res (ResBlock_of out_channels mid_channels bn name vs) :: rest) x
            = Ok y /\ P y.
Proof.
  intros Hx Ho Hm Hh Hw Hrest.
  destruct (ResBlock_call_sum training out_channels mid_channels bn name vs n h w x
              Hx Ho Hm Hh Hw) as (fx & _ & _ & E & S).
  cbn [foldM Model.call_node]. rewrite E. cbn [bind].
  apply Hrest, S.
Qed.

Lemma encoder_blocks_call (training : bool) (latent_dim : nat) (batchnorm : bool)
    (name : string) (vs : encoder_vars T) (rest : list (Model.node T)) (n h w : nat)
    (P : batch T -> Prop) (k : nat) :
  0 < latent_dim -> k = 0 \/ (0 < h /\ 0 < w) ->
  (forall x', batch_has_shape n (h, w, latent_dim) x' ->
     exists y, foldM (Model.call_node training) rest x' = Ok y /\ P y) ->
  forall (a : nat) (x : batch T),
  batch_has_shape n (h, w, latent_dim) x ->
  exists y,
    foldM (Model.call_node training)
      (flat_map (fun i =>
         Model.Res (ResBlock_of latent_dim None batchnorm
                      (Some (name ++ "_resblock" ++ str i)%string) (enc_resblock vs i))
         :: (if batchnorm then [default_BatchNormalization (enc_resblock_bn vs i)] else []))
         (seq a k) ++ rest) x = Ok y /\ P y.
Proof.
  intros Hl Hk Hrest. induction k as [| k IH]; intros a x Hx.
  - apply Hrest, Hx.
  - destruct Hk as [Hk | [Hh Hw]]; [discriminate Hk |].
    specialize (IH (or_intror (conj Hh Hw))).
    cbn [seq flat_map]. rewrite <- app_assoc. cbn [app].
    apply call_Res_step with (n := n) (h := h) (w := w); try assumption.
    intros x1 H1. destruct batchnorm; cbn [app].
    + unfold default_BatchNormalization at 1.
      apply call_Keras_step with (n := n) (s := (h, w, latent_dim))
                                 (s' := (h, w, latent_dim));
        [assumption | reflexivity |].
      intros x2 H2. apply IH, H2.
    + apply IH, H1.
Qed.

Lemma decoder_blocks_call (training : bool) (latent_dim : nat) (name : string)
    (vs : decoder_vars T) (rest : list (Model.node T)) (n h w : nat)
    (P : batch T -> Prop) (k : nat) :
  0 < latent_dim -> k = 0 \/ (0 < h /\ 0 < w) ->
  (forall x', batch_has_shape n (h, w, latent_dim) x' ->
     exists y, foldM (Model.call_node training) rest x' = Ok y /\ P y) ->
  forall (a : nat) (x : batch T),
  batch_has_shape n (h, w, latent_dim) x ->
  exists y,
    foldM (Model.call_node training)
      (map (fun i =>
         Model.Res (ResBlock_of latent_dim None false
                      (Some (name ++ "_resblock" ++ str i)%string) (dec_resblock vs i)))
         (seq a k) ++ rest) x = Ok y /\ P y.
Proof.
  intros Hl Hk Hrest. induction k as [| k IH]; intros a x Hx.
  - apply Hrest, Hx.
  - destruct Hk as [Hk | [Hh Hw]]; [discriminate Hk |].
    specialize (IH (or_intror (conj Hh Hw))).
    cbn [seq map app].
    apply call_Res_step with (n := n) (h := h) (w := w); try assumption.
    intros x1 H1. apply IH, H1.
Qed.

(** An encoder returns, for a batch of images of its input shape, a batch
    of latent grids of its output shape. *)
Lemma encoder_model_call (training : bool) (latent_dim h w c num_resblocks : nat)
    (batchnorm : bool) (name : string) (vs : encoder_vars T) (n : nat) (x : batch T) :
  0 < latent_dim -> 0 < c -> num_resblocks = 0 \/ (0 < h /\ 0 < w) ->
  batch_has_shape n (h, w, c) x ->
  exists y,
    Model.call training
      (encoder_model latent_dim h w c num_resblocks batchnorm name vs) x = Ok y /\
    batch_has_shape n ((h + 3) / 4, (w + 3) / 4, latent_dim) y.
Proof.
  intros Hl Hc Hn Hx.
  unfold Model.call, encoder_model, encoder_layers. cbn [Model.layers app].
  unfold default_LeakyReLU, default_BatchNormalization at 1 2.
  eapply call_Keras_step;
    [exact Hx | rewrite Conv2D_same_2_shape, (ltb_0_true c Hc); reflexivity |].
  intros x1 H1.
  eapply call_Keras_step; [exact H1 | reflexivity |].
  intros x2 H2.
  eapply call_Keras_step; [exact H2 | reflexivity |].
  intros x3 H3.
  eapply call_Keras_step;
    [exact H3 | rewrite Conv2D_same_2_shape, (ltb_0_true latent_dim Hl); reflexivity |].
  intros x4 H4.
  eapply call_Keras_step; [exact H4 | reflexivity |].
  intros x5 H5.
  eapply call_Keras_step; [exact H5 | reflexivity |].
  intros x6 H6.
  rewrite <- (app_nil_r (flat_map _ _)).
  rewrite <- !halve_twice.
  apply encoder_blocks_call with (n := n) (h := ((h + 1) / 2 + 1) / 2)
                                 (w := ((w + 1) / 2 + 1) / 2);
    [exact Hl | | | exact H6].
  - destruct Hn as [Hn | [Hh Hw]]; [left; exact Hn | right].
    rewrite !halve_twice. pose proof (round_up_4 h). pose proof (round_up_4 w). lia.
  - intros x7 H7. exists x7. split; [reflexivity | exact H7].
Qed.

(** A decoder returns, for a batch of latent grids, a batch four times as
    high and wide with [num_channels] channels. *)
Lemma decoder_model_call (training : bool) (h w c latent_dim num_resblocks : nat)
    (num_channels : nat) (name : string) (vs : decoder_vars T) (n : nat) (x : batch T) :
  0 < latent_dim -> 0 < c -> num_resblocks = 0 \/ (0 < h /\ 0 < w) ->
  batch_has_shape n (h, w, c) x ->
  exists y,
    Model.call training
      (decoder_model h w c latent_dim num_resblocks num_channels name vs) x = Ok y /\
    batch_has_shape n (4 * h, 4 * w, num_channels) y.
Proof.
  intros Hl Hc Hn Hx.
  unfold Model.call, decoder_model, decoder_layers. cbn [Model.layers app].
  unfold default_LeakyReLU, default_BatchNormalization.
  eapply call_Keras_step;
    [exact Hx | rewrite Conv2D_same_1_shape, (ltb_0_true c Hc); reflexivity |].
  intros x1 H1.
  apply decoder_blocks_call with (n := n) (h := h) (w := w); [exact Hl | exact Hn | | exact H1].
  intros x2 H2.
  eapply call_Keras_step;
    [exact H2
    | rewrite Conv2DTranspose_same_shape, (ltb_0_true latent_dim Hl); reflexivity |].
  intros x3 H3.
  eapply call_Keras_step; [exact H3 | reflexivity |].
  intros x4 H4.
  eapply call_Keras_step; [exact H4 | reflexivity |].
  intros x5 H5.
  eapply call_Keras_step;
    [exact H5
    | rewrite Conv2DTranspose_same_shape, (ltb_0_true latent_dim Hl); reflexivity |].
  intros x6 H6.
  eapply call_Keras_step; [exact H6 | reflexivity |].
  intros x7 H7.
  eapply call_Keras_step; [exact H7 | reflexivity |].
  intros x8 H8.
  eapply call_Keras_step;
    [exact H8
    | rewrite Conv2DTranspose_same_shape, (ltb_0_true latent_dim Hl); reflexivity |].
  intros x9 H9.
  eapply call_Keras_step; [exact H9 | reflexivity |].
  intros x10 H10. exists x10. split; [reflexivity |].
  replace (4 * h) with (h * 2 * 2 * 1) by lia.
  replace (4 * w) with (w * 2 * 2 * 1) by lia.
  exact H10.
Qed.

(** What [get_encoder] returns, called on a batch of its input shape. *)
Lemma get_encoder_call (training : bool) (latent_dim h w c num_resblocks : nat)
    (batchnorm : bool) (name : string) (vs : encoder_vars T) (m : Model.t T)
    (n : nat) (x : batch T) :
  get_encoder latent_dim (h, w, c) num_resblocks batchnorm name vs = Ok m ->
  batch_has_shape n (h, w, c) x ->
  exists y, Model.call training m x = Ok y /\
            batch_has_shape n ((h + 3) / 4, (w + 3) / 4, latent_dim) y.
Proof.
  intros Hm Hx. apply get_encoder_inv in Hm as (-> & Hl & Hc & _ & Hn & _).
  apply encoder_model_call; assumption.
Qed.

(** What [get_decoder] returns, called on a batch of its input shape. *)
Lemma get_decoder_call (training : bool) (h w c latent_dim num_resblocks num_channels : nat)
    (name : string) (vs : decoder_vars T) (m : Model.t T) (n : nat) (x : batch T) :
  get_decoder (h, w, c) latent_dim num_resblocks num_channels name vs = Ok m ->
  batch_has_shape n (h, w, c) x ->
  exists y, Model.call training m x = Ok y /\
            batch_has_shape n (4 * h, 4 * w, num_channels) y.
Proof.
  intros Hm Hx. apply get_decoder_inv in Hm as (-> & Hl & Hc & _ & Hn & _).
  apply decoder_model_call; assumption.
Qed.

End forward_pass.

(* ================================================================== *)
(** * Properties: the bounding activation, the quantizer, the composed model *)







(** ** The quantizer *)

Lemma argmin_le (f : nat -> R) (n : nat) : quantizers.argmin f n <= n.
Proof.
  induction n as [| n IH]; simpl; [lia |].
  destruct (Rlt_dec (f (S n)) (f (quantizers.argmin f n))); lia.
Qed.

Lemma argmin_least (f : nat -> R) (n j : nat) :
  j <= n -> (f (quantizers.argmin f n) <= f j)%R.
Proof.
  induction n as [| n IH]; intros Hj; simpl.
  - replace j with 0 by lia. lra.
  - destruct (Rlt_dec (f (S n)) (f (quantizers.argmin f n))) as [Hlt | Hge].
    + destruct (Nat.eq_dec j (S n)) as [-> | Hne]; [lra |].
      assert (Hj' : j <= n) by lia. specialize (IH Hj'). lra.
    + destruct (Nat.eq_dec j (S n)) as [-> | Hne]; [lra |].
      apply IH. lia.
Qed.

Lemma argmin_first (f : nat -> R) (n j : nat) :
  j < quantizers.argmin f n -> (f (quantizers.argmin f n) < f j)%R.
Proof.
  induction n as [| n IH]; simpl; [lia |].
  destruct (Rlt_dec (f (S n)) (f (quantizers.argmin f n))) as [Hlt | Hge]; intros Hj.
  - assert (Hj' : j <= n) by lia.
    pose proof (argmin_least f n j Hj'). lra.
  - apply IH, Hj.
Qed.

Lemma nearest_Ok (q : quantizers.t) (z : list R) :
  length z = quantizers.embedding_dim q -> 0 < quantizers.num_embeddings q ->
  quantizers.nearest q z =
  Ok (quantizers.argmin (quantizers.sq_distance q z) (quantizers.num_embeddings q - 1)).
Proof.
  intros Hz HK. unfold quantizers.nearest.
  rewrite Hz, Nat.eqb_refl.
  destruct (quantizers.num_embeddings q) as [| K'] eqn:EK; [lia | reflexivity].
Qed.

Lemma straight_through_values (z : list quantizers.dual) (qz : list R) :
  length z = length qz ->
  let out := map (fun p => quantizers.dadd (fst p)
                     (quantizers.stop_gradient
                        (quantizers.dsub (quantizers.constant (snd p)) (fst p))))
                 (combine z qz) in
  map quantizers.primal out = qz /\ map quantizers.tangent out = map quantizers.tangent z.
Proof.
  revert qz. induction z as [| a z IH]; intros qz Hlen; destruct qz as [| v qz];
    simpl in Hlen; try discriminate; simpl.
  - split; reflexivity.
  - destruct (IH qz ltac:(lia)) as [IH1 IH2]. split; f_equal; try assumption.
    + ring.
    + ring.
Qed.

Lemma map_primal_constant (z : list R) :
  map quantizers.primal (map quantizers.constant z) = z.
Proof. rewrite map_map. simpl. apply map_id. Qed.

(** On one latent vector of the right length the layer returns the
    gathered codebook vector. *)
Lemma quantizers_call_pixel (q : quantizers.t) (z : list R) :
  length z = quantizers.embedding_dim q -> 0 < quantizers.num_embeddings q ->
  exists qz,
    quantizers.quantize q z = Ok qz /\ length qz = quantizers.embedding_dim q /\
    (out <- quantizers.straight_through q (map quantizers.constant z) ;;
     Ok (map quantizers.primal out)) = Ok qz.
Proof.
  intros Hz HK.
  exists (map (quantizers.embeddings q
                 (quantizers.argmin (quantizers.sq_distance q z)
                                    (quantizers.num_embeddings q - 1)))
              (seq 0 (quantizers.embedding_dim q))).
  assert (Hq : quantizers.quantize q z = Ok
            (map (quantizers.embeddings q
                    (quantizers.argmin (quantizers.sq_distance q z)
                                       (quantizers.num_embeddings q - 1)))
                 (seq 0 (quantizers.embedding_dim q)))).
  { unfold quantizers.quantize. rewrite nearest_Ok by assumption. reflexivity. }
  split; [exact Hq |]. split; [rewrite length_map, length_seq; reflexivity |].
  unfold quantizers.straight_through.
  rewrite map_primal_constant, Hq. cbn [bind]. f_equal.
  apply straight_through_values.
  rewrite !length_map, length_seq. exact Hz.
Qed.

Lemma quantizers_call_values_shape (q : quantizers.t) (h w : nat) (x : images R) :
  Forall (has_shape (h, w, quantizers.embedding_dim q)) x ->
  0 < quantizers.num_embeddings q ->
  exists y, quantizers.call_values q x = Ok y /\ length y = length x /\
            Forall (has_shape (h, w, quantizers.embedding_dim q)) y.
Proof.
  intros Hx HK. unfold quantizers.call_values.
  match goal with
  | |- exists y, mapM ?f x = _ /\ _ =>
      destruct (@mapM_exists _ _ f (has_shape (h, w, quantizers.embedding_dim q)) x)
        as [y [Hy [Hl HQ]]]
  end.
  - revert Hx. apply Forall_impl. intros img [Hh Hrows].
    match goal with
    | |- exists b, mapM ?f img = _ /\ _ =>
        destruct (@mapM_exists _ _ f
                    (fun row => length row = w /\
                       Forall (fun px => length px = quantizers.embedding_dim q) row) img)
          as [img' [Hi [Hli HQi]]]
    end.
    + revert Hrows. apply Forall_impl. intros row [Hw Hpx].
      match goal with
      | |- exists b, mapM ?f row = _ /\ _ =>
          destruct (@mapM_exists _ _ f
                      (fun px => length px = quantizers.embedding_dim q) row)
            as [row' [Hr [Hlr HQr]]]
      end.
      * revert Hpx. apply Forall_impl. intros z Hz.
        destruct (quantizers_call_pixel q z Hz HK) as [qz [_ [Hlen E]]].
        exists qz. split; assumption.
      * exists row'. split; [exact Hr | split; [congruence | exact HQr]].
    + exists img'. split; [exact Hi |]. split; [congruence | exact HQi].
  - exists y. split; [exact Hy | split; [exact Hl | exact HQ]].
Qed.

Lemma quantizers_call_shape (q : quantizers.t) (n h w : nat) (x : batch R) :
  batch_has_shape n (h, w, quantizers.embedding_dim q) x ->
  0 < quantizers.num_embeddings q ->
  exists y, quantizers.call q x = Ok y /\
            batch_has_shape n (h, w, quantizers.embedding_dim q) y.
Proof.
  intros (Hs & Hn & Hx) HK. unfold quantizers.call, quantizers.compute_output_shape.
  rewrite Hs, Nat.eqb_refl. cbn [bind].
  destruct (quantizers_call_values_shape q h w (values x) Hx HK) as (v & Ev & Lv & Sv).
  rewrite Ev. cbn [bind]. eexists. split; [reflexivity |].
  split; [reflexivity |]. split; [cbn [values]; congruence | exact Sv].
Qed.

(** The composed model returns, for a batch of images of its declared
    input shape, a batch of three-channel images whose height and width
    are those of the input rounded up to a multiple of 4. *)
Lemma get_image_vqvae_call_shape {FW : Framework} (K : constants.t) (training : bool)
    (latent_dim num_embeddings H W num_channels : nat) (ema batchnorm : bool)
    (name : string) (vs : vqvae_vars) (m : VQVAE.t) (n : nat) (x : batch R) :
  get_image_vqvae K latent_dim num_embeddings (H, W) num_channels ema batchnorm name vs
    = Ok m ->
  batch_has_shape n (H, W, num_channels) x -> 0 < num_embeddings ->
  exists y, VQVAE.call training m x = Ok y /\
            batch_has_shape n (4 * ((H + 3) / 4), 4 * ((W + 3) / 4), 3) y.
Proof.
  intros Hm Hx HK.
  apply get_image_vqvae_inv in Hm as (-> & Hl & Hc & HH & HW & _).
  unfold VQVAE.call, vqvae_model. cbn [VQVAE.encoder VQVAE.vq_layer VQVAE.decoder].
  destruct (encoder_model_call training latent_dim H W num_channels 2 batchnorm
              "encoder" (vars_encoder vs) n x Hl Hc (or_intror (conj HH HW)) Hx)
    as [e [Ee Se]].
  rewrite Ee. cbn [bind].
  rewrite <- (vq_layer_of_embedding_dim K latent_dim num_embeddings ema vs) in Se.
  destruct (quantizers_call_shape _ n _ _ e Se) as [ql [Eq Sq]];
    [rewrite vq_layer_of_num_embeddings; exact HK |].
  rewrite Eq. cbn [bind]. rewrite vq_layer_of_embedding_dim in Sq.
  apply decoder_model_call; try assumption.
  right. pose proof (round_up_4 H). pose proof (round_up_4 W). lia.
Qed.

(* ================================================================== *)
(** * Properties: zero tensors and finite values *)



Section zero_sums.

Context {T : Type} {ST : Scalar T}.

(** The law of the scalars the lemmas of this section rest on; it holds
    for the real numbers and for [IEEE.t]. *)
Hypothesis add_zero_r : forall v : T, (v + zero)%S = v.





End zero_sums.

(** ** Finite values *)




Lemma R_add_zero_r (v : R) : (v + zero)%S = v.
Proof. cbn. ring. Qed.








Lemma is_nonnegative_finite (v : IEEE.t) : is_nonnegative v -> is_finite v.
Proof. intros [r [-> _]]. eexists. reflexivity. Qed.
















(* ================================================================== *)
(** * The residual block (claims C3 and C7) *)

(** What a successful call of a layer returns: the inferred shape and the
    computed images. *)
Lemma keras_call_inv {T : Type} {ST : Scalar T} (training : bool) (l : keras.layer T)
    (x y : batch T) :
  keras.call training l x = Ok y ->
  keras.compute_output_shape l (sample_shape x) = Ok (sample_shape y) /\
  keras.call_values training l (sample_shape x) (values x) = Ok (values y).
Proof.
  unfold keras.call. intros H.
  apply bind_inv in H as (s & Es & H). apply bind_inv in H as (v & Ev & H).
  apply Ok_inj in H. subst y. split; assumption.
Qed.

Lemma Activation_call {T : Type} {ST : Scalar T} (training : bool) (f : activations.t)
    (x : batch T) :
  keras.call training (keras.Activation f) x
  = Ok {| sample_shape := sample_shape x;
          values := map (map_image (activations.apply f)) (values x) |}.
Proof.
  unfold keras.call. cbn [keras.compute_output_shape keras.call_values].
  destruct (sample_shape x) as [[h w] c]. reflexivity.
Qed.

(** Claim C3.  The constructor of a block returns a block for a positive
    [out_channels = C], a positive number of channels between the two
    convolutions and a name the framework accepts.  A block built with
    [out_channels = C], applied to a batch of feature maps with C channels
    (and at least one row and one column), returns
    [x + conv2(act(norm?(conv1(act(x)))))]: its layers are, in order, a
    rectified-linear activation, a 3x3 "same"-padded convolution to
    [mid_channels] channels, the normalisation layer exactly when [bn] is
    set, a rectified-linear activation and a 1x1 convolution back to C
    channels; [mid_channels] defaults to [out_channels]; the sum is taken
    entry by entry and the output has the height, width and channel count
    of the input. *)
Theorem ResBlock_contract {T : Type} {ST : Scalar T} {FW : Framework} (training : bool)
    (C : nat) (mid_channels : option nat) (bn : bool) (name : option string)
    (vs : ResBlock.vars T) :
  let mid := match mid_channels with None => C | Some m => m end in
  let act := keras.Activation activations.relu in
  let conv1 := keras.Conv2D mid 3 1 keras.same true
                 (ResBlock.conv1_kernel vs) (ResBlock.conv1_bias vs) in
  let norm := keras.BatchNormalization keras.BatchNormalization_epsilon
                 (ResBlock.bn_vars vs) in
  let conv2 := keras.Conv2D C 1 1 keras.valid true
                 (ResBlock.conv2_kernel vs) (ResBlock.conv2_bias vs) in
  (0 < C -> 0 < mid -> keras.valid_name_argument name = true ->
   exists self, ResBlock.__init__ C mid_channels bn name vs = Ok self) /\
  forall self, ResBlock.__init__ C mid_channels bn name vs = Ok self ->
    ResBlock.name self = name /\
    ResBlock.convs self = [act; conv1] ++ (if bn then [norm] else []) ++ [act; conv2] /\
    has_normalization self = bn /\
    forall (n h w : nat) (x : batch T),
      0 < h -> 0 < w -> batch_has_shape n (h, w, C) x ->
      exists a1 c1 n1 a2 fx y,
        keras.call training act x = Ok a1 /\
        values a1 = map (map_image (fun v => smax v zero)) (values x) /\
        keras.call training conv1 a1 = Ok c1 /\ batch_has_shape n (h, w, mid) c1 /\
        (if bn then keras.call training norm c1 else Ok c1) = Ok n1 /\
        keras.call training act n1 = Ok a2 /\
        values a2 = map (map_image (fun v => smax v zero)) (values n1) /\
        keras.call training conv2 a2 = Ok fx /\ batch_has_shape n (h, w, C) fx /\
        ResBlock.call training self x = Ok y /\
        batch_has_shape n (h, w, C) y /\
        forall b i j o, b < n -> i < h -> j < w -> o < C ->
          pixel (nth b (values y) []) i j o =
          (pixel (nth b (values x) []) i j o + pixel (nth b (values fx) []) i j o)%S.
Proof.
  intros mid act conv1 norm conv2. split.
  { intros HC Hmid Hname. eexists. apply ResBlock_init_Ok; assumption. }
  intros self Hself.
  apply ResBlock_init_inv in Hself as (-> & HC & Hmid & Hname).
  split; [reflexivity |]. split; [reflexivity |].
  split; [destruct bn; reflexivity |].
  intros n h w x Hh Hw Hx.
  destruct (ResBlock_layers_call training C (mid_channels_of C mid_channels) bn vs
              n h w C x Hx HC Hmid Hh Hw)
    as (a1 & c1 & n1 & a2 & fx & E1 & S1 & E2 & S2 & E3 & S3 & E4 & S4 & E5 & S5 & E).
  exists a1, c1, n1, a2, fx, (add_batches x fx).
  split; [exact E1 |].
  split; [rewrite Activation_call in E1; apply Ok_inj in E1; subst a1; reflexivity |].
  split; [exact E2 |]. split; [exact S2 |]. split; [exact E3 |].
  split; [exact E4 |].
  split; [rewrite Activation_call in E4; apply Ok_inj in E4; subst a2; reflexivity |].
  split; [exact E5 |]. split; [exact S5 |].
  split.
  { unfold ResBlock.call, ResBlock_of. cbn [ResBlock.convs]. rewrite E. cbn [bind].
    apply (add_same_shape n (h, w, C)); assumption. }
  split; [apply batch_has_shape_add; assumption |].
  intros b i j o Hb Hi Hj Ho.
  apply pixel_add_batches with (n := n) (h := h) (w := w) (c := C); assumption.
Qed.

Lemma ResBlock_contract_witness :
  exists self y,
    ResBlock.__init__ (FW := sample_framework) 1 None true None sample_ResBlock_vars
      = Ok self /\
    ResBlock.call false self
      {| sample_shape := (1, 2, 1); values := [[[[-1]; [2]]]]%R |} = Ok y /\
    batch_has_shape 1 (1, 2, 1) y.
Proof.
  destruct (ResBlock_contract (T := R) (FW := sample_framework) false 1 None true None
              sample_ResBlock_vars) as [Hbuilt Hcontract].
  destruct Hbuilt as [self Hself]; [lia | simpl; lia | reflexivity |].
  destruct (Hcontract self Hself) as (_ & _ & _ & Hcall).
  destruct (Hcall 1 1 2 {| sample_shape := (1, 2, 1); values := [[[[-1]; [2]]]]%R |})
    as (a1 & c1 & n1 & a2 & fx & y & _ & _ & _ & _ & _ & _ & _ & _ & _ & E & S & _).
  - lia.
  - lia.
  - split; [reflexivity |]. split; [reflexivity |]. repeat constructor.
  - exists self, y. split; [exact Hself |]. split; [exact E | exact S].
Defined.





(* ================================================================== *)
(** * Encoder and decoder (claims C4, C5 and C10) *)

(** Claim C4.  For an input of shape (H, W, 3) with H and W positive and
    divisible by 4, [get_encoder] returns a model for a positive
    [latent_dim] and names the framework accepts, and every encoder it
    returns consists of two stride-2 4x4 convolutions, each followed by a
    leaky-rectified activation and a normalisation layer, then of
    [num_resblocks] residual blocks, each followed by a normalisation
    layer exactly when [batchnorm] is set; its output shape is
    (H/4, W/4, latent_dim), and that is the shape of what it returns for a
    batch of such images. *)
Theorem get_encoder_contract {T : Type} {ST : Scalar T} {FW : Framework}
    (latent_dim H W num_resblocks : nat) (batchnorm : bool) (name : string)
    (vs : encoder_vars T) :
  Nat.divide 4 H -> Nat.divide 4 W -> 0 < H -> 0 < W ->
  (0 < latent_dim -> valid_resblock_names name num_resblocks = true ->
   valid_model_name name = true ->
   exists m, get_encoder latent_dim (H, W, 3) num_resblocks batchnorm name vs = Ok m) /\
  forall m,
    get_encoder latent_dim (H, W, 3) num_resblocks batchnorm name vs = Ok m ->
    Model.inputs m = (H, W, 3) /\
    (exists blocks,
       (forall i, i < num_resblocks ->
          ResBlock.__init__ latent_dim None batchnorm
            (Some (name ++ "_resblock" ++ str i)%string) (enc_resblock vs i)
          = Ok (blocks i)) /\
       Model.layers m =
         [Model.Keras (keras.Conv2D latent_dim 4 2 keras.same false
                         (enc_conv1 vs) keras.no_bias);
          Model.Keras (keras.LeakyReLU keras.LeakyReLU_alpha);
          Model.Keras (keras.BatchNormalization keras.BatchNormalization_epsilon
                         (enc_bn1 vs));
          Model.Keras (keras.Conv2D latent_dim 4 2 keras.same false
                         (enc_conv2 vs) keras.no_bias);
          Model.Keras (keras.LeakyReLU keras.LeakyReLU_alpha);
          Model.Keras (keras.BatchNormalization keras.BatchNormalization_epsilon
                         (enc_bn2 vs))]
         ++ flat_map (fun i =>
              Model.Res (blocks i)
              :: (if batchnorm
                  then [Model.Keras (keras.BatchNormalization
                                       keras.BatchNormalization_epsilon
                                       (enc_resblock_bn vs i))]
                  else []))
              (seq 0 num_resblocks)) /\
    Model.output_shape m = (H / 4, W / 4, latent_dim) /\
    forall (training : bool) (n : nat) (x : batch T),
      batch_has_shape n (H, W, 3) x ->
      exists y, Model.call training m x = Ok y /\
                batch_has_shape n (H / 4, W / 4, latent_dim) y.
Proof.
  intros DH DW HH HW.
  assert (EH : (H + 3) / 4 = H / 4) by (rewrite <- halve_twice; apply halve_twice_divide, DH).
  assert (EW : (W + 3) / 4 = W / 4) by (rewrite <- halve_twice; apply halve_twice_divide, DW).
  split.
  { intros Hl Hr Hn. eexists. apply get_encoder_Ok; (assumption || lia). }
  intros m Hm.
  apply get_encoder_inv in Hm as (-> & Hl & Hc & Hr & _ & Hn).
  cbn [encoder_model Model.inputs Model.layers Model.output_shape].
  split; [reflexivity |].
  split.
  { exists (fun i => ResBlock_of latent_dim None batchnorm
                       (Some (name ++ "_resblock" ++ str i)%string) (enc_resblock vs i)).
    split; [| reflexivity].
    intros i Hi. apply ResBlock_init_Ok; [exact Hl | exact Hl |].
    unfold valid_resblock_names in Hr. rewrite forallb_forall in Hr.
    apply Hr, in_seq. lia. }
  split; [rewrite EH, EW; reflexivity |].
  intros training n x Hx.
  rewrite <- EH, <- EW.
  apply encoder_model_call; [exact Hl | lia | right; split; assumption | exact Hx].
Qed.

Lemma get_encoder_contract_witness :
  exists m y,
    get_encoder (T := R) (FW := sample_framework) 64 (64, 64, 3) 2 true "encoder"
      zero_encoder_vars = Ok m /\
    Model.output_shape m = (16, 16, 64) /\
    Model.call false m (zeros_batch (64, 64, 3)) = Ok y /\
    batch_has_shape 1 (16, 16, 64) y.
Proof.
  destruct (get_encoder_contract (T := R) (FW := sample_framework) 64 64 64 2 true
              "encoder" zero_encoder_vars) as [Hbuilt Hcontract].
  - exists 16. reflexivity.
  - exists 16. reflexivity.
  - lia.
  - lia.
  - destruct Hbuilt as [m E]; [lia | reflexivity | reflexivity |].
    destruct (Hcontract m E) as (_ & _ & S & C).
    destruct (C false 1 (zeros_batch (64, 64, 3))) as (y & Ey & Sy).
    + apply batch_has_shape_zeros.
    + exists m, y. split; [exact E | split; [exact S | split; [exact Ey | exact Sy]]].
Defined.

(** Claim C5.  For an input of shape (h, w, latent_dim) with at least one
    row and one column, [get_decoder] returns a model for positive
    [latent_dim] and [num_channels] and names the framework accepts, and
    every decoder it returns consists of one stride-1 4x4 convolution that
    keeps the spatial size, [num_resblocks] residual blocks without a
    normalisation layer inside, two stride-2 4x4 transposed convolutions
    each followed by a leaky-rectified activation and a normalisation
    layer, and one stride-1 4x4 transposed convolution to [num_channels]
    channels followed directly by the hyperbolic tangent; its output shape
    is (4h, 4w, num_channels), and that is the shape of what it returns
    for a batch of such grids. *)
Theorem get_decoder_contract {T : Type} {ST : Scalar T} {FW : Framework}
    (h w latent_dim num_resblocks num_channels : nat) (name : string)
    (vs : decoder_vars T) :
  0 < h -> 0 < w ->
  (0 < latent_dim -> 0 < num_channels ->
   valid_resblock_names name num_resblocks = true -> valid_model_name name = true ->
   exists m,
     get_decoder (h, w, latent_dim) latent_dim num_resblocks num_channels name vs = Ok m) /\
  forall m,
    get_decoder (h, w, latent_dim) latent_dim num_resblocks num_channels name vs = Ok m ->
    Model.inputs m = (h, w, latent_dim) /\
    (exists blocks,
       (forall i, i < num_resblocks ->
          ResBlock.__init__ latent_dim None false
            (Some (name ++ "_resblock" ++ str i)%string) (dec_resblock vs i)
          = Ok (blocks i)) /\
       (forall i, has_normalization (blocks i) = false) /\
       Model.layers m =
         [Model.Keras (keras.Conv2D latent_dim 4 1 keras.same false
                         (dec_conv vs) keras.no_bias)]
         ++ map (fun i => Model.Res (blocks i)) (seq 0 num_resblocks)
         ++ [Model.Keras (keras.Conv2DTranspose latent_dim 4 2 keras.same false
                            (dec_deconv1 vs) keras.no_bias);
             Model.Keras (keras.LeakyReLU keras.LeakyReLU_alpha);
             Model.Keras (keras.BatchNormalization keras.BatchNormalization_epsilon
                            (dec_bn1 vs));
             Model.Keras (keras.Conv2DTranspose latent_dim 4 2 keras.same false
                            (dec_deconv2 vs) keras.no_bias);
             Model.Keras (keras.LeakyReLU keras.LeakyReLU_alpha);
             Model.Keras (keras.BatchNormalization keras.BatchNormalization_epsilon
                            (dec_bn2 vs));
             Model.Keras (keras.Conv2DTranspose num_channels 4 1 keras.same false
                            (dec_out vs) keras.no_bias);
             Model.Keras (keras.Activation activations.tanh)]) /\
    keras.compute_output_shape
      (keras.Conv2D latent_dim 4 1 keras.same false (dec_conv vs) keras.no_bias)
      (h, w, latent_dim) = Ok (h, w, latent_dim) /\
    Model.output_shape m = (4 * h, 4 * w, num_channels) /\
    forall (training : bool) (n : nat) (x : batch T),
      batch_has_shape n (h, w, latent_dim) x ->
      exists y, Model.call training m x = Ok y /\
                batch_has_shape n (4 * h, 4 * w, num_channels) y.
Proof.
  intros Hh Hw. split.
  { intros Hl Hc Hr Hn. eexists. apply get_decoder_Ok; assumption. }
  intros m Hm.
  apply get_decoder_inv in Hm as (-> & Hl & _ & Hr & _ & Hc & Hn).
  cbn [decoder_model Model.inputs Model.layers Model.output_shape].
  split; [reflexivity |].
  split.
  { exists (fun i => ResBlock_of latent_dim None false
                       (Some (name ++ "_resblock" ++ str i)%string) (dec_resblock vs i)).
    split; [| split; [intros i; reflexivity | reflexivity]].
    intros i Hi. apply ResBlock_init_Ok; [exact Hl | exact Hl |].
    unfold valid_resblock_names in Hr. rewrite forallb_forall in Hr.
    apply Hr, in_seq. lia. }
  split; [rewrite Conv2D_same_1_shape, (ltb_0_true latent_dim Hl); reflexivity |].
  split; [reflexivity |].
  intros training n x Hx.
  apply decoder_model_call; [exact Hl | exact Hl | right; split; assumption | exact Hx].
Qed.

Lemma get_decoder_contract_witness :
  exists m y,
    get_decoder (T := R) (FW := sample_framework) (16, 16, 64) 64 2 3 "decoder"
      zero_decoder_vars = Ok m /\
    Model.output_shape m = (64, 64, 3) /\
    Model.call false m (zeros_batch (16, 16, 64)) = Ok y /\
    batch_has_shape 1 (64, 64, 3) y.
Proof.
  destruct (get_decoder_contract (T := R) (FW := sample_framework) 16 16 64 2 3
              "decoder" zero_decoder_vars) as [Hbuilt Hcontract].
  - lia.
  - lia.
  - destruct Hbuilt as [m E]; [lia | lia | reflexivity | reflexivity |].
    destruct (Hcontract m E) as (_ & _ & _ & S & C).
    destruct (C false 1 (zeros_batch (16, 16, 64))) as (y & Ey & Sy).
    + apply batch_has_shape_zeros.
    + exists m, y. split; [exact E | split; [exact S | split; [exact Ey | exact Sy]]].
Defined.

(** Claim C10.  The [batchnorm] flag of [get_image_vqvae] reaches only the
    residual-block section of the encoder.  [get_image_vqvae] returns a
    model for positive sizes and a name the framework accepts; in every
    model it returns, whatever the value of the flag, each of the
    encoder's two strided convolutions is followed by a normalisation
    layer and the encoder's residual blocks have a normalisation layer
    exactly when the flag is set, while the decoder has its two residual
    blocks built with [bn = False] and is the same for both values of the
    flag. *)
Theorem batchnorm_flag_scope {FW : Framework} (K : constants.t)
    (latent_dim num_embeddings H W num_channels : nat) (ema : bool) (name : string)
    (vs : vqvae_vars) :
  (0 < latent_dim -> 0 < num_embeddings -> 0 < num_channels -> 0 < H -> 0 < W ->
   valid_model_name name = true ->
   forall batchnorm : bool,
   exists m,
     get_image_vqvae K latent_dim num_embeddings (H, W) num_channels ema batchnorm
                     name vs = Ok m) /\
  forall (batchnorm : bool) (m : VQVAE.t),
    get_image_vqvae K latent_dim num_embeddings (H, W) num_channels ema batchnorm
                    name vs = Ok m ->
    (exists blocks,
       (forall i, i < 2 ->
          ResBlock.__init__ latent_dim None batchnorm
            (Some ("encoder" ++ "_resblock" ++ str i)%string)
            (enc_resblock (vars_encoder vs) i) = Ok (blocks i)) /\
       (forall i, has_normalization (blocks i) = batchnorm) /\
       Model.layers (VQVAE.encoder m) =
         [Model.Keras (keras.Conv2D latent_dim 4 2 keras.same false
                         (enc_conv1 (vars_encoder vs)) keras.no_bias);
          Model.Keras (keras.LeakyReLU keras.LeakyReLU_alpha);
          Model.Keras (keras.BatchNormalization keras.BatchNormalization_epsilon
                         (enc_bn1 (vars_encoder vs)));
          Model.Keras (keras.Conv2D latent_dim 4 2 keras.same false
                         (enc_conv2 (vars_encoder vs)) keras.no_bias);
          Model.Keras (keras.LeakyReLU keras.LeakyReLU_alpha);
          Model.Keras (keras.BatchNormalization keras.BatchNormalization_epsilon
                         (enc_bn2 (vars_encoder vs)))]
         ++ flat_map (fun i =>
              Model.Res (blocks i)
              :: (if batchnorm
                  then [Model.Keras (keras.BatchNormalization
                                       keras.BatchNormalization_epsilon
                                       (enc_resblock_bn (vars_encoder vs) i))]
                  else []))
              (seq 0 2)) /\
    (exists b0 b1,
       ResBlock.__init__ latent_dim None false (Some "decoder_resblock0"%string)
         (dec_resblock (vars_decoder vs) 0) = Ok b0 /\
       ResBlock.__init__ latent_dim None false (Some "decoder_resblock1"%string)
         (dec_resblock (vars_decoder vs) 1) = Ok b1 /\
       In (Model.Res b0) (Model.layers (VQVAE.decoder m)) /\
       In (Model.Res b1) (Model.layers (VQVAE.decoder m))) /\
    (forall r, In (Model.Res r) (Model.layers (VQVAE.decoder m)) ->
               has_normalization r = false) /\
    forall (batchnorm' : bool) (m' : VQVAE.t),
      get_image_vqvae K latent_dim num_embeddings (H, W) num_channels ema batchnorm'
                      name vs = Ok m' ->
      VQVAE.decoder m' = VQVAE.decoder m.
Proof.
  split.
  { intros Hl _ Hc HH HW Hn batchnorm. eexists.
    apply get_image_vqvae_Ok; assumption. }
  intros batchnorm m Hm.
  apply get_image_vqvae_inv in Hm as (-> & Hl & Hc & HH & HW & Hn).
  cbn [vqvae_model VQVAE.encoder VQVAE.decoder].
  split; [| split; [| split]].
  - exists (fun i => ResBlock_of latent_dim None batchnorm
                       (Some ("encoder" ++ "_resblock" ++ str i)%string)
                       (enc_resblock (vars_encoder vs) i)).
    split; [| split; [intros i; destruct batchnorm; reflexivity | reflexivity]].
    intros i Hi. apply ResBlock_init_Ok; [exact Hl | exact Hl |].
    destruct (default_names_valid "encoder"%string (or_introl eq_refl)) as [Hr _].
    unfold valid_resblock_names in Hr. rewrite forallb_forall in Hr.
    apply Hr, in_seq. lia.
  - destruct (default_names_valid "decoder"%string (or_intror eq_refl)) as [Hr _].
    unfold valid_resblock_names in Hr. cbn [seq forallb] in Hr.
    apply andb_true_iff in Hr as [H0 Hr]. apply andb_true_iff in Hr as [H1 _].
    exists (ResBlock_of latent_dim None false (Some "decoder_resblock0"%string)
              (dec_resblock (vars_decoder vs) 0)),
           (ResBlock_of latent_dim None false (Some "decoder_resblock1"%string)
              (dec_resblock (vars_decoder vs) 1)).
    split; [apply ResBlock_init_Ok; assumption |].
    split; [apply ResBlock_init_Ok; assumption |].
    cbn [decoder_model Model.layers]. unfold decoder_layers. cbn [seq map app].
    split; [right; left; reflexivity | right; right; left; reflexivity].
  - cbn [decoder_model Model.layers]. unfold decoder_layers. cbn [seq map app].
    intros r Hr.
    unfold default_LeakyReLU, default_BatchNormalization in Hr.
    repeat (destruct Hr as [Hr | Hr];
            [first [discriminate Hr | injection Hr as <-; reflexivity] |]).
    destruct Hr.
  - intros batchnorm' m' Hm'.
    apply get_image_vqvae_inv in Hm' as (-> & _). reflexivity.
Qed.

Lemma batchnorm_flag_scope_witness :
  exists m,
    get_image_vqvae (FW := sample_framework) sample_constants 64 512 (64, 64) 3 true false
      "vq_vae" zero_vqvae_vars = Ok m /\
    firstn 3 (Model.layers (VQVAE.encoder m)) =
      [Model.Keras (keras.Conv2D 64 4 2 keras.same false zero_weights keras.no_bias);
       Model.Keras (keras.LeakyReLU keras.LeakyReLU_alpha);
       Model.Keras (keras.BatchNormalization keras.BatchNormalization_epsilon
                      initial_bn_vars)] /\
    forall r, In (Model.Res r) (Model.layers (VQVAE.decoder m)) ->
              has_normalization r = false.
Proof.
  destruct (batchnorm_flag_scope (FW := sample_framework) sample_constants 64 512 64 64 3
              true "vq_vae" zero_vqvae_vars) as [Hbuilt Hscope].
  destruct (Hbuilt ltac:(lia) ltac:(lia) ltac:(lia) ltac:(lia) ltac:(lia) eq_refl false)
    as [m E].
  destruct (Hscope false m E) as ((blocks & _ & _ & L) & _ & Hdec & _).
  exists m. split; [exact E |]. split; [rewrite L; reflexivity | exact Hdec].
Defined.

(* ================================================================== *)
(** * The composed model (claims C1, C2 and C6) *)

(** With [num_channels = 1] the model takes one-channel images and returns
    three-channel ones: [get_image_vqvae] does not pass [num_channels] on
    to [get_decoder], which keeps its default. *)
Lemma get_image_vqvae_num_channels_not_forwarded :
  exists m,
    get_image_vqvae (FW := sample_framework) sample_constants 64 512 (64, 64) 1 true true
      "vq_vae" zero_vqvae_vars = Ok m /\
    VQVAE.inputs m = (64, 64, 1) /\ VQVAE.output_shape m = (64, 64, 3).
Proof.
  eexists. split; [apply get_image_vqvae_Ok; (lia || reflexivity) |].
  split; reflexivity.
Qed.

Lemma not_batch_has_shape {T : Type} {ST : Scalar T} (n : nat) (s s' : shape)
    (y : batch T) :
  batch_has_shape n s y -> s <> s' -> ~ batch_has_shape n s' y.
Proof. intros (Hs & _) Hne (Hs' & _). congruence. Qed.

(** Claim C1 as stated fails: for the declared image shape (30, 30) with
    three channels the model returns 32 x 32 images, because the two
    stride-2 convolutions round 30 up to 8 rows and columns of latents,
    which the decoder enlarges four times. *)
Lemma get_image_vqvae_shape_counterexample :
  exists m y,
    get_image_vqvae (FW := sample_framework) sample_constants 64 512 (30, 30) 3 true true
      "vq_vae" zero_vqvae_vars = Ok m /\
    VQVAE.inputs m = (30, 30, 3) /\
    VQVAE.output_shape m = (32, 32, 3) /\
    batch_has_shape 1 (30, 30, 3) (zeros_batch (30, 30, 3)) /\
    VQVAE.call false m (zeros_batch (30, 30, 3)) = Ok y /\
    batch_has_shape 1 (32, 32, 3) y /\
    ~ batch_has_shape 1 (30, 30, 3) y.
Proof.
  assert (E : get_image_vqvae (FW := sample_framework) sample_constants 64 512 (30, 30) 3
                true true "vq_vae" zero_vqvae_vars
              = Ok (vqvae_model sample_constants 64 512 30 30 3 true true "vq_vae"
                      zero_vqvae_vars))
    by (apply get_image_vqvae_Ok; (lia || reflexivity)).
  destruct (get_image_vqvae_call_shape sample_constants false 64 512 30 30 3 true true
              "vq_vae" zero_vqvae_vars _ 1 (zeros_batch (30, 30, 3)) E
              (batch_has_shape_zeros (30, 30, 3)))
    as (y & Ey & Sy); [lia |].
  change (4 * ((30 + 3) / 4)) with 32 in Sy.
  eexists. exists y.
  split; [exact E |]. split; [reflexivity |]. split; [reflexivity |].
  split; [apply batch_has_shape_zeros |]. split; [exact Ey |]. split; [exact Sy |].
  apply (not_batch_has_shape 1 (32, 32, 3)); [exact Sy | discriminate].
Qed.

(** Claim C1, amended.  For an image shape (H, W) with H and W positive
    multiples of 4, three channels, a positive [latent_dim], a non-empty
    codebook and a name the framework accepts, the model [get_image_vqvae]
    builds has the output shape (H, W, 3) of its input, and for every
    batch of images of that shape it returns a batch of the same shape. *)
Theorem get_image_vqvae_preserves_shape {FW : Framework} (K : constants.t)
    (training : bool) (latent_dim num_embeddings H W : nat) (ema batchnorm : bool)
    (name : string) (vs : vqvae_vars) (n : nat) (x : batch R) :
  Nat.divide 4 H -> Nat.divide 4 W -> 0 < H -> 0 < W ->
  0 < latent_dim -> 0 < num_embeddings -> valid_model_name name = true ->
  batch_has_shape n (H, W, 3) x ->
  exists m y,
    get_image_vqvae K latent_dim num_embeddings (H, W) 3 ema batchnorm name vs = Ok m /\
    VQVAE.inputs m = (H, W, 3) /\
    VQVAE.output_shape m = (H, W, 3) /\
    VQVAE.call training m x = Ok y /\
    batch_has_shape n (H, W, 3) y.
Proof.
  intros DH DW HH HW Hl HK Hn Hx.
  pose proof (round_up_4_divide H DH) as EH.
  pose proof (round_up_4_divide W DW) as EW.
  assert (E : get_image_vqvae K latent_dim num_embeddings (H, W) 3 ema batchnorm name vs
              = Ok (vqvae_model K latent_dim num_embeddings H W 3 ema batchnorm name vs))
    by (apply get_image_vqvae_Ok; (assumption || lia)).
  destruct (get_image_vqvae_call_shape K training latent_dim num_embeddings H W 3 ema
              batchnorm name vs _ n x E Hx HK) as (y & Ey & Sy).
  rewrite EH, EW in Sy.
  eexists. exists y. split; [exact E |].
  cbn [vqvae_model VQVAE.inputs VQVAE.output_shape]. rewrite EH, EW.
  split; [reflexivity |]. split; [reflexivity |]. split; [exact Ey | exact Sy].
Qed.

Lemma get_image_vqvae_preserves_shape_witness :
  exists m y,
    get_image_vqvae (FW := sample_framework) sample_constants 64 512 (64, 64) 3 true true
      "vq_vae" zero_vqvae_vars = Ok m /\
    VQVAE.output_shape m = (64, 64, 3) /\
    VQVAE.call false m (zeros_batch (64, 64, 3)) = Ok y /\
    batch_has_shape 1 (64, 64, 3) y.
Proof.
  destruct (get_image_vqvae_preserves_shape (FW := sample_framework) sample_constants
              false 64 512 64 64 true true "vq_vae" zero_vqvae_vars 1
              (zeros_batch (64, 64, 3)))
    as (m & y & E & _ & S & Ey & Sy).
  - exists 16. reflexivity.
  - exists 16. reflexivity.
  - lia.
  - lia.
  - lia.
  - lia.
  - reflexivity.
  - apply batch_has_shape_zeros.
  - exists m, y. split; [exact E | split; [exact S | split; [exact Ey | exact Sy]]].
Defined.

Lemma existsb_eqb_In (key : string) (l : list string) :
  existsb (String.eqb key) l = true <-> In key l.
Proof.
  rewrite existsb_exists. split.
  - intros (k & Hk & E). apply String.eqb_eq in E. subst k. exact Hk.
  - intros H. exists key. split; [exact H | apply String.eqb_refl].
Qed.

(** A keyword argument that names no parameter makes the binding raise
    [TypeError]. *)
Lemma bind_arguments_unexpected_keyword (params : list string) (args : list pyval)
    (kwargs : list (string * pyval)) (key : string) (v : pyval) :
  In (key, v) kwargs -> ~ In key params ->
  bind_arguments params args kwargs = Raise TypeError.
Proof.
  intros Hin Hkey. unfold bind_arguments.
  destruct (length params <? length args); [reflexivity |].
  generalize (combine params args) as b.
  induction kwargs as [| kv kwargs IH]; intros b; [destruct Hin |].
  cbn [foldM].
  destruct (negb (existsb (String.eqb (fst kv)) params)) eqn:Hneg; [reflexivity |].
  destruct (bound (fst kv) b); [reflexivity |]. cbn [bind].
  destruct Hin as [-> | Hin].
  - cbn [fst] in Hneg. apply negb_false_iff, existsb_eqb_In in Hneg. contradiction.
  - apply IH, Hin.
Qed.

Lemma get_image_vqvae_vq_layer {FW : Framework} (K : constants.t)
    (latent_dim num_embeddings : nat) (image_shape : nat * nat) (num_channels : nat)
    (ema batchnorm : bool) (name : string) (vs : vqvae_vars) (m : VQVAE.t) :
  get_image_vqvae K latent_dim num_embeddings image_shape num_channels ema batchnorm
                  name vs = Ok m ->
  VQVAE.vq_layer m =
    if ema
    then quantizers.VectorQuantizerEMA latent_dim num_embeddings
           (constants.COMMITMENT_COST K) (constants.DECAY K)
           "vector_quantizer" (vars_codebook vs)
    else quantizers.VectorQuantizer latent_dim num_embeddings
           (constants.COMMITMENT_COST K)
           "vector_quantizer" (vars_codebook vs).
Proof.
  destruct image_shape as [H W]. intros E.
  apply get_image_vqvae_inv in E as (-> & _). reflexivity.
Qed.

(** Claim C2 as stated fails: [get_image_vqvae] has no [commitment_cost]
    and no [decay] parameter, so a call that supplies either raises
    [TypeError]. *)
Lemma get_image_vqvae_rejects_commitment_cost_and_decay :
  get_image_vqvae_call (FW := sample_framework) sample_constants []
    [("commitment_cost"%string, PFloat (1 / 2)%R)] zero_vqvae_vars = Raise TypeError /\
  get_image_vqvae_call (FW := sample_framework) sample_constants []
    [("decay"%string, PFloat (9 / 10)%R)] zero_vqvae_vars = Raise TypeError.
Proof. split; reflexivity. Qed.

(** Claim C2, amended.  The parameters of [get_image_vqvae] are
    [latent_dim], [num_embeddings], [image_shape], [num_channels], [ema],
    [batchnorm] and [name]; a call with any other keyword, among them
    [commitment_cost] and [decay], raises [TypeError]; and the quantizer
    of every model it builds has the module constant [COMMITMENT_COST] as
    commitment cost and, in the moving-average variant, the module
    constant [DECAY] as decay. *)
Theorem get_image_vqvae_quantizer_constants {FW : Framework} (K : constants.t)
    (args : list pyval) (kwargs : list (string * pyval)) (vs : vqvae_vars) :
  get_image_vqvae_params =
    ["latent_dim"; "num_embeddings"; "image_shape"; "num_channels"; "ema"; "batchnorm";
     "name"]%string /\
  (forall key v, In (key, v) kwargs -> ~ In key get_image_vqvae_params ->
     get_image_vqvae_call K args kwargs vs = Raise TypeError) /\
  (forall v, In ("commitment_cost"%string, v) kwargs \/ In ("decay"%string, v) kwargs ->
     get_image_vqvae_call K args kwargs vs = Raise TypeError) /\
  forall m, get_image_vqvae_call K args kwargs vs = Ok m ->
    match VQVAE.vq_layer m with
    | quantizers.VectorQuantizerEMA _ _ c g _ _ =>
        c = constants.COMMITMENT_COST K /\ g = constants.DECAY K
    | quantizers.VectorQuantizer _ _ c _ _ => c = constants.COMMITMENT_COST K
    end.
Proof.
  assert (Hunexpected : forall key v, In (key, v) kwargs ->
            ~ In key get_image_vqvae_params ->
            get_image_vqvae_call K args kwargs vs = Raise TypeError).
  { intros key v Hin Hkey. unfold get_image_vqvae_call.
    rewrite (bind_arguments_unexpected_keyword _ _ _ key v Hin Hkey). reflexivity. }
  split; [reflexivity |]. split; [exact Hunexpected |]. split.
  - intros v [Hin | Hin]; apply (Hunexpected _ v Hin);
      intros H; apply existsb_eqb_In in H; discriminate H.
  - intros m E. unfold get_image_vqvae_call in E.
    do 8 (apply bind_inv in E as (? & _ & E)).
    apply get_image_vqvae_vq_layer in E. rewrite E.
    match goal with |- context [if ?b then _ else _] => destruct b end;
      [split; reflexivity | reflexivity].
Qed.

Lemma get_image_vqvae_quantizer_constants_witness :
  get_image_vqvae_call (FW := sample_framework) sample_constants [PInt 64]
    [("ema"%string, PBool true); ("decay"%string, PFloat (9 / 10)%R)] zero_vqvae_vars
    = Raise TypeError /\
  exists m,
    get_image_vqvae_call (FW := sample_framework) sample_constants [PInt 64]
      [("ema"%string, PBool true)] zero_vqvae_vars = Ok m /\
    quantizers.commitment_cost (VQVAE.vq_layer m) = (1 / 4)%R /\
    quantizers.decay (VQVAE.vq_layer m) = Some (99 / 100)%R.
Proof.
  split.
  - apply (get_image_vqvae_quantizer_constants (FW := sample_framework) sample_constants
             [PInt 64] [("ema"%string, PBool true); ("decay"%string, PFloat (9 / 10)%R)]
             zero_vqvae_vars) with (v := PFloat (9 / 10)%R).
    right. right. left. reflexivity.
  - assert (E : get_image_vqvae_call (FW := sample_framework) sample_constants [PInt 64]
                  [("ema"%string, PBool true)] zero_vqvae_vars
                = Ok (vqvae_model sample_constants 64 512 64 64 3 true true "vq_vae"
                        zero_vqvae_vars))
      by (apply (get_image_vqvae_Ok (FW := sample_framework) sample_constants
                   64 512 64 64 3 true true "vq_vae" zero_vqvae_vars);
          (lia || reflexivity)).
    eexists. split; [exact E |].
    pose proof (proj2 (proj2 (proj2 (get_image_vqvae_quantizer_constants
                  (FW := sample_framework) sample_constants
                  [PInt 64] [("ema"%string, PBool true)] zero_vqvae_vars))) _ E) as H.
    cbn [vqvae_model vq_layer_of VQVAE.vq_layer] in H |- *. destruct H as [Hc Hg].
    cbn [quantizers.commitment_cost quantizers.decay].
    split; [exact Hc | f_equal; exact Hg].
Defined.



(* ================================================================== *)
(** * The quantizer (claim C9) *)

(** The value the layer returns for one latent vector is the gathered
    codebook vector, also when the call raises. *)
Lemma quantizers_call_pixel_eq (q : quantizers.t) (z : list R) :
  (out <- quantizers.straight_through q (map quantizers.constant z) ;;
   Ok (map quantizers.primal out)) = quantizers.quantize q z.
Proof.
  destruct (Nat.eq_dec (length z) (quantizers.embedding_dim q)) as [Hz | Hz].
  - destruct (Nat.eq_dec (quantizers.num_embeddings q) 0) as [HK | HK].
    + unfold quantizers.straight_through, quantizers.quantize, quantizers.nearest.
      rewrite map_primal_constant, Hz, Nat.eqb_refl, HK. reflexivity.
    + destruct (quantizers_call_pixel q z Hz ltac:(lia)) as (qz & Hq & _ & E).
      rewrite E, Hq. reflexivity.
  - unfold quantizers.straight_through, quantizers.quantize, quantizers.nearest.
    rewrite map_primal_constant.
    apply Nat.eqb_neq in Hz. rewrite Hz. reflexivity.
Qed.

Lemma mapM_ext {A B : Type} (f g : A -> result B) (l : list A) :
  (forall a, f a = g a) -> mapM f l = mapM g l.
Proof.
  intros H. induction l as [| a l IH]; simpl; [reflexivity |].
  rewrite H, IH. reflexivity.
Qed.

(** The numeric output of the layer on a batch: every latent vector is
    replaced by the codebook vector nearest to it. *)
Lemma quantizers_call_gathers (q : quantizers.t) (x : images R) :
  quantizers.call_values q x = mapM (mapM (mapM (quantizers.quantize q))) x.
Proof.
  unfold quantizers.call_values.
  apply mapM_ext. intros img. apply mapM_ext. intros row. apply mapM_ext.
  apply quantizers_call_pixel_eq.
Qed.

(** Claim C9.  On a latent vector the quantizer computes
    [input + stop_gradient(quantized - input)], where [quantized] is the
    codebook vector nearest to the input (ties going to the lowest
    index): the value of the output is the gathered codebook vector, and
    its derivative along any direction of the input is the derivative of
    the input itself, so the gradient with respect to the input equals the
    gradient with respect to the output. *)
Theorem straight_through_estimator (q : quantizers.t) (z : list quantizers.dual) :
  length z = quantizers.embedding_dim q -> 0 < quantizers.num_embeddings q ->
  exists k quantized out,
    quantizers.nearest q (map quantizers.primal z) = Ok k /\
    k < quantizers.num_embeddings q /\
    (forall j, j < quantizers.num_embeddings q ->
       (quantizers.sq_distance q (map quantizers.primal z) k
        <= quantizers.sq_distance q (map quantizers.primal z) j)%R) /\
    (forall j, j < k ->
       (quantizers.sq_distance q (map quantizers.primal z) k
        < quantizers.sq_distance q (map quantizers.primal z) j)%R) /\
    quantizers.quantize q (map quantizers.primal z) = Ok quantized /\
    quantized = map (quantizers.embeddings q k) (seq 0 (quantizers.embedding_dim q)) /\
    quantizers.straight_through q z = Ok out /\
    out = map (fun p => quantizers.dadd (fst p)
                 (quantizers.stop_gradient
                    (quantizers.dsub (quantizers.constant (snd p)) (fst p))))
              (combine z quantized) /\
    map quantizers.primal out = quantized /\
    map quantizers.tangent out = map quantizers.tangent z.
Proof.
  intros Hz HK.
  set (zp := map quantizers.primal z).
  assert (Hzp : length zp = quantizers.embedding_dim q)
    by (subst zp; rewrite length_map; exact Hz).
  set (k := quantizers.argmin (quantizers.sq_distance q zp)
                              (quantizers.num_embeddings q - 1)).
  set (quantized := map (quantizers.embeddings q k) (seq 0 (quantizers.embedding_dim q))).
  assert (Hn : quantizers.nearest q zp = Ok k) by (apply nearest_Ok; assumption).
  assert (Hq : quantizers.quantize q zp = Ok quantized)
    by (unfold quantizers.quantize; rewrite Hn; reflexivity).
  assert (Hlen : length z = length quantized)
    by (subst quantized; rewrite length_map, length_seq; exact Hz).
  exists k, quantized. eexists.
  split; [exact Hn |].
  split; [pose proof (argmin_le (quantizers.sq_distance q zp)
                        (quantizers.num_embeddings q - 1)); subst k; lia |].
  split; [intros j Hj; apply argmin_least; lia |].
  split; [intros j Hj; apply argmin_first; exact Hj |].
  split; [exact Hq |]. split; [reflexivity |].
  split; [unfold quantizers.straight_through; fold zp; rewrite Hq; reflexivity |].
  split; [reflexivity |].
  apply straight_through_values. exact Hlen.
Qed.

Lemma straight_through_estimator_witness :
  exists out,
    quantizers.straight_through
      (quantizers.VectorQuantizer 2 2 (1 / 4)%R "vector_quantizer" (fun k _ => INR k))
      [{| quantizers.primal := (9 / 10)%R; quantizers.tangent := 1%R |};
       {| quantizers.primal := (8 / 10)%R; quantizers.tangent := 0%R |}] = Ok out /\
    map quantizers.tangent out = [1%R; 0%R].
Proof.
  destruct (straight_through_estimator
              (quantizers.VectorQuantizer 2 2 (1 / 4)%R "vector_quantizer"
                 (fun k _ => INR k))
              [{| quantizers.primal := (9 / 10)%R; quantizers.tangent := 1%R |};
               {| quantizers.primal := (8 / 10)%R; quantizers.tangent := 0%R |}])
    as (k & quantized & out & _ & _ & _ & _ & _ & _ & E & _ & _ & T).
  - reflexivity.
  - simpl. lia.
  - exists out. split; [exact E | exact T].
Defined.

(** The vector (0.9, 0.8) lies nearer to the codebook entry (1, 1) than to
    (0, 0) and is quantized to it. *)
Example quantize_nearest_entry :
  quantizers.quantize
    (quantizers.VectorQuantizer 2 2 (1 / 4)%R "vector_quantizer" (fun k _ => INR k))
    [(9 / 10)%R; (8 / 10)%R] = Ok [1%R; 1%R].
Proof.
  unfold quantizers.quantize, quantizers.nearest.
  cbn [length Nat.eqb quantizers.embedding_dim quantizers.num_embeddings Nat.sub
       quantizers.argmin].
  destruct (Rlt_dec _ _) as [Hlt | Hge]; [reflexivity |].
  exfalso. apply Hge.
  unfold quantizers.sq_distance, sum_upto, sum_list.
  cbn [quantizers.embedding_dim quantizers.embeddings seq map fold_right nth INR
       sadd of_R R_Scalar].
  lra.
Qed.

(** Of two codebook entries at the same distance the one with the lower
    index is selected. *)
Example nearest_tie_lowest_index :
  quantizers.nearest
    (quantizers.VectorQuantizer 1 2 (1 / 4)%R "vector_quantizer" (fun _ _ => 0%R))
    [1%R] = Ok 0.
Proof.
  unfold quantizers.nearest.
  cbn [length Nat.eqb quantizers.embedding_dim quantizers.num_embeddings Nat.sub
       quantizers.argmin].
  destruct (Rlt_dec _ _) as [Hlt | Hge]; [| reflexivity].
  exfalso. unfold quantizers.sq_distance in Hlt. cbn in Hlt. lra.
Qed.

(* ================================================================== *)
(** * Further properties of the encoder and the decoder *)

(** For an input of any shape with at least one row, column and channel,
    a positive [latent_dim] and names the framework accepts, [get_encoder]
    builds a model; its latent grid has the height and the width of the
    input divided by 4 and rounded up, so it is not empty, and that is the
    shape of what the encoder returns for a batch. *)
Theorem get_encoder_any_shape {T : Type} {ST : Scalar T} {FW : Framework}
    (latent_dim h w c num_resblocks : nat) (batchnorm : bool) (name : string)
    (vs : encoder_vars T) :
  0 < latent_dim -> 0 < h -> 0 < w -> 0 < c ->
  valid_resblock_names name num_resblocks = true -> valid_model_name name = true ->
  exists m,
    get_encoder latent_dim (h, w, c) num_resblocks batchnorm name vs = Ok m /\
    Model.inputs m = (h, w, c) /\
    Model.name m = name /\
    Model.output_shape m = ((h + 3) / 4, (w + 3) / 4, latent_dim) /\
    (h <= 4 * ((h + 3) / 4) < h + 4) /\ (w <= 4 * ((w + 3) / 4) < w + 4) /\
    0 < (h + 3) / 4 /\ 0 < (w + 3) / 4 /\
    Model.call_shape m (h, w, c) = Ok (Model.output_shape m) /\
    forall (training : bool) (n : nat) (x : batch T),
      batch_has_shape n (h, w, c) x ->
      exists y, Model.call training m x = Ok y /\
                batch_has_shape n ((h + 3) / 4, (w + 3) / 4, latent_dim) y.
Proof.
  intros Hl Hh Hw Hc Hr Hn.
  pose proof (round_up_4 h) as Bh. pose proof (round_up_4 w) as Bw.
  exists (encoder_model latent_dim h w c num_resblocks batchnorm name vs).
  split; [apply get_encoder_Ok; assumption |].
  cbn [encoder_model Model.inputs Model.name Model.output_shape].
  split; [reflexivity |]. split; [reflexivity |]. split; [reflexivity |].
  split; [exact Bh |]. split; [exact Bw |].
  split; [lia |]. split; [lia |].
  split.
  - apply encoder_model_call_shape; try assumption. right. split; assumption.
  - intros training n x Hx.
    apply encoder_model_call; try assumption. right. split; assumption.
Qed.

Lemma get_encoder_any_shape_witness :
  exists m y,
    get_encoder (T := R) (FW := sample_framework) 8 (30, 5, 1) 3 false "enc"
      zero_encoder_vars = Ok m /\
    Model.output_shape m = (8, 2, 8) /\
    Model.call true m (zeros_batch (30, 5, 1)) = Ok y /\
    batch_has_shape 1 (8, 2, 8) y.
Proof.
  destruct (get_encoder_any_shape (T := R) (FW := sample_framework) 8 30 5 1 3 false
              "enc" zero_encoder_vars)
    as (m & E & _ & _ & S & _ & _ & _ & _ & _ & C).
  - lia.
  - lia.
  - lia.
  - lia.
  - reflexivity.
  - reflexivity.
  - destruct (C true 1 (zeros_batch (30, 5, 1)) (batch_has_shape_zeros (30, 5, 1)))
      as (y & Ey & Sy).
    exists m, y. split; [exact E | split; [exact S | split; [exact Ey | exact Sy]]].
Defined.



(* ================================================================== *)
(** * Further properties of the composed model *)

(** For positive sizes, a non-empty codebook and a name the framework
    accepts, [get_image_vqvae] builds a model, and its three parts fit one
    another:
    the encoder takes the declared input shape, the quantizer accepts the
    encoder's output (whose channel count is its embedding dimension), the
    decoder is declared on that same shape, and the output shape of the
    model is the one of the decoder.  The sub-models are named "encoder"
    and "decoder" whatever [name] is. *)
Theorem get_image_vqvae_builds {FW : Framework} (K : constants.t)
    (latent_dim num_embeddings H W num_channels : nat) (ema batchnorm : bool)
    (name : string) (vs : vqvae_vars) :
  0 < latent_dim -> 0 < num_embeddings -> 0 < num_channels -> 0 < H -> 0 < W ->
  valid_model_name name = true ->
  exists m,
    get_image_vqvae K latent_dim num_embeddings (H, W) num_channels ema batchnorm name vs
      = Ok m /\
    VQVAE.inputs m = (H, W, num_channels) /\
    VQVAE.name m = name /\
    Model.inputs (VQVAE.encoder m) = VQVAE.inputs m /\
    Model.output_shape (VQVAE.encoder m) = ((H + 3) / 4, (W + 3) / 4, latent_dim) /\
    quantizers.embedding_dim (VQVAE.vq_layer m) = latent_dim /\
    quantizers.num_embeddings (VQVAE.vq_layer m) = num_embeddings /\
    quantizers.compute_output_shape (VQVAE.vq_layer m)
      (Model.output_shape (VQVAE.encoder m)) = Ok (Model.output_shape (VQVAE.encoder m)) /\
    Model.inputs (VQVAE.decoder m) = Model.output_shape (VQVAE.encoder m) /\
    Model.output_shape (VQVAE.decoder m) = VQVAE.output_shape m /\
    Model.name (VQVAE.encoder m) = "encoder"%string /\
    Model.name (VQVAE.decoder m) = "decoder"%string.
Proof.
  intros Hl _ Hc HH HW Hn.
  exists (vqvae_model K latent_dim num_embeddings H W num_channels ema batchnorm name vs).
  split; [apply get_image_vqvae_Ok; assumption |].
  cbn [vqvae_model VQVAE.inputs VQVAE.name VQVAE.encoder VQVAE.vq_layer VQVAE.decoder
       VQVAE.output_shape encoder_model decoder_model Model.inputs Model.output_shape
       Model.name].
  split; [reflexivity |]. split; [reflexivity |]. split; [reflexivity |].
  split; [reflexivity |]. split; [apply vq_layer_of_embedding_dim |].
  split; [apply vq_layer_of_num_embeddings |].
  split; [unfold quantizers.compute_output_shape;
          rewrite vq_layer_of_embedding_dim, Nat.eqb_refl; reflexivity |].
  split; [reflexivity |]. split; [reflexivity |]. split; reflexivity.
Qed.

Lemma get_image_vqvae_builds_witness :
  exists m,
    get_image_vqvae (FW := sample_framework) sample_constants 64 512 (30, 50) 1 false true
      "vq_vae" zero_vqvae_vars = Ok m /\
    Model.output_shape (VQVAE.encoder m) = (8, 13, 64) /\
    Model.inputs (VQVAE.decoder m) = (8, 13, 64) /\
    VQVAE.output_shape m = (32, 52, 3).
Proof.
  destruct (get_image_vqvae_builds (FW := sample_framework) sample_constants 64 512 30 50 1
              false true "vq_vae" zero_vqvae_vars)
    as (m & E & _ & _ & _ & Se & _ & _ & _ & Id & Sd & _).
  - lia.
  - lia.
  - lia.
  - lia.
  - lia.
  - reflexivity.
  - exists m. split; [exact E |]. split; [exact Se |].
    split; [rewrite Id; exact Se |].
    rewrite <- Sd.
    assert (Ed : Model.output_shape (VQVAE.decoder m) = (32, 52, 3)).
    { apply get_image_vqvae_inv in E as (-> & _). reflexivity. }
    exact Ed.
Defined.

(** The output shape of the composed model is its input shape exactly when
    the height and the width are multiples of 4 and there are three
    channels. *)
Theorem get_image_vqvae_output_shape_iff {FW : Framework} (K : constants.t)
    (latent_dim num_embeddings H W num_channels : nat) (ema batchnorm : bool)
    (name : string) (vs : vqvae_vars) (m : VQVAE.t) :
  get_image_vqvae K latent_dim num_embeddings (H, W) num_channels ema batchnorm name vs
    = Ok m ->
  (VQVAE.output_shape m = VQVAE.inputs m <->
   Nat.divide 4 H /\ Nat.divide 4 W /\ num_channels = 3).
Proof.
  intros E. apply get_image_vqvae_inv in E as (-> & _).
  cbn [vqvae_model VQVAE.output_shape VQVAE.inputs]. split.
  - intros E.
    assert (EH : 4 * ((H + 3) / 4) = H) by congruence.
    assert (EW : 4 * ((W + 3) / 4) = W) by congruence.
    assert (EC : 3 = num_channels) by congruence.
    split; [exists ((H + 3) / 4); lia |].
    split; [exists ((W + 3) / 4); lia | symmetry; exact EC].
  - intros (DH & DW & ->).
    rewrite (round_up_4_divide H DH), (round_up_4_divide W DW). reflexivity.
Qed.

Lemma get_image_vqvae_output_shape_iff_witness :
  exists m,
    get_image_vqvae (FW := sample_framework) sample_constants 64 512 (64, 64) 3 true true
      "vq_vae" zero_vqvae_vars = Ok m /\
    VQVAE.output_shape m = VQVAE.inputs m.
Proof.
  assert (E : get_image_vqvae (FW := sample_framework) sample_constants 64 512 (64, 64) 3
                true true "vq_vae" zero_vqvae_vars
              = Ok (vqvae_model sample_constants 64 512 64 64 3 true true "vq_vae"
                      zero_vqvae_vars))
    by (apply get_image_vqvae_Ok; (lia || reflexivity)).
  eexists. split; [exact E |].
  apply (get_image_vqvae_output_shape_iff (FW := sample_framework) sample_constants
           64 512 64 64 3 true true "vq_vae" zero_vqvae_vars _ E).
  split; [exists 16; reflexivity |]. split; [exists 16; reflexivity | reflexivity].
Defined.

(** The flag [ema] and the argument [name] of [get_image_vqvae] reach
    neither the encoder nor the decoder: models built with different
    values of the two have the same encoder, decoder and shapes, and
    quantizers of the same dimensions, commitment cost and codebook. *)
Theorem ema_and_name_scope {FW : Framework} (K : constants.t)
    (latent_dim num_embeddings H W num_channels : nat) (batchnorm : bool)
    (vs : vqvae_vars) (ema ema' : bool) (name name' : string) (m m' : VQVAE.t) :
  get_image_vqvae K latent_dim num_embeddings (H, W) num_channels ema batchnorm name vs
    = Ok m ->
  get_image_vqvae K latent_dim num_embeddings (H, W) num_channels ema' batchnorm name' vs
    = Ok m' ->
  VQVAE.encoder m = VQVAE.encoder m' /\
  VQVAE.decoder m = VQVAE.decoder m' /\
  VQVAE.inputs m = VQVAE.inputs m' /\
  VQVAE.output_shape m = VQVAE.output_shape m' /\
  quantizers.embedding_dim (VQVAE.vq_layer m)
    = quantizers.embedding_dim (VQVAE.vq_layer m') /\
  quantizers.num_embeddings (VQVAE.vq_layer m)
    = quantizers.num_embeddings (VQVAE.vq_layer m') /\
  quantizers.commitment_cost (VQVAE.vq_layer m)
    = quantizers.commitment_cost (VQVAE.vq_layer m') /\
  quantizers.embeddings (VQVAE.vq_layer m) = quantizers.embeddings (VQVAE.vq_layer m') /\
  quantizers.decay (VQVAE.vq_layer m)
    = (if ema then Some (constants.DECAY K) else None) /\
  VQVAE.name m = name.
Proof.
  intros E E'.
  apply get_image_vqvae_inv in E as (-> & _).
  apply get_image_vqvae_inv in E' as (-> & _).
  cbn [vqvae_model VQVAE.inputs VQVAE.name VQVAE.encoder VQVAE.vq_layer VQVAE.decoder
       VQVAE.output_shape].
  split; [reflexivity |]. split; [reflexivity |].
  split; [reflexivity |]. split; [reflexivity |].
  destruct ema, ema'; repeat split; reflexivity.
Qed.

Lemma ema_and_name_scope_witness :
  exists m m',
    get_image_vqvae (FW := sample_framework) sample_constants 64 512 (64, 64) 3 true true
      "a" zero_vqvae_vars = Ok m /\
    get_image_vqvae (FW := sample_framework) sample_constants 64 512 (64, 64) 3 false true
      "b" zero_vqvae_vars = Ok m' /\
    VQVAE.encoder m = VQVAE.encoder m' /\ VQVAE.decoder m = VQVAE.decoder m'.
Proof.
  assert (E : get_image_vqvae (FW := sample_framework) sample_constants 64 512 (64, 64) 3
                true true "a" zero_vqvae_vars
              = Ok (vqvae_model sample_constants 64 512 64 64 3 true true "a"
                      zero_vqvae_vars))
    by (apply get_image_vqvae_Ok; (lia || reflexivity)).
  assert (E' : get_image_vqvae (FW := sample_framework) sample_constants 64 512 (64, 64) 3
                 false true "b" zero_vqvae_vars
               = Ok (vqvae_model sample_constants 64 512 64 64 3 false true "b"
                       zero_vqvae_vars))
    by (apply get_image_vqvae_Ok; (lia || reflexivity)).
  eexists. eexists. split; [exact E |]. split; [exact E' |].
  destruct (ema_and_name_scope (FW := sample_framework) sample_constants 64 512 64 64 3
              true zero_vqvae_vars true false "a" "b" _ _ E E') as (He & Hd & _).
  split; [exact He | exact Hd].
Defined.

(* ================================================================== *)
(** * The names of the residual blocks *)

Lemma str_inj (i j : nat) : str i = str j -> i = j.
Proof.
  unfold str. intros H.
  apply DecimalNat.Unsigned.to_uint_inj.
  pose proof (NilEmpty.usu (Nat.to_uint i)) as Hi.
  pose proof (NilEmpty.usu (Nat.to_uint j)) as Hj.
  rewrite H in Hi. rewrite Hi in Hj. injection Hj as Hj. exact Hj.
Qed.

Lemma append_inj_r (a s t : string) : (a ++ s)%string = (a ++ t)%string -> s = t.
Proof.
  induction a as [| ch a IH]; simpl; intros H; [exact H |].
  injection H as H. apply IH, H.
Qed.

Lemma resblock_name_inj (name : string) (i j : nat) :
  (name ++ "_resblock" ++ str i)%string = (name ++ "_resblock" ++ str j)%string -> i = j.
Proof.
  intros H. apply append_inj_r in H. apply append_inj_r in H. apply str_inj, H.
Qed.

Lemma NoDup_map_seq (f : nat -> string) (a n : nat) :
  (forall i j, f i = f j -> i = j) -> NoDup (map f (seq a n)).
Proof.
  intros Hf. revert a. induction n as [| n IH]; intros a; simpl; constructor.
  - intros Hin. apply in_map_iff in Hin as (j & Hj & Hin).
    apply Hf in Hj. subst j. apply in_seq in Hin. lia.
  - apply IH.
Qed.

Lemma resblock_names_encoder_model {T : Type} {ST : Scalar T}
    (latent_dim h w c num_resblocks : nat) (batchnorm : bool) (name : string)
    (evs : encoder_vars T) :
  resblock_names (encoder_model latent_dim h w c num_resblocks batchnorm name evs)
    = map (fun i => (name ++ "_resblock" ++ str i)%string) (seq 0 num_resblocks).
Proof.
  assert (Henc : forall a n,
            flat_map (fun nd =>
                        match nd with
                        | Model.Res r =>
                            match ResBlock.name r with Some s => [s] | None => [] end
                        | Model.Keras _ => []
                        end)
              (flat_map (fun i =>
                 Model.Res (ResBlock_of latent_dim None batchnorm
                              (Some (name ++ "_resblock" ++ str i)%string)
                              (enc_resblock evs i))
                 :: (if batchnorm
                     then [default_BatchNormalization (enc_resblock_bn evs i)]
                     else []))
                 (seq a n))
            = map (fun i => (name ++ "_resblock" ++ str i)%string) (seq a n)).
  { intros a n. revert a. induction n as [| n IH]; intros a; [reflexivity |].
    cbn [seq flat_map map]. rewrite flat_map_app, IH.
    destruct batchnorm; reflexivity. }
  unfold resblock_names, encoder_model, encoder_layers. cbn [Model.layers].
  rewrite flat_map_app, Henc. reflexivity.
Qed.

Lemma resblock_names_decoder_model {T : Type} {ST : Scalar T}
    (h w c latent_dim num_resblocks num_channels : nat) (name : string)
    (dvs : decoder_vars T) :
  resblock_names (decoder_model h w c latent_dim num_resblocks num_channels name dvs)
    = map (fun i => (name ++ "_resblock" ++ str i)%string) (seq 0 num_resblocks).
Proof.
  assert (Hdec : forall a n,
            flat_map (fun nd =>
                        match nd with
                        | Model.Res r =>
                            match ResBlock.name r with Some s => [s] | None => [] end
                        | Model.Keras _ => []
                        end)
              (map (fun i =>
                 Model.Res (ResBlock_of latent_dim None false
                              (Some (name ++ "_resblock" ++ str i)%string)
                              (dec_resblock dvs i)))
                 (seq a n))
            = map (fun i => (name ++ "_resblock" ++ str i)%string) (seq a n)).
  { intros a n. revert a. induction n as [| n IH]; intros a; [reflexivity |].
    cbn [seq flat_map map]. rewrite IH. reflexivity. }
  unfold resblock_names, decoder_model, decoder_layers. cbn [Model.layers].
  rewrite !flat_map_app, Hdec. cbn [flat_map app].
  unfold default_LeakyReLU, default_BatchNormalization. cbn [flat_map app].
  rewrite app_nil_r. reflexivity.
Qed.

(** The residual blocks of an encoder with [num_resblocks] blocks are
    named [name_resblock0], [name_resblock1], ... in order, and no two of
    them share a name; the same holds for a decoder. *)
Theorem resblock_names_distinct {T : Type} {ST : Scalar T} {FW : Framework}
    (latent_dim enc_resblocks dec_resblocks num_channels : nat)
    (enc_shape dec_shape : shape) (batchnorm : bool) (enc_name dec_name : string)
    (evs : encoder_vars T) (dvs : decoder_vars T) (encoder decoder : Model.t T) :
  get_encoder latent_dim enc_shape enc_resblocks batchnorm enc_name evs = Ok encoder ->
  get_decoder dec_shape latent_dim dec_resblocks num_channels dec_name dvs = Ok decoder ->
  resblock_names encoder
    = map (fun i => (enc_name ++ "_resblock" ++ str i)%string) (seq 0 enc_resblocks) /\
  resblock_names decoder
    = map (fun i => (dec_name ++ "_resblock" ++ str i)%string) (seq 0 dec_resblocks) /\
  length (resblock_names encoder) = enc_resblocks /\
  length (resblock_names decoder) = dec_resblocks /\
  NoDup (resblock_names encoder) /\
  NoDup (resblock_names decoder).
Proof.
  destruct enc_shape as [[h w] c]. destruct dec_shape as [[h' w'] c'].
  intros He Hd.
  apply get_encoder_inv in He as (-> & _). apply get_decoder_inv in Hd as (-> & _).
  rewrite resblock_names_encoder_model, resblock_names_decoder_model.
  split; [reflexivity |]. split; [reflexivity |].
  split; [rewrite length_map, length_seq; reflexivity |].
  split; [rewrite length_map, length_seq; reflexivity |].
  split; apply NoDup_map_seq; intros i j; apply resblock_name_inj.
Qed.

Lemma resblock_names_distinct_witness :
  exists encoder decoder,
    get_encoder (T := R) (FW := sample_framework) 8 (16, 16, 3) 12 true "encoder"
      zero_encoder_vars = Ok encoder /\
    get_decoder (T := R) (FW := sample_framework) (4, 4, 8) 8 12 3 "decoder"
      zero_decoder_vars = Ok decoder /\
    nth 11 (resblock_names encoder) ""%string = "encoder_resblock11"%string /\
    NoDup (resblock_names decoder).
Proof.
  assert (Ee : get_encoder (T := R) (FW := sample_framework) 8 (16, 16, 3) 12 true
                 "encoder" zero_encoder_vars
               = Ok (encoder_model 8 16 16 3 12 true "encoder" zero_encoder_vars))
    by (apply get_encoder_Ok; (lia || reflexivity)).
  assert (Ed : get_decoder (T := R) (FW := sample_framework) (4, 4, 8) 8 12 3 "decoder"
                 zero_decoder_vars
               = Ok (decoder_model 4 4 8 8 12 3 "decoder" zero_decoder_vars))
    by (apply get_decoder_Ok; (lia || reflexivity)).
  eexists. eexists.
  split; [exact Ee |]. split; [exact Ed |].
  destruct (resblock_names_distinct (T := R) (FW := sample_framework) 8 12 12 3
              (16, 16, 3) (4, 4, 8) true "encoder" "decoder"
              zero_encoder_vars zero_decoder_vars _ _ Ee Ed) as (Hn & _ & _ & _ & _ & Hnd).
  split; [rewrite Hn; reflexivity | exact Hnd].
Defined.

(** In every composed model the residual blocks are named
    [encoder_resblock0], [encoder_resblock1], [decoder_resblock0] and
    [decoder_resblock1], four distinct names that do not depend on the
    [name] given to [get_image_vqvae]. *)
Theorem get_image_vqvae_resblock_names {FW : Framework} (K : constants.t)
    (latent_dim num_embeddings num_channels : nat) (image_shape : nat * nat)
    (ema batchnorm : bool) (name : string) (vs : vqvae_vars) (m : VQVAE.t) :
  get_image_vqvae K latent_dim num_embeddings image_shape num_channels ema batchnorm
                  name vs = Ok m ->
  resblock_names (VQVAE.encoder m) = ["encoder_resblock0"; "encoder_resblock1"]%string /\
  resblock_names (VQVAE.decoder m) = ["decoder_resblock0"; "decoder_resblock1"]%string /\
  NoDup (resblock_names (VQVAE.encoder m) ++ resblock_names (VQVAE.decoder m)).
Proof.
  destruct image_shape as [H W]. intros E.
  apply get_image_vqvae_inv in E as (-> & _).
  cbn [vqvae_model VQVAE.encoder VQVAE.decoder].
  rewrite resblock_names_encoder_model, resblock_names_decoder_model.
  split; [reflexivity |]. split; [reflexivity |].
  cbn [seq map app]. repeat constructor; cbn [In]; intros F;
    repeat (destruct F as [F | F]; [discriminate F |]); exact F.
Qed.

Lemma get_image_vqvae_resblock_names_witness :
  exists m,
    get_image_vqvae (FW := sample_framework) sample_constants 64 512 (64, 64) 3 true true
      "my_model" zero_vqvae_vars = Ok m /\
    resblock_names (VQVAE.encoder m) = ["encoder_resblock0"; "encoder_resblock1"]%string.
Proof.
  assert (E : get_image_vqvae (FW := sample_framework) sample_constants 64 512 (64, 64) 3
                true true "my_model" zero_vqvae_vars
              = Ok (vqvae_model sample_constants 64 512 64 64 3 true true "my_model"
                      zero_vqvae_vars))
    by (apply get_image_vqvae_Ok; (lia || reflexivity)).
  eexists. split; [exact E |].
  apply (get_image_vqvae_resblock_names (FW := sample_framework) sample_constants
           64 512 3 (64, 64) true true "my_model" zero_vqvae_vars _ E).
Defined.

(* ================================================================== *)
(** * A residual block on an input of another channel count *)

(** The layers of a block that was built, applied to a batch with any
    positive number of channels: the result has [out_channels]
    channels. *)
Lemma ResBlock_convs_call {T : Type} {ST : Scalar T} {FW : Framework} (training : bool)
    (out_channels : nat) (mid_channels : option nat) (bn : bool) (name : option string)
    (vs : ResBlock.vars T) (self : ResBlock.t T) (n h w c : nat) (x : batch T) :
  ResBlock.__init__ out_channels mid_channels bn name vs = Ok self ->
  0 < c -> 0 < h -> 0 < w ->
  batch_has_shape n (h, w, c) x ->
  exists fx,
    keras.Sequential_call training (ResBlock.convs self) x = Ok fx /\
    batch_has_shape n (h, w, out_channels) fx.
Proof.
  intros Hself Hc Hh Hw Hx.
  apply ResBlock_init_inv in Hself as (-> & Ho & Hm & _).
  destruct (ResBlock_layers_call training out_channels
              (mid_channels_of out_channels mid_channels) bn vs n h w c x Hx Hc Hm Hh Hw)
    as (a1 & c1 & n1 & a2 & fx & _ & _ & _ & _ & _ & _ & _ & _ & _ & Sfx & E).
  exists fx. split; [exact E | exact Sfx].
Qed.

(** A block built with [out_channels = o] on an input with c channels:
    the sum [x + self.convs(x)] broadcasts when c = 1 or o = 1 and is
    rejected otherwise: with [ValueError] when the layer is applied to a
    symbolic tensor, and with the error of the addition when the block is
    called on a batch, also on an empty one. *)
Theorem ResBlock_channel_mismatch {T : Type} {ST : Scalar T} {FW : Framework}
    (training : bool) (o : nat) (mid_channels : option nat) (bn : bool)
    (name : option string) (vs : ResBlock.vars T) (self : ResBlock.t T) (n h w c : nat)
    (x : batch T) :
  ResBlock.__init__ o mid_channels bn name vs = Ok self ->
  0 < c -> 0 < h -> 0 < w ->
  ResBlock.compute_output_shape self (h, w, c) =
    (if (c =? o) || (c =? 1) then Ok (h, w, o)
     else if o =? 1 then Ok (h, w, c)
     else Raise ValueError) /\
  (c <> o -> c <> 1 -> o <> 1 ->
   forall t, Model.shape_of t = (h, w, c) ->
             Model.apply (Model.Res self) t = Raise ValueError) /\
  (c <> o -> c <> 1 -> o <> 1 ->
   batch_has_shape n (h, w, c) x ->
   ResBlock.call training self x = Raise InvalidArgumentError).
Proof.
  intros Hself Hc Hh Hw.
  pose proof Hself as Hinv. apply ResBlock_init_inv in Hinv as (Eself & Ho & Hm & _).
  assert (Hshape : ResBlock.compute_output_shape self (h, w, c) =
            (if (c =? o) || (c =? 1) then Ok (h, w, o)
             else if o =? 1 then Ok (h, w, c)
             else Raise ValueError)).
  { rewrite Eself, ResBlock_compute_output_shape_eq.
    rewrite !ltb_0_true by assumption. cbn [andb].
    unfold keras.broadcast_shape. rewrite !broadcast_dim_refl. cbn [bind].
    unfold keras.broadcast_dim.
    destruct (c =? o) eqn:Eco.
    - apply Nat.eqb_eq in Eco. subst c. reflexivity.
    - destruct (c =? 1); [reflexivity |]. destruct (o =? 1); reflexivity. }
  split; [exact Hshape |]. split.
  - intros Hco Hc1 Ho1 t Ht. unfold Model.apply. rewrite Ht.
    cbn [Model.compute_output_shape]. rewrite Hshape.
    apply Nat.eqb_neq in Hco, Hc1, Ho1. rewrite Hco, Hc1, Ho1. reflexivity.
  - intros Hco Hc1 Ho1 Hx.
    destruct (ResBlock_convs_call training o mid_channels bn name vs self n h w c x
                Hself Hc Hh Hw Hx) as (fx & Efx & Sfx).
    unfold ResBlock.call. rewrite Efx. cbn [bind].
    destruct Hx as (Sx & _). destruct Sfx as (Sf & _).
    unfold keras.add. rewrite Sx, Sf.
    unfold keras.broadcast_shape. rewrite !broadcast_dim_refl. cbn [bind].
    unfold keras.broadcast_dim at 1.
    apply Nat.eqb_neq in Hco, Hc1, Ho1. rewrite Hco, Hc1, Ho1. reflexivity.
Qed.

Lemma ResBlock_channel_mismatch_witness :
  exists self,
    ResBlock.__init__ (FW := sample_framework) 3 None false None sample_ResBlock_vars
      = Ok self /\
    ResBlock.compute_output_shape self (1, 1, 2) = Raise ValueError /\
    ResBlock.call false self {| sample_shape := (1, 1, 2); values := [[[[1; 2]]]]%R |}
      = Raise InvalidArgumentError.
Proof.
  exists (ResBlock_of 3 None false None sample_ResBlock_vars).
  destruct (ResBlock_channel_mismatch (FW := sample_framework) false 3 None false None
              sample_ResBlock_vars (ResBlock_of 3 None false None sample_ResBlock_vars)
              1 1 1 2 {| sample_shape := (1, 1, 2); values := [[[[1; 2]]]]%R |})
    as (Hs & _ & Hc).
  - reflexivity.
  - lia.
  - lia.
  - lia.
  - split; [reflexivity |]. split; [exact Hs |].
    apply Hc; try lia.
    split; [reflexivity |]. split; [reflexivity |]. repeat constructor.
Defined.

Lemma add_pixel_single {T : Type} {ST : Scalar T} (p q : pixel_vec T) :
  length p = 1 -> keras.add_pixel p q = Ok (add_to_channels p q).
Proof.
  intros Hp. destruct p as [| a [| a' p]]; try discriminate Hp.
  unfold keras.add_pixel, keras.broadcast2, add_to_channels. cbn [hd].
  destruct (length [a] =? length q) eqn:E.
  - apply Nat.eqb_eq in E. destruct q as [| b [| b' q]]; try discriminate E. reflexivity.
  - apply (mapM_Ok_map (fun b => Ok (a + b)%S) (sadd a)).
    apply Forall_forall. intros b _. reflexivity.
Qed.

Lemma Forall_zip_with2 {A : Type} (f : A -> A -> A) (P Q S : A -> Prop) (xs ys : list A) :
  Forall P xs -> Forall Q ys -> (forall a b, P a -> Q b -> S (f a b)) ->
  Forall S (zip_with f xs ys).
Proof.
  intros Hx Hy Hf. unfold zip_with. apply Forall_map.
  eapply Forall_impl; [| apply (Forall_combine Hx Hy)].
  intros [a b] [Ha Hb]. apply Hf; assumption.
Qed.

Lemma add_image_single_channel {T : Type} {ST : Scalar T} (h w o : nat) (a b : image T) :
  has_shape (h, w, 1) a -> has_shape (h, w, o) b ->
  keras.add_image a b = Ok (zip_with (zip_with add_to_channels) a b) /\
  has_shape (h, w, o) (zip_with (zip_with add_to_channels) a b).
Proof.
  intros [Ha Hra] [Hb Hrb]. split.
  - unfold keras.add_image.
    apply broadcast2_same_length; [congruence |].
    eapply Forall_impl; [| apply (Forall_combine Hra Hrb)].
    intros [r1 r2] [[H1 P1] [H2 P2]]. cbn [fst snd] in *.
    apply broadcast2_same_length; [congruence |].
    eapply Forall_impl; [| apply (Forall_combine P1 P2)].
    intros [p q] [Hp Hq]. cbn [fst snd] in *.
    apply add_pixel_single, Hp.
  - split; [rewrite length_zip_with; congruence |].
    eapply Forall_zip_with2; [exact Hra | exact Hrb |].
    intros r1 r2 [H1 P1] [H2 P2]. split; [rewrite length_zip_with; congruence |].
    eapply Forall_zip_with2; [exact P1 | exact P2 |].
    intros p q Hp Hq. unfold add_to_channels. rewrite length_map. exact Hq.
Qed.

Lemma nth_add_to_channels {T : Type} {ST : Scalar T} (p q : pixel_vec T) (k : nat) :
  k < length q -> nth k (add_to_channels p q) zero = (nth 0 p zero + nth k q zero)%S.
Proof.
  intros Hk. unfold add_to_channels.
  rewrite (nth_indep _ zero (hd zero p + zero)%S) by (rewrite length_map; exact Hk).
  rewrite (map_nth (sadd (hd zero p)) q zero k).
  destruct p; reflexivity.
Qed.

(** A block applied to one-channel feature maps: the single input channel
    is added to each of the [out_channels] channels the layers of the
    block compute, so the output has [out_channels] channels. *)
Theorem ResBlock_single_channel_input {T : Type} {ST : Scalar T} {FW : Framework}
    (training : bool) (o : nat) (mid_channels : option nat) (bn : bool)
    (name : option string) (vs : ResBlock.vars T) (self : ResBlock.t T) (n h w : nat)
    (x : batch T) :
  ResBlock.__init__ o mid_channels bn name vs = Ok self ->
  0 < h -> 0 < w ->
  batch_has_shape n (h, w, 1) x ->
  exists fx y,
    keras.Sequential_call training (ResBlock.convs self) x = Ok fx /\
    batch_has_shape n (h, w, o) fx /\
    ResBlock.call training self x = Ok y /\
    batch_has_shape n (h, w, o) y /\
    forall b i j k, b < n -> i < h -> j < w -> k < o ->
      pixel (nth b (values y) []) i j k =
      (pixel (nth b (values x) []) i j 0 + pixel (nth b (values fx) []) i j k)%S.
Proof.
  intros Hself Hh Hw Hx.
  destruct (ResBlock_convs_call training o mid_channels bn name vs self n h w 1 x
              Hself ltac:(lia) Hh Hw Hx) as (fx & Efx & Sfx).
  exists fx,
    {| sample_shape := (h, w, o);
       values := zip_with (zip_with (zip_with add_to_channels)) (values x) (values fx) |}.
  destruct Hx as (Zx & Lx & Sx). destruct Sfx as (Zf & Lf & Sf).
  assert (Hadd : keras.add x fx
                 = Ok {| sample_shape := (h, w, o);
                         values := zip_with (zip_with (zip_with add_to_channels))
                                            (values x) (values fx) |}).
  { unfold keras.add. rewrite Zx, Zf.
    assert (Hs : keras.broadcast_shape (h, w, 1) (h, w, o) = Ok (h, w, o)).
    { unfold keras.broadcast_shape. rewrite !broadcast_dim_refl. cbn [bind].
      unfold keras.broadcast_dim. cbn [Nat.eqb].
      destruct o as [| [| o']]; reflexivity. }
    rewrite Hs, Lx, Lf, broadcast_dim_refl.
    replace (keras.add_values (values x) (values fx))
      with (Ok (zip_with (zip_with (zip_with add_to_channels)) (values x) (values fx)));
      [reflexivity |].
    symmetry. unfold keras.add_values.
    apply broadcast2_same_length; [congruence |].
    eapply Forall_impl; [| apply (Forall_combine Sx Sf)].
    intros [a b] [Ha Hb]. cbn [fst snd] in *.
    apply (add_image_single_channel h w o a b Ha Hb). }
  split; [exact Efx |]. split; [split; [exact Zf | split; assumption] |].
  split; [unfold ResBlock.call; rewrite Efx; cbn [bind]; exact Hadd |].
  split.
  - split; [reflexivity |]. cbn [values].
    split; [rewrite length_zip_with; congruence |].
    eapply Forall_zip_with2; [exact Sx | exact Sf |].
    intros a b Ha Hb. apply (add_image_single_channel h w o a b Ha Hb).
  - intros b i j k Hb Hi Hj Hk. cbn [values].
    rewrite (nth_zip_with _ (values x) (values fx) b []) by lia.
    rewrite Forall_forall in Sx, Sf.
    assert (Hxa : has_shape (h, w, 1) (nth b (values x) [])) by (apply Sx, nth_In; lia).
    assert (Hfa : has_shape (h, w, o) (nth b (values fx) [])) by (apply Sf, nth_In; lia).
    destruct Hxa as [La Ra]. destruct Hfa as [Lb Rb].
    unfold pixel.
    rewrite (nth_zip_with _ (nth b (values x) []) (nth b (values fx) []) i []) by lia.
    rewrite Forall_forall in Ra, Rb.
    destruct (Ra (nth i (nth b (values x) []) [])) as [Wa Pa]; [apply nth_In; lia |].
    destruct (Rb (nth i (nth b (values fx) []) [])) as [Wb Pb]; [apply nth_In; lia |].
    rewrite (nth_zip_with _ (nth i (nth b (values x) []) [])
               (nth i (nth b (values fx) []) []) j []) by lia.
    rewrite Forall_forall in Pb.
    apply nth_add_to_channels. rewrite Pb; [exact Hk | apply nth_In; lia].
Qed.

Lemma ResBlock_single_channel_input_witness :
  exists self y,
    ResBlock.__init__ (FW := sample_framework) 3 None false None sample_ResBlock_vars
      = Ok self /\
    ResBlock.call false self {| sample_shape := (1, 2, 1); values := [[[[-1]; [2]]]]%R |}
      = Ok y /\
    batch_has_shape 1 (1, 2, 3) y.
Proof.
  exists (ResBlock_of 3 None false None sample_ResBlock_vars).
  destruct (ResBlock_single_channel_input (FW := sample_framework) false 3 None false None
              sample_ResBlock_vars (ResBlock_of 3 None false None sample_ResBlock_vars)
              1 1 2 {| sample_shape := (1, 2, 1); values := [[[[-1]; [2]]]]%R |})
    as (fx & y & _ & _ & E & S & _).
  - reflexivity.
  - lia.
  - lia.
  - split; [reflexivity |]. split; [reflexivity |]. repeat constructor.
  - exists y. split; [reflexivity |]. split; [exact E | exact S].
Defined.

(** x = (-1, 2) with one channel into a block with one middle and three
    output channels: each channel of the output is x plus
    3 * relu(2 * relu(x) + 1). *)
Example ResBlock_broadcast_example :
  (self <- ResBlock.__init__ (FW := sample_framework) 3 (Some 1) false None
             sample_ResBlock_vars ;;
   ResBlock.call false self {| sample_shape := (1, 2, 1); values := [[[[-1]; [2]]]]%R |})
  = Ok {| sample_shape := (1, 2, 3); values := [[[[2; 2; 2]; [17; 17; 17]]]]%R |}.
Proof. eval_tensor. eval_Rmax. tensor_eq. Qed.

(* ================================================================== *)
(** * The images of a batch in inference mode *)

Lemma mapM_app {A B : Type} (f : A -> result B) (l1 l2 : list A) (y1 y2 : list B) :
  mapM f l1 = Ok y1 -> mapM f l2 = Ok y2 -> mapM f (l1 ++ l2) = Ok (y1 ++ y2).
Proof.
  revert y1. induction l1 as [| a l1 IH]; simpl; intros y1 H1 H2.
  - apply Ok_inj in H1. subst y1. exact H2.
  - apply bind_inv in H1 as (b & Hb & H1). apply bind_inv in H1 as (bs & Hbs & H1).
    apply Ok_inj in H1. subst y1.
    rewrite Hb. cbn [bind]. rewrite (IH bs Hbs H2). reflexivity.
Qed.

Lemma mapM_length {A B : Type} (f : A -> result B) (l : list A) (y : list B) :
  mapM f l = Ok y -> length y = length l.
Proof.
  revert y. induction l as [| a l IH]; simpl; intros y H.
  - apply Ok_inj in H. subst y. reflexivity.
  - apply bind_inv in H as (b & _ & H). apply bind_inv in H as (bs & Hbs & H).
    apply Ok_inj in H. subst y. simpl. f_equal. apply IH, Hbs.
Qed.

Lemma combine_app {A B : Type} (a1 a2 : list A) (b1 b2 : list B) :
  length a1 = length b1 ->
  combine (a1 ++ a2) (b1 ++ b2) = combine a1 b1 ++ combine a2 b2.
Proof.
  revert b1. induction a1 as [| a a1 IH]; intros [| b b1] H; simpl in *;
    try discriminate; [reflexivity |].
  f_equal. apply IH. lia.
Qed.

Section batches.

Context {T : Type} {ST : Scalar T}.

Lemma call_values_length (training : bool) (l : keras.layer T) (s : shape)
    (x y : images T) :
  keras.call_values training l s x = Ok y -> length y = length x.
Proof.
  destruct l; cbn [keras.call_values]; intros H;
    try (apply Ok_inj in H; subst y; unfold keras.batch_normalization;
         apply length_map);
    apply (mapM_length _ _ _ H).
Qed.

Lemma keras_call_length (training : bool) (l : keras.layer T) (x y : batch T) :
  keras.call training l x = Ok y -> length (values y) = length (values x).
Proof.
  intros H. apply keras_call_inv in H as [_ H]. apply (call_values_length _ _ _ _ _ H).
Qed.

Lemma Sequential_call_length (training : bool) (layers : list (keras.layer T)) :
  forall x y, keras.Sequential_call training layers x = Ok y ->
              length (values y) = length (values x).
Proof.
  unfold keras.Sequential_call.
  induction layers as [| l layers IH]; cbn [foldM]; intros x y H.
  - apply Ok_inj in H. subst y. reflexivity.
  - apply bind_inv in H as (x' & Hl & H).
    rewrite (IH _ _ H). apply (keras_call_length _ _ _ _ Hl).
Qed.

(** In inference mode every Keras layer of the model works image by
    image. *)
Lemma call_values_app (l : keras.layer T) (s : shape) (x1 x2 y1 y2 : images T) :
  keras.call_values false l s x1 = Ok y1 -> keras.call_values false l s x2 = Ok y2 ->
  keras.call_values false l s (x1 ++ x2) = Ok (y1 ++ y2).
Proof.
  destruct l; cbn [keras.call_values]; intros H1 H2;
    try (apply Ok_inj in H1; apply Ok_inj in H2; subst y1 y2;
         unfold keras.batch_normalization; rewrite map_app; reflexivity);
    apply mapM_app; assumption.
Qed.

Lemma keras_call_app (l : keras.layer T) (x1 x2 y1 y2 : batch T) :
  sample_shape x1 = sample_shape x2 ->
  keras.call false l x1 = Ok y1 -> keras.call false l x2 = Ok y2 ->
  keras.call false l (append_batches x1 x2) = Ok (append_batches y1 y2) /\
  sample_shape y1 = sample_shape y2.
Proof.
  intros Hs H1 H2.
  apply keras_call_inv in H1 as [S1 V1]. apply keras_call_inv in H2 as [S2 V2].
  rewrite <- Hs in S2, V2.
  assert (E : sample_shape y1 = sample_shape y2) by congruence.
  split; [| exact E].
  unfold keras.call, append_batches. cbn [sample_shape values].
  rewrite S1. cbn [bind].
  rewrite (call_values_app l _ _ _ _ _ V1 V2). reflexivity.
Qed.

Lemma Sequential_call_app (layers : list (keras.layer T)) :
  forall x1 x2 y1 y2,
  sample_shape x1 = sample_shape x2 ->
  keras.Sequential_call false layers x1 = Ok y1 ->
  keras.Sequential_call false layers x2 = Ok y2 ->
  keras.Sequential_call false layers (append_batches x1 x2) = Ok (append_batches y1 y2) /\
  sample_shape y1 = sample_shape y2.
Proof.
  unfold keras.Sequential_call.
  induction layers as [| l layers IH]; cbn [foldM]; intros x1 x2 y1 y2 Hs H1 H2.
  - apply Ok_inj in H1. apply Ok_inj in H2. subst. split; [reflexivity | exact Hs].
  - apply bind_inv in H1 as (z1 & Hz1 & H1). apply bind_inv in H2 as (z2 & Hz2 & H2).
    destruct (keras_call_app l x1 x2 z1 z2 Hs Hz1 Hz2) as [Ez Sz].
    rewrite Ez. cbn [bind]. apply IH; assumption.
Qed.

(** The sum of two batches of equal length, when it is defined. *)
Lemma add_inv (x f y : batch T) :
  length (values x) = length (values f) ->
  keras.add x f = Ok y ->
  keras.broadcast_shape (sample_shape x) (sample_shape f) = Ok (sample_shape y) /\
  mapM (fun p => keras.add_image (fst p) (snd p)) (combine (values x) (values f))
  = Ok (values y).
Proof.
  intros L H. unfold keras.add in H.
  destruct (keras.broadcast_shape (sample_shape x) (sample_shape f)) as [s | e];
    [| discriminate H].
  destruct (keras.broadcast_dim (length (values x)) (length (values f)));
    [| discriminate H].
  apply bind_inv in H as (v & Hv & H). apply Ok_inj in H. subst y.
  cbn [sample_shape values]. split; [reflexivity |].
  unfold keras.add_values, keras.broadcast2 in Hv.
  rewrite L, Nat.eqb_refl in Hv. exact Hv.
Qed.

Lemma add_app (x1 x2 f1 f2 y1 y2 : batch T) :
  length (values x1) = length (values f1) -> length (values x2) = length (values f2) ->
  sample_shape x1 = sample_shape x2 -> sample_shape f1 = sample_shape f2 ->
  keras.add x1 f1 = Ok y1 -> keras.add x2 f2 = Ok y2 ->
  keras.add (append_batches x1 x2) (append_batches f1 f2) = Ok (append_batches y1 y2) /\
  sample_shape y1 = sample_shape y2.
Proof.
  intros L1 L2 Sx Sf H1 H2.
  apply add_inv in H1 as [S1 V1]; [| exact L1].
  apply add_inv in H2 as [S2 V2]; [| exact L2].
  rewrite <- Sx, <- Sf in S2.
  assert (E : sample_shape y1 = sample_shape y2) by congruence.
  split; [| exact E].
  unfold keras.add, append_batches. cbn [sample_shape values].
  rewrite S1.
  assert (L : length (values x1 ++ values x2) = length (values f1 ++ values f2))
    by (rewrite !length_app; lia).
  rewrite L, broadcast_dim_refl.
  unfold keras.add_values, keras.broadcast2. rewrite L, Nat.eqb_refl.
  rewrite combine_app by exact L1.
  rewrite (mapM_app _ _ _ _ _ V1 V2). reflexivity.
Qed.

Lemma add_length (x f y : batch T) :
  length (values x) = length (values f) -> keras.add x f = Ok y ->
  length (values y) = length (values x).
Proof.
  intros L H. apply add_inv in H as [_ H]; [| exact L].
  apply mapM_length in H. rewrite H, length_combine. lia.
Qed.

Lemma ResBlock_call_app (r : ResBlock.t T) (x1 x2 y1 y2 : batch T) :
  sample_shape x1 = sample_shape x2 ->
  ResBlock.call false r x1 = Ok y1 -> ResBlock.call false r x2 = Ok y2 ->
  ResBlock.call false r (append_batches x1 x2) = Ok (append_batches y1 y2) /\
  sample_shape y1 = sample_shape y2.
Proof.
  unfold ResBlock.call. intros Hs H1 H2.
  apply bind_inv in H1 as (f1 & Hf1 & H1). apply bind_inv in H2 as (f2 & Hf2 & H2).
  destruct (Sequential_call_app _ _ _ _ _ Hs Hf1 Hf2) as [Ef Sf].
  rewrite Ef. cbn [bind].
  apply add_app; try assumption; symmetry; eapply Sequential_call_length; eassumption.
Qed.

Lemma ResBlock_call_length (training : bool) (r : ResBlock.t T) (x y : batch T) :
  ResBlock.call training r x = Ok y -> length (values y) = length (values x).
Proof.
  unfold ResBlock.call. intros H. apply bind_inv in H as (f & Hf & H).
  apply (add_length x f y); [| exact H].
  symmetry. apply (Sequential_call_length _ _ _ _ Hf).
Qed.

Lemma keras_call_training (training : bool) (l : keras.layer T) (x : batch T) :
  is_BatchNormalization l = false -> keras.call training l x = keras.call false l x.
Proof.
  destruct l; cbn [is_BatchNormalization]; intros H; [| | discriminate H | |]; reflexivity.
Qed.

Context {FW : Framework}.

Lemma call_node_app (nd : Model.node T) (x1 x2 y1 y2 : batch T) :
  sample_shape x1 = sample_shape x2 ->
  Model.call_node false nd x1 = Ok y1 -> Model.call_node false nd x2 = Ok y2 ->
  Model.call_node false nd (append_batches x1 x2) = Ok (append_batches y1 y2) /\
  sample_shape y1 = sample_shape y2.
Proof.
  destruct nd as [l | r]; cbn [Model.call_node].
  - apply keras_call_app.
  - apply ResBlock_call_app.
Qed.

End batches.

(** In inference mode a model, in particular an encoder and a decoder,
    treats the images of a batch independently of one another: what it
    returns for two batches of images of the same shape put together is
    what it returns for each, put together. *)
Theorem inference_batch_independence {T : Type} {ST : Scalar T} {FW : Framework}
    (m : Model.t T) (x1 x2 y1 y2 : batch T) :
  sample_shape x1 = sample_shape x2 ->
  Model.call false m x1 = Ok y1 -> Model.call false m x2 = Ok y2 ->
  Model.call false m (append_batches x1 x2) = Ok (append_batches y1 y2).
Proof.
  unfold Model.call. generalize (Model.layers m) as nodes.
  intros nodes. revert x1 x2 y1 y2.
  induction nodes as [| nd nodes IH]; cbn [foldM]; intros x1 x2 y1 y2 Hs H1 H2.
  - apply Ok_inj in H1. apply Ok_inj in H2. subst. reflexivity.
  - apply bind_inv in H1 as (z1 & Hz1 & H1). apply bind_inv in H2 as (z2 & Hz2 & H2).
    destruct (call_node_app nd x1 x2 z1 z2 Hs Hz1 Hz2) as [Hz Sz].
    rewrite Hz. cbn [bind]. apply IH; assumption.
Qed.

Lemma inference_batch_independence_witness :
  exists m y1 y2,
    get_encoder (T := R) (FW := sample_framework) 8 (16, 16, 3) 2 true "encoder"
      zero_encoder_vars = Ok m /\
    Model.call false m (zeros_batch (16, 16, 3)) = Ok y1 /\
    Model.call false m
      {| sample_shape := (16, 16, 3); values := [zeros (16, 16, 3); zeros (16, 16, 3)] |}
      = Ok y2 /\
    Model.call false m
      {| sample_shape := (16, 16, 3);
         values := [zeros (16, 16, 3); zeros (16, 16, 3); zeros (16, 16, 3)] |}
      = Ok (append_batches y1 y2).
Proof.
  assert (Ee : get_encoder (T := R) (FW := sample_framework) 8 (16, 16, 3) 2 true
                 "encoder" zero_encoder_vars
               = Ok (encoder_model 8 16 16 3 2 true "encoder" zero_encoder_vars))
    by (apply get_encoder_Ok; (lia || reflexivity)).
  destruct (get_encoder_call false 8 16 16 3 2 true "encoder" zero_encoder_vars _ 1
              (zeros_batch (16, 16, 3)) Ee (batch_has_shape_zeros (16, 16, 3)))
    as (y1 & E1 & _).
  destruct (get_encoder_call false 8 16 16 3 2 true "encoder" zero_encoder_vars _ 2
              {| sample_shape := (16, 16, 3);
                 values := [zeros (16, 16, 3); zeros (16, 16, 3)] |} Ee)
    as (y2 & E2 & _).
  { split; [reflexivity |]. split; [reflexivity |].
    repeat (constructor; [apply has_shape_tabulate |]). constructor. }
  eexists. exists y1, y2.
  split; [exact Ee |]. split; [exact E1 |]. split; [exact E2 |].
  apply (inference_batch_independence (FW := sample_framework) _
           (zeros_batch (16, 16, 3))
           {| sample_shape := (16, 16, 3);
              values := [zeros (16, 16, 3); zeros (16, 16, 3)] |} y1 y2 eq_refl E1 E2).
Defined.

(* ================================================================== *)
(** * The batch size, and the training flag *)

(** A model returns as many images as it is given, in training and in
    inference mode. *)
Theorem call_preserves_batch_size {T : Type} {ST : Scalar T} {FW : Framework}
    (training : bool) (m : Model.t T) (x y : batch T) :
  Model.call training m x = Ok y -> length (values y) = length (values x).
Proof.
  unfold Model.call. generalize (Model.layers m) as nodes. intros nodes. revert x y.
  induction nodes as [| nd nodes IH]; cbn [foldM]; intros x y H.
  - apply Ok_inj in H. subst y. reflexivity.
  - apply bind_inv in H as (z & Hz & H). rewrite (IH _ _ H).
    destruct nd as [l | r]; cbn [Model.call_node] in Hz.
    + apply (keras_call_length _ _ _ _ Hz).
    + apply (ResBlock_call_length _ _ _ _ Hz).
Qed.

Lemma call_preserves_batch_size_witness :
  exists m y,
    get_decoder (T := R) (FW := sample_framework) (2, 3, 8) 8 2 3 "decoder"
      zero_decoder_vars = Ok m /\
    Model.call true m
      {| sample_shape := (2, 3, 8); values := [zeros (2, 3, 8); zeros (2, 3, 8)] |}
      = Ok y /\
    length (values y) = 2.
Proof.
  assert (Ed : get_decoder (T := R) (FW := sample_framework) (2, 3, 8) 8 2 3 "decoder"
                 zero_decoder_vars
               = Ok (decoder_model 2 3 8 8 2 3 "decoder" zero_decoder_vars))
    by (apply get_decoder_Ok; (lia || reflexivity)).
  destruct (get_decoder_call true 2 3 8 8 2 3 "decoder" zero_decoder_vars _ 2
              {| sample_shape := (2, 3, 8);
                 values := [zeros (2, 3, 8); zeros (2, 3, 8)] |} Ed)
    as (y & E & _).
  { split; [reflexivity |]. split; [reflexivity |].
    repeat (constructor; [apply has_shape_tabulate |]). constructor. }
  eexists. exists y. split; [exact Ed |]. split; [exact E |].
  apply (call_preserves_batch_size (FW := sample_framework) true _ _ _ E).
Defined.

(** The training flag reaches a residual block only through its
    normalisation layer: a block without one, as every block of the
    decoder is, returns the same in training and in inference mode. *)
Theorem ResBlock_without_bn_ignores_training {T : Type} {ST : Scalar T}
    (r : ResBlock.t T) (training : bool) (x : batch T) :
  has_normalization r = false ->
  ResBlock.call training r x = ResBlock.call false r x.
Proof.
  unfold has_normalization, ResBlock.call, keras.Sequential_call. intros H.
  assert (E : forall x, foldM (keras.call training) (ResBlock.convs r) x
                        = foldM (keras.call false) (ResBlock.convs r) x).
  { induction (ResBlock.convs r) as [| l layers IH]; cbn [foldM existsb] in *;
      intros x0; [reflexivity |].
    apply orb_false_elim in H as [Hl Hr].
    rewrite (keras_call_training training l x0 Hl).
    destruct (keras.call false l x0) as [z | e]; cbn [bind]; [apply IH, Hr | reflexivity]. }
  rewrite E. reflexivity.
Qed.

Lemma ResBlock_without_bn_ignores_training_witness :
  has_normalization
    (ResBlock_of (T := R) 8 None false (Some "decoder_resblock0"%string)
       sample_ResBlock_vars) = false /\
  ResBlock.call true
    (ResBlock_of (T := R) 8 None false (Some "decoder_resblock0"%string)
       sample_ResBlock_vars) (zeros_batch (2, 2, 8))
  = ResBlock.call false
      (ResBlock_of (T := R) 8 None false (Some "decoder_resblock0"%string)
         sample_ResBlock_vars) (zeros_batch (2, 2, 8)).
Proof.
  split; [reflexivity |].
  apply (ResBlock_without_bn_ignores_training
           (ResBlock_of (T := R) 8 None false (Some "decoder_resblock0"%string)
              sample_ResBlock_vars) true (zeros_batch (2, 2, 8))).
  reflexivity.
Defined.

(* ================================================================== *)
(** * The parameters of [get_image_vqvae] and their defaults *)

Lemma as_nat_PNat (n : nat) : as_nat (PNat n) = Ok n.
Proof.
  unfold as_nat, PNat.
  destruct (Z.leb_spec 0 (Z.of_nat n)) as [_ | H]; [| lia].
  rewrite Nat2Z.id. reflexivity.
Qed.

(** The parameters of [get_image_vqvae] are bound in the order
    [latent_dim], [num_embeddings], [image_shape], [num_channels], [ema],
    [batchnorm], [name], by position or by keyword alike; a parameter
    that is not given takes its default: the module constants for the
    sizes, 3 channels, the moving-average quantizer, normalisation in the
    residual blocks and the name "vq_vae". *)
Theorem get_image_vqvae_call_binding {FW : Framework} (K : constants.t)
    (latent_dim num_embeddings H W num_channels : nat) (ema batchnorm : bool)
    (name : string) (vs : vqvae_vars) :
  get_image_vqvae_call K
    [PNat latent_dim; PNat num_embeddings; PTuple [PNat H; PNat W]; PNat num_channels;
     PBool ema; PBool batchnorm; PStr name] [] vs
  = get_image_vqvae K latent_dim num_embeddings (H, W) num_channels ema batchnorm name vs /\
  get_image_vqvae_call K []
    [("name"%string, PStr name); ("batchnorm"%string, PBool batchnorm);
     ("ema"%string, PBool ema); ("num_channels"%string, PNat num_channels);
     ("image_shape"%string, PTuple [PNat H; PNat W]);
     ("num_embeddings"%string, PNat num_embeddings);
     ("latent_dim"%string, PNat latent_dim)] vs
  = get_image_vqvae K latent_dim num_embeddings (H, W) num_channels ema batchnorm name vs /\
  get_image_vqvae_call K [PNat latent_dim; PNat num_embeddings]
    [("batchnorm"%string, PBool batchnorm)] vs
  = get_image_vqvae K latent_dim num_embeddings
      (constants.IMAGE_HEIGHT K, constants.IMAGE_WIDTH K) 3 true batchnorm "vq_vae" vs /\
  get_image_vqvae_call K [] [] vs
  = get_image_vqvae K (constants.EMBEDDING_DIM K) (constants.NUM_EMBEDDINGS K)
      (constants.IMAGE_HEIGHT K, constants.IMAGE_WIDTH K) 3 true true "vq_vae" vs /\
  get_image_vqvae_call K [PNat latent_dim] [("latent_dim"%string, PNat latent_dim)] vs
  = Raise TypeError /\
  get_image_vqvae_call K
    [PNat latent_dim; PNat num_embeddings; PTuple [PNat H; PNat W]; PNat num_channels;
     PBool ema; PBool batchnorm; PStr name; PStr name] [] vs
  = Raise TypeError.
Proof.
  unfold get_image_vqvae_call.
  repeat split;
    cbn [bind_arguments get_image_vqvae_params length Nat.ltb Nat.leb combine foldM bind
         negb existsb bound fst snd String.eqb Ascii.eqb Bool.eqb orb app argument lookup
         as_bool as_str as_pair];
    change (PInt 3) with (PNat 3);
    rewrite ?as_nat_PNat; cbn [bind]; reflexivity.
Qed.
